(** * copads/genetic.py: chromosomes, organisms and populations

    A shallow embedding of the genetic-algorithm kernel of
    [copads/genetic.py] (Python 2), and the properties its specification
    states about it.

    Conventions of the embedding:
    - Python integers are [Z]; Python floats are exact rationals [Q]
      (no rounding, no NaN, no infinities);
    - a raised exception is the [Raise] outcome of the [result] type;
    - the [random] module is an explicit source of raw draws threaded
      through the code ([rng]);
    - mutable objects that the code shares live in explicit stores. *)

From Stdlib Require Import ZArith QArith Qround Lia Lqa.
From stdpp Require Import base option list gmap strings pretty.

Local Open Scope Z_scope.

(** ** Outcomes of Python code *)

Inductive exn : Type :=
| IndexError
| ValueError
| KeyError
| TypeError
| ZeroDivisionError.

Inductive result (A : Type) : Type :=
| Ok (a : A)
| Raise (e : exn).
Arguments Ok {A} a.
Arguments Raise {A} e.

#[global] Instance result_ret : MRet result := fun _ a => Ok a.
#[global] Instance result_bind : MBind result := fun _ _ f m =>
  match m with
  | Ok a => f a
  | Raise e => Raise e
  end.

Definition is_ok {A} (r : result A) : bool :=
  match r with Ok _ => true | Raise _ => false end.

(** ** Rational comparisons as booleans *)

Definition Qlt_bool (x y : Q) : bool := negb (Qle_bool y x).

(** [int(x)] of a float: truncation toward zero. *)
Definition py_int (x : Q) : Z := Z.quot (Qnum x) (Z.pos (Qden x)).

(** ** Python list primitives over integer indices *)

Module PyList.
Section Ops.
Context {A : Type}.

Definition len (l : list A) : Z := Z.of_nat (length l).

(** A negative index counts from the end. *)
Definition norm (l : list A) (i : Z) : Z := if i <? 0 then i + len l else i.

(** The clamping of slice bounds and of [insert]'s index. *)
Definition clamp (l : list A) (i : Z) : nat :=
  Z.to_nat (Z.min (Z.max (norm l i) 0) (len l)).

(** [l[i]]: IndexError out of range. *)
Definition getitem (l : list A) (i : Z) : result A :=
  let j := norm l i in
  if (j <? 0) || (len l <=? j) then Raise IndexError
  else match l !! Z.to_nat j with
       | Some x => Ok x
       | None => Raise IndexError
       end.

(** [l[i] = x]: IndexError out of range. *)
Definition setitem (l : list A) (i : Z) (x : A) : result (list A) :=
  let j := norm l i in
  if (j <? 0) || (len l <=? j) then Raise IndexError
  else Ok (<[Z.to_nat j := x]> l).

(** [l.pop(i)]: the removed element and the remaining list. *)
Definition pop (l : list A) (i : Z) : result (A * list A) :=
  let j := norm l i in
  if (j <? 0) || (len l <=? j) then Raise IndexError
  else match l !! Z.to_nat j with
       | Some x => Ok (x, delete (Z.to_nat j) l)
       | None => Raise IndexError
       end.

(** [l.insert(i, x)]: never fails, the index is clamped. *)
Definition insert (l : list A) (i : Z) (x : A) : list A :=
  let j := clamp l i in take j l ++ x :: drop j l.

(** [l[a:b]]. *)
Definition slice (l : list A) (a b : Z) : list A :=
  let i := clamp l a in
  let j := clamp l b in
  take (j - i)%nat (drop i l).

(** [l[:b]] and [l[a:]]. *)
Definition slice_to (l : list A) (b : Z) : list A := take (clamp l b) l.
Definition slice_from (l : list A) (a : Z) : list A := drop (clamp l a) l.
End Ops.
End PyList.

(** ** The random module *)

(** The generator is a sequence of raw draws and a cursor. A call takes the
    draw under the cursor and reduces it into the requested range, so every
    value of the range can come out. *)
Record rng : Type := Rng { draws : nat -> Z; cursor : nat }.

Definition next_raw (g : rng) : Z * rng :=
  (draws g (cursor g), Rng (draws g) (S (cursor g))).

(** [random.randrange(a, b)]: an integer of [[a, b)], ValueError when the
    range is empty. *)
Definition randrange2 (a b : Z) (g : rng) : result (Z * rng) :=
  if b <=? a then Raise ValueError
  else let '(r, g') := next_raw g in Ok (a + r mod (b - a), g').

(** [random.randrange(n)]. *)
Definition randrange (n : Z) (g : rng) : result (Z * rng) := randrange2 0 n g.

(** [random.randint(a, b)]: an integer of [[a, b]]. *)
Definition randint (a b : Z) (g : rng) : result (Z * rng) :=
  randrange2 a (b + 1) g.

(** A generator whose every draw is 0. *)
Definition g0 : rng := Rng (fun _ => 0) O.

(** ** class Chromosome, by value

    [self.sequence], [self.base] and [self.background_mutation]. The methods
    that edit [self.sequence] in place take the chromosome and return it
    edited. *)
Record Chromosome : Type := mkChromosome {
  sequence : list Z;
  base : list Z;
  background_mutation : Q
}.

(** The defaults of [Chromosome.__init__]: [sequence=[0]*1000],
    [base=[1, 0]], [background_mutation=0.0001]. *)
Definition default_base : list Z := [1; 0].
Definition default_background_mutation : Q := 1 # 10000.
Definition Chromosome_default : Chromosome :=
  mkChromosome (replicate 1000 0) default_base default_background_mutation.

(** ** class Organism: the status table *)

Module Organism.

(** The values a status entry or an argument of [setStatus] can hold. *)
Inductive pyval : Type :=
| VBool (b : bool)
| VNum (q : Q)
| VStr (s : string)
| VNone.

Definition num_of_bool (b : bool) : Q := if b then 1%Q else 0%Q.

(** [x == y]: [True] and [False] are the numbers 1 and 0. *)
Definition py_eq (x y : pyval) : bool :=
  match x, y with
  | VBool a, VBool b => Bool.eqb a b
  | VBool a, VNum q | VNum q, VBool a => Qeq_bool (num_of_bool a) q
  | VNum p, VNum q => Qeq_bool p q
  | VStr s, VStr t => bool_decide (s = t)
  | VNone, VNone => true
  | _, _ => false
  end.

(** [x < y] for a float [x], with Python 2's ordering across types: [None]
    is below every number, every string is above. *)
Definition py_float_lt (x : Q) (y : pyval) : bool :=
  match y with
  | VBool b => Qlt_bool x (num_of_bool b)
  | VNum q => Qlt_bool x q
  | VStr _ => true
  | VNone => false
  end.

Abbreviation dict := (gmap string pyval).

(** [status] in the class body: one dict, made when the class is. *)
Definition initial_status : dict :=
  <["alive" := VBool true]> (<["vitality" := VNum 100]> (<["age" := VNum 0]>
  (<["lifespan" := VNum 100]> (<["fitness" := VNum 100]>
  (<["death" := VNone]> ∅))))).

Definition dict_getitem (d : dict) (k : string) : result pyval :=
  match d !! k with
  | Some v => Ok v
  | None => Raise KeyError
  end.

(** [float(s)] of a string [s] is the interpreter's numeral parser, which
    the embedding takes as given; [None] is its ValueError. *)
Class FloatParser : Type := float_of_str : string -> option Q.

(** [float(value)]. *)
Definition py_float `{FloatParser} (value : pyval) : result Q :=
  match value with
  | VBool b => Ok (num_of_bool b)
  | VNum q => Ok q
  | VStr s => match float_of_str s with
              | Some q => Ok q
              | None => Raise ValueError
              end
  | VNone => Raise TypeError
  end.

(** The body of [setStatus], on the dict that [self.status] denotes. *)
Definition setStatus_body `{FloatParser} (variable : string) (value : pyval)
  (status : dict) : result dict :=
  let status :=
    if bool_decide (variable = "alive") && py_eq value (VBool true)
    then <["alive" := value]> status else status in
  let status :=
    if bool_decide (variable = "alive") && py_eq value (VBool false)
    then <["death" := VStr "death03"]> (<["alive" := value]> status)
    else status in
  if bool_decide (variable = "vitality") then
    f ← py_float value;
    let status :=
      if Qlt_bool (1001 # 10) f
      then <["vitality" := VNum 100]> status else status in
    let status :=
      if Qlt_bool 0 f && Qlt_bool f (1001 # 10)
      then <["vitality" := VNum f]> status else status in
    let status :=
      if Qeq_bool f 0 || Qlt_bool f 0
      then <["death" := VStr "death01"]> (<["alive" := VBool false]>
           (<["vitality" := VNum 0]> status))
      else status in
    Ok status
  else if bool_decide (variable = "age") then
    f ← py_float value;
    lifespan ← dict_getitem status "lifespan";
    if py_float_lt f lifespan
    then Ok (<["age" := VNum f]> status)
    else
      Ok (<["death" := VStr "death02"]> (<["alive" := VBool false]>
          (<["age" := lifespan]> status)))
  else Ok (<[variable := value]> status).

(** *** Objects and attribute lookup

    [status] is assigned in the class body, so it is an attribute of the
    class. [__init__] assigns [self.genome] and [self.gender] and no method
    assigns [self.status]: an instance has an entry [status] of its own only
    when a caller put one there. [self.status] reads the instance's entry
    when there is one and the class attribute otherwise. *)

Abbreviation loc := positive.

Record instance : Type := mkInstance {
  genome : list Chromosome;
  gender : pyval;
  own_status : option loc
}.

Record world : Type := mkWorld {
  Organism_status : dict;          (* the dict of the class attribute *)
  dicts : gmap loc dict;           (* every other dict object *)
  organisms : gmap loc instance    (* the Organism instances *)
}.

(** The dict object an attribute denotes. *)
Inductive dictref : Type :=
| ClassStatus
| OwnDict (l : loc).

(** [self.status]. A reference to no object is not a Python outcome; it is
    reported as TypeError and arises from an ill-formed store only. *)
Definition status_ref (self : loc) (w : world) : result dictref :=
  match organisms w !! self with
  | None => Raise TypeError
  | Some o => match own_status o with
              | Some l => Ok (OwnDict l)
              | None => Ok ClassStatus
              end
  end.

Definition read_dict (r : dictref) (w : world) : result dict :=
  match r with
  | ClassStatus => Ok (Organism_status w)
  | OwnDict l => match dicts w !! l with
                 | Some d => Ok d
                 | None => Raise TypeError
                 end
  end.

Definition write_dict (r : dictref) (d : dict) (w : world) : world :=
  match r with
  | ClassStatus => mkWorld d (dicts w) (organisms w)
  | OwnDict l => mkWorld (Organism_status w) (<[l := d]> (dicts w)) (organisms w)
  end.

(** The argument [genome] of [__init__]. *)
Inductive genome_arg : Type :=
| GDefault
| GDummy
| GList (chromosomes : list Chromosome).

(** [Organism(genome, gender)]: the new object and the store holding it. *)
Definition init (g : genome_arg) (gen : pyval) (w : world) : loc * world :=
  let chromosomes :=
    match g with
    | GDefault => [Chromosome_default]
    | GDummy => [mkChromosome [0] default_base default_background_mutation]
    | GList cs => cs
    end in
  let self := fresh (dom (organisms w)) in
  (self, mkWorld (Organism_status w) (dicts w)
           (<[self := mkInstance chromosomes gen None]> (organisms w))).

(** [self.setStatus(variable, value)]. *)
Definition setStatus `{FloatParser} (self : loc) (variable : string)
  (value : pyval) (w : world) : result world :=
  r ← status_ref self w;
  status ← read_dict r w;
  status' ← setStatus_body variable value status;
  Ok (write_dict r status' w).

(** [self.getStatus(variable)]. *)
Definition getStatus (self : loc) (variable : string) (w : world)
  : result pyval :=
  r ← status_ref self w;
  status ← read_dict r w;
  dict_getitem status variable.

(** [self.clone()], that is [deepcopy(self)]: a new instance whose
    [__dict__] holds deep copies of the entries of [self.__dict__]. The
    genome is held by value, so its copy is itself; a dict the instance owns
    is copied into a new dict object (its values are immutable). Attributes
    of the class are not part of [self.__dict__] and are not copied. *)
Definition clone (self : loc) (w : world) : result (loc * world) :=
  match organisms w !! self with
  | None => Raise TypeError
  | Some o =>
      let new := fresh (dom (organisms w)) in
      match own_status o with
      | None =>
          Ok (new, mkWorld (Organism_status w) (dicts w)
                     (<[new := mkInstance (genome o) (gender o) None]>
                        (organisms w)))
      | Some l =>
          match dicts w !! l with
          | None => Raise TypeError
          | Some d =>
              let l' := fresh (dom (dicts w)) in
              Ok (new, mkWorld (Organism_status w) (<[l' := d]> (dicts w))
                         (<[new := mkInstance (genome o) (gender o) (Some l')]>
                            (organisms w)))
          end
      end
  end.

(** The operations of the class on a store, and runs of them. *)
Inductive op : Type :=
| OpInit (g : genome_arg) (gen : pyval)
| OpSetStatus (self : loc) (variable : string) (value : pyval)
| OpClone (self : loc).

Definition run_op `{FloatParser} (o : op) (w : world) : result world :=
  match o with
  | OpInit g gen => Ok (snd (init g gen w))
  | OpSetStatus self variable value => setStatus self variable value w
  | OpClone self => p ← clone self w; Ok (snd p)
  end.

Fixpoint run `{FloatParser} (os : list op) (w : world) : result world :=
  match os with
  | [] => Ok w
  | o :: os' => w' ← run_op o w; run os' w'
  end.

(** The store when the module has been loaded: the class and no instance. *)
Definition initial_world : world := mkWorld initial_status ∅ ∅.

#[global] Instance dictref_eq_dec : EqDecision dictref.
Proof. solve_decision. Defined.

(** Every instance of the store reads its status from the class. *)
Definition class_only (w : world) : Prop :=
  forall l o, organisms w !! l = Some o -> own_status o = None.

(** The calls [setStatus('alive', ...)]. *)
Definition names_alive (o : op) : bool :=
  match o with
  | OpSetStatus _ variable _ => bool_decide (variable = "alive")
  | _ => false
  end.

(** *** Concrete stores *)

(** A parser that takes no string for a numeral. *)
Definition no_numerals : FloatParser := fun _ => None.

(** Two organisms, each with the dummy genome. *)
Definition two_organisms : list op :=
  [OpInit GDummy VNone; OpInit GDummy VNone].

Definition world2 : world :=
  Eval vm_compute in
    match @run no_numerals two_organisms initial_world with
    | Ok w => w
    | Raise _ => initial_world
    end.

(** The same store after [setStatus('vitality', 0)] on the first one. *)
Definition dead_world : world :=
  Eval vm_compute in
    match @setStatus no_numerals 1%positive "vitality" (VNum 0) world2 with
    | Ok w => w
    | Raise _ => initial_world
    end.

End Organism.

(** ** In-place code: state and exceptions

    A computation over a mutable state [S] returns its outcome together with
    the state it leaves; after an exception the state keeps every update
    made before the raise. *)

Definition ST (S A : Type) : Type := S -> result A * S.

Definition st_ret {S A} (a : A) : ST S A := fun s => (Ok a, s).

Definition st_bind {S A B} (m : ST S A) (f : A -> ST S B) : ST S B :=
  fun s => match m s with
           | (Ok a, s') => f a s'
           | (Raise e, s') => (Raise e, s')
           end.

Definition st_raise {S A} (e : exn) : ST S A := fun s => (Raise e, s).

Declare Scope st_scope.
Delimit Scope st_scope with st.
Notation "x <- m ;; k" := (st_bind m (fun x => k))
  (at level 100, m at next level, right associativity) : st_scope.
Notation "m ;; k" := (st_bind m (fun _ => k))
  (at level 100, right associativity) : st_scope.

(** A computation that only reads or replaces the state. *)
Definition st_get {S} : ST S S := fun s => (Ok s, s).
Definition st_put {S} (s : S) : ST S unit := fun _ => (Ok tt, s).

(** A pure, fallible step. *)
Definition st_lift {S A} (r : result A) : ST S A := fun s => (r, s).

(** ** Chromosome.kmutate and Chromosome.rmutate *)

Module Mutation.
Local Open Scope st_scope.

(** The state of a method call: [self.sequence], the generator, and the
    number of edits completed so far by [rmutate]'s loop (a ghost counter,
    the code keeps none). *)
Record mstate : Type := mkState {
  st_sequence : list Z;
  st_rng : rng;
  st_edits : nat
}.

Abbreviation M := (ST mstate).

(** [self.sequence[i] = x]. *)
Definition seq_setitem (i x : Z) : M unit := fun s =>
  match PyList.setitem (st_sequence s) i x with
  | Ok l => (Ok tt, mkState l (st_rng s) (st_edits s))
  | Raise e => (Raise e, s)
  end.

(** [self.sequence.pop(i)]. *)
Definition seq_pop (i : Z) : M Z := fun s =>
  match PyList.pop (st_sequence s) i with
  | Ok (x, l) => (Ok x, mkState l (st_rng s) (st_edits s))
  | Raise e => (Raise e, s)
  end.

(** [self.sequence.insert(i, x)]. *)
Definition seq_insert (i x : Z) : M unit := fun s =>
  (Ok tt, mkState (PyList.insert (st_sequence s) i x) (st_rng s) (st_edits s)).

(** [self.sequence[a:b]] and [len(self.sequence)]. *)
Definition seq_slice (a b : Z) : M (list Z) := fun s =>
  (Ok (PyList.slice (st_sequence s) a b), s).
Definition seq_len : M Z := fun s => (Ok (PyList.len (st_sequence s)), s).

(** Calls of the random module. *)
Definition with_rng (f : rng -> result (Z * rng)) : M Z := fun s =>
  match f (st_rng s) with
  | Ok (x, g) => (Ok x, mkState (st_sequence s) g (st_edits s))
  | Raise e => (Raise e, s)
  end.

(** One more completed edit. *)
Definition count_edit : M unit := fun s =>
  (Ok tt, mkState (st_sequence s) (st_rng s) (S (st_edits s))).

(** [for base in bases: self.sequence.insert(i, base)]. *)
Fixpoint insert_each (i : Z) (bases : list Z) : M unit :=
  match bases with
  | [] => st_ret tt
  | b :: bases' => seq_insert i b ;; insert_each i bases'
  end.

(** [for i in range(len(fragment)): self.sequence.insert(p + i, fragment[i])]. *)
Fixpoint insert_run (p : Z) (fragment : list Z) : M unit :=
  match fragment with
  | [] => st_ret tt
  | b :: fragment' => seq_insert p b ;; insert_run (p + 1) fragment'
  end.

(** [[self.sequence.pop(p) for i in range(n)]]. *)
Fixpoint pop_times (n : nat) (p : Z) : M (list Z) :=
  match n with
  | O => st_ret []
  | S n' => x <- seq_pop p ;; xs <- pop_times n' p ;; st_ret (x :: xs)
  end.

(** The argument [sequence] of [kmutate]: a base for a point mutation, the
    bases to insert for an insertion, [None] by default. *)
Inductive seq_arg : Type :=
| ArgBase (b : Z)
| ArgBases (bs : list Z)
| ArgNone.

(** [list(sequence)]: an integer and [None] are not iterable. *)
Definition arg_list (a : seq_arg) : result (list Z) :=
  match a with
  | ArgBases bs => Ok bs
  | ArgBase _ | ArgNone => Raise TypeError
  end.

(** The object a point mutation stores. The sequences of the embedding hold
    symbols only: storing anything else is reported as TypeError. *)
Definition arg_base (a : seq_arg) : result Z :=
  match a with
  | ArgBase b => Ok b
  | ArgBases _ | ArgNone => Raise TypeError
  end.

Definition when {S} (c : bool) (m : ST S unit) : ST S unit :=
  if c then m else st_ret tt.

Definition is_type (type name : string) : bool := bool_decide (type = name).

(** [self.kmutate(type, start, end, sequence, tpos)]. *)
Definition kmutate (type : string) (start end_ : Z) (sequence : seq_arg)
  (tpos : Z) : M unit :=
  when (is_type type "point")
    (b <- st_lift (arg_base sequence) ;; seq_setitem start b) ;;
  when (is_type type "delete")
    (_ <- seq_pop start ;; st_ret tt) ;;
  when (is_type type "insert")
    (bs <- st_lift (arg_list sequence) ;; insert_each start bs) ;;
  when (is_type type "duplicate")
    (fragment <- seq_slice start (end_ + 1) ;; insert_run end_ fragment) ;;
  when (is_type type "invert")
    (bs <- seq_slice start end_ ;; insert_each start bs) ;;
  when (is_type type "translocate")
    (fragment <- pop_times (Z.to_nat (end_ - start)) start ;;
     insert_run tpos fragment).

(** The region and the number of mutations that [rmutate] computes before
    its loop: [(start, end, length, mutation)]. *)
Definition region (self : Chromosome) (rate : Q) (start end_ : Z)
  (n : Z) : Z * Z * Z * Z :=
  let end_ := if n - 1 <? end_ then n - 1 else end_ in
  let end_ := if end_ =? -1 then n - 1 else end_ in
  let start := if start =? end_ then 0 else start in
  let length := end_ - start in
  let mutation :=
    py_int ((background_mutation self + rate) * inject_Z length) in
  (start, end_, length, mutation).

(** One turn of the loop of [rmutate]. *)
Definition rmutate_step (self : Chromosome) (type : string)
  (start end_ length : Z) : M unit :=
  r <- with_rng (randrange (length - 1)) ;;
  let position := start + r in
  k <- with_rng (randrange (PyList.len (base self))) ;;
  new_base <- st_lift (PyList.getitem (base self) k) ;;
  when (is_type type "point") (seq_setitem position new_base) ;;
  when (is_type type "delete") (_ <- seq_pop position ;; st_ret tt) ;;
  when (is_type type "insert") (seq_insert position new_base) ;;
  when (is_type type "duplicate")
    (end_pos <- with_rng (randrange2 (position + 1) end_) ;;
     fragment <- seq_slice position end_pos ;;
     insert_run end_pos fragment) ;;
  when (is_type type "invert")
    (end_pos <- with_rng (randrange2 (position + 1) end_) ;;
     fragment <- pop_times (Z.to_nat (end_pos - position)) position ;;
     insert_each position (rev fragment)) ;;
  when (is_type type "translocate")
    (end_pos <- with_rng (randrange2 (position + 1) end_) ;;
     fragment <- pop_times (Z.to_nat (end_pos - position)) position ;;
     n <- seq_len ;;
     insertion_point <- with_rng (randint 0 n) ;;
     insert_run insertion_point fragment) ;;
  count_edit.

(** [while mutation > 0: ...; mutation = mutation - 1]. *)
Fixpoint rmutate_loop (mutation : nat) (step : M unit) : M unit :=
  match mutation with
  | O => st_ret tt
  | S mutation' => step ;; rmutate_loop mutation' step
  end.

(** [self.rmutate(type, rate, start, end)]. *)
Definition rmutate (self : Chromosome) (type : string) (rate : Q)
  (start end_ : Z) : M unit := fun s =>
  let '(start', end', length, mutation) :=
    region self rate start end_ (PyList.len (st_sequence s)) in
  rmutate_loop (Z.to_nat mutation)
    (rmutate_step self type start' end' length) s.

(** The call on a chromosome, started with no edit counted. *)
Definition call (m : M unit) (self : Chromosome) (g : rng)
  : result unit * mstate :=
  m (mkState (sequence self) g O).

(** *** Notions used to state what the methods do *)

Definition with_sequence (l : list Z) (s : mstate) : mstate :=
  mkState l (st_rng s) (st_edits s).

(** [end] after the first two tests of [rmutate]. *)
Definition norm_end (end_ n : Z) : Z :=
  let e := if n - 1 <? end_ then n - 1 else end_ in
  if e =? -1 then n - 1 else e.

(** The kinds whose edits never pop more than they put back. *)
Definition steady_kinds : list string :=
  ["point"; "insert"; "duplicate"; "invert"; "translocate"].

(** A computation that leaves the counter alone, and one that adds one to
    it exactly when it returns. *)
Definition keeps_edits {A} (m : M A) : Prop :=
  forall s, st_edits (snd (m s)) = st_edits s.

Definition counts_one (m : M unit) : Prop :=
  forall s, match m s with
            | (Ok _, s') => st_edits s' = S (st_edits s)
            | (Raise _, s') => st_edits s' = st_edits s
            end.

(** [m] returns from [s], with a value and a state that satisfy [Q]. *)
Definition returns {A} (m : M A) (s : mstate) (Q : A -> mstate -> Prop)
  : Prop :=
  exists a s', m s = (Ok a, s') /\ Q a s'.

(** *** Concrete chromosomes *)

Definition chromosome4 : Chromosome := mkChromosome [1; 2; 3; 4] [1; 0] 0.

(** A hundred symbols, no background mutation. *)
Definition chromosome100 : Chromosome :=
  mkChromosome (replicate 100 0) [1; 0] 0.

End Mutation.

(** ** crossover

    [crossover] builds new Chromosome objects or hands back the ones it was
    given, so here chromosomes and the lists they refer to are objects of a
    store. *)

Module Crossover.

Abbreviation loc := positive.

(** A Chromosome object: its attributes refer to list objects. *)
Record chromosome : Type := mkObj {
  sequence_ref : loc;
  base_ref : loc;
  bg_mutation : Q
}.

Record store : Type := mkStore {
  lists : gmap loc (list Z);
  chromosomes : gmap loc chromosome
}.

(** A new list object. *)
Definition new_list (l : list Z) (h : store) : loc * store :=
  let r := fresh (dom (lists h)) in
  (r, mkStore (<[r := l]> (lists h)) (chromosomes h)).

(** [Chromosome(sequence, base)]: [background_mutation] takes its default. *)
Definition new_Chromosome (sequence base : loc) (h : store) : loc * store :=
  let r := fresh (dom (chromosomes h)) in
  (r, mkStore (lists h)
        (<[r := mkObj sequence base default_background_mutation]>
           (chromosomes h))).

(** [Chromosome(l, base)] for a list [l] just computed. *)
Definition build (l : list Z) (base : loc) (h : store) : loc * store :=
  let '(r, h1) := new_list l h in new_Chromosome r base h1.

Definition get_chromosome (c : loc) (h : store) : result chromosome :=
  match chromosomes h !! c with
  | Some o => Ok o
  | None => Raise TypeError
  end.

Definition get_list (r : loc) (h : store) : result (list Z) :=
  match lists h !! r with
  | Some l => Ok l
  | None => Raise TypeError
  end.

(** [chromosome.sequence], read through the store. *)
Definition sequence_of (c : loc) (h : store) : result (list Z) :=
  o ← get_chromosome c h; get_list (sequence_ref o) h.

(** [crossover(chromosome1, chromosome2, position)], for an integer
    [position]. *)
Definition crossover (chromosome1 chromosome2 : loc) (position : Z)
  (h : store) : result (loc * loc * store) :=
  c1 ← get_chromosome chromosome1 h;
  c2 ← get_chromosome chromosome2 h;
  seq1 ← get_list (sequence_ref c1) h;
  seq2 ← get_list (sequence_ref c2) h;
  if (position <? PyList.len seq1) && (position <? PyList.len seq2) then
    let '(new1, h1) :=
      build (PyList.slice_to seq1 position ++ PyList.slice_from seq2 position)
        (base_ref c1) h in
    let '(new2, h2) :=
      build (PyList.slice_to seq2 position ++ PyList.slice_from seq1 position)
        (base_ref c2) h1 in
    Ok (new1, new2, h2)
  else if position <? PyList.len seq1 then
    let '(new1, h1) := build (PyList.slice_to seq1 position) (base_ref c1) h in
    let '(new2, h2) :=
      build (seq2 ++ PyList.slice_from seq1 position) (base_ref c2) h1 in
    Ok (new1, new2, h2)
  else if position <? PyList.len seq2 then
    let '(new1, h1) :=
      build (seq1 ++ PyList.slice_from seq2 position) (base_ref c1) h in
    let '(new2, h2) := build (PyList.slice_to seq2 position) (base_ref c2) h1 in
    Ok (new1, new2, h2)
  else Ok (chromosome1, chromosome2, h).

(** [h'] holds every object of [h], unchanged. *)
Definition extends (h h' : store) : Prop :=
  (forall r l, lists h !! r = Some l -> lists h' !! r = Some l) /\
  (forall c o, chromosomes h !! c = Some o -> chromosomes h' !! c = Some o).

(** Two chromosomes over one alphabet: [[1, 2, 3]] and [[4, 5, 6, 7]]. *)
Definition store2 : store :=
  Eval vm_compute in
    let '(b, h) := new_list [1; 0] (mkStore ∅ ∅) in
    let '(_, h) := build [1; 2; 3] b h in
    (build [4; 5; 6; 7] b h).2.

End Crossover.

(** ** class Population *)

Module Population.
Section Agents.

(** The organisms of [self.agents], and the method [fitness] they carry,
    which a caller may replace. [sum(sfitness) / len(sfitness)] is taken on
    floats. *)
Context {Organism : Type} (fitness : Organism -> result Q).

(** [[f(x) for x in xs]]. *)
Fixpoint map_result {A B} (f : A -> result B) (xs : list A)
  : result (list B) :=
  match xs with
  | [] => Ok []
  | x :: xs' => y ← f x; ys ← map_result f xs'; Ok (y :: ys)
  end.

Definition Qsum (qs : list Q) : Q := foldr Qplus 0%Q qs.

(** [sum(sfitness) / len(sfitness)]. *)
Definition mean (sfitness : list Q) : result Q :=
  match sfitness with
  | [] => Raise ZeroDivisionError
  | _ => Ok (Qsum sfitness / inject_Z (PyList.len sfitness))%Q
  end.

(** [[agents[x] for x in range(size) if sfitness[x] > threshold]]. *)
Fixpoint above (threshold : Q) (agents : list Organism) (sfitness : list Q)
  : list Organism :=
  match agents, sfitness with
  | a :: agents', f :: sfitness' =>
      if Qlt_bool threshold f then a :: above threshold agents' sfitness'
      else above threshold agents' sfitness'
  | _, _ => []
  end.

(** [[pool[random.randint(0, size - 1)] for x in xrange(n)]]. *)
Fixpoint sample (n : nat) (pool : list Organism) (g : rng)
  : result (list Organism * rng) :=
  match n with
  | O => Ok ([], g)
  | S n' =>
      '(i, g1) ← randint 0 (PyList.len pool - 1) g;
      a ← PyList.getitem pool i;
      '(rest, g2) ← sample n' pool g1;
      Ok (a :: rest, g2)
  end.

(** [self.prepopulation_control()]: the new [self.agents]. *)
Definition prepopulation_control (agents : list Organism) (g : rng)
  : result (list Organism * rng) :=
  sfitness ← map_result fitness agents;
  threshold ← mean sfitness;
  let temp := above threshold agents sfitness in
  '(agents1, g1) ←
    (if 2001 <? PyList.len temp
     then sample 2000 temp g
     else Ok (agents, g));
  let agents2 := if 21 <? PyList.len temp then temp else agents1 in
  Ok (agents2, g1).

(** [self.freeze(prefix, proportion)]: the name of the file and the sample
    written to it. *)
Definition freeze (agents : list Organism) (generation : Z)
  (prefix : string) (proportion : Q) (g : rng)
  : result (string * list Organism * rng) :=
  let proportion := if Qlt_bool 1 proportion then 1%Q else proportion in
  let n := PyList.len agents in
  '(sample_, g1) ←
    (if (n <? 101) || Qlt_bool (inject_Z n * proportion) 101
     then Ok (agents, g)
     else sample (Z.to_nat (py_int (inject_Z n * proportion))) agents g);
  let name :=
    (prefix +:+ pretty generation +:+ "_" +:+ pretty (PyList.len sample_)
       +:+ ".gap")%string in
  Ok (name, sample_, g1).

End Agents.

(** *** Concrete populations *)

(** Organisms are numbered; those numbered below [k] have fitness 1, the
    others fitness 0. *)
Definition fitness_below (k : nat) (o : nat) : result Q :=
  Ok (if (o <? k)%nat then 1%Q else 0%Q).

(** The organisms numbered from 0 to [n - 1]. *)
Definition population (n : Z) : list nat := seq 0 (Z.to_nat n).

End Population.

(** ** Outcomes of in-place code, with the state they leave *)

Module Outcome.
Import Mutation.

(** What holds after [m] from [s]: [Q] of the value and the state when [m]
    returns, [E] of the exception and the state when it raises. *)
Definition wp {A} (m : M A) (s : mstate) (Q : A -> mstate -> Prop)
  (E : exn -> mstate -> Prop) : Prop :=
  match m s with
  | (Ok a, s') => Q a s'
  | (Raise e, s') => E e s'
  end.

(** The index a list operation reaches for [i]. *)
Definition index_of (l : list Z) (i : Z) : nat := Z.to_nat (PyList.norm l i).

(** [i] is an index of [l], counted from the start or, negative, from the
    end. *)
Definition in_range (l : list Z) (i : Z) : Prop :=
  - PyList.len l <= i < PyList.len l.

(** The six names [kmutate] and [rmutate] know. *)
Definition kinds : list string :=
  ["point"; "delete"; "insert"; "duplicate"; "invert"; "translocate"].

(** The [start] that [rmutate] works with, once [end] is adjusted
    ([norm_end]), and the number of turns of its loop: components of
    [region]. *)
Definition adj_start (start end_ n : Z) : Z :=
  if start =? norm_end end_ n then 0 else start.

Definition turns (self : Chromosome) (rate : Q) (start end_ n : Z) : nat :=
  Z.to_nat (region self rate start end_ n).2.

(** What a turn of [rmutate]'s loop does once the position and the new base
    are drawn: the six tests on [type], then the end of the turn. *)
Definition branches (type : string) (position new_base end_ : Z) : M unit :=
  (when (is_type type "point") (seq_setitem position new_base) ;;
   when (is_type type "delete") (_ <- seq_pop position ;; st_ret tt) ;;
   when (is_type type "insert") (seq_insert position new_base) ;;
   when (is_type type "duplicate")
     (end_pos <- with_rng (randrange2 (position + 1) end_) ;;
      fragment <- seq_slice position end_pos ;;
      insert_run end_pos fragment) ;;
   when (is_type type "invert")
     (end_pos <- with_rng (randrange2 (position + 1) end_) ;;
      fragment <- pop_times (Z.to_nat (end_pos - position)) position ;;
      insert_each position (rev fragment)) ;;
   when (is_type type "translocate")
     (end_pos <- with_rng (randrange2 (position + 1) end_) ;;
      fragment <- pop_times (Z.to_nat (end_pos - position)) position ;;
      n <- seq_len ;;
      insertion_point <- with_rng (randint 0 n) ;;
      insert_run insertion_point fragment) ;;
   count_edit)%st.

(** [m] maintains [I], whether it returns or raises. *)
Definition maintains {A} (I : mstate -> Prop) (m : M A) : Prop :=
  forall s, I s -> wp m s (fun _ => I) (fun _ => I).

(** Every symbol of [l] is one of [B]. *)
Definition within (B l : list Z) : Prop := Forall (fun x => x ∈ B) l.

End Outcome.

(** ** Organism.fitness and Population.report *)

Module Scoring.

(** [sum(l)] of a list of integers. *)
Definition Zsum (l : list Z) : Z := foldr Z.add 0 l.

(** [self.fitness()], the sample implementation: the share of the genome
    that is 1, as [float(one_count) / float(length_of_genome)]. *)
Definition fitness (self : Organism.instance) : result Q :=
  let one_count :=
    Zsum ((fun c => Zsum (sequence c)) <$> Organism.genome self) in
  let length_of_genome :=
    Zsum ((fun c => PyList.len (sequence c)) <$> Organism.genome self) in
  if length_of_genome =? 0 then Raise ZeroDivisionError
  else Ok (inject_Z one_count / inject_Z length_of_genome)%Q.

(** The dict that [report] returns. *)
Record report_dict : Type := mkReport {
  generation : Z;
  average_fitness : Q;
  percent_to_goal : Q
}.

(** [self.report()], for a numeric goal. *)
Definition report {Organism : Type} (fitness : Organism -> result Q)
  (agents : list Organism) (goal : Q) (generation : Z) : result report_dict :=
  sfitness ← Population.map_result fitness agents;
  afitness ←
    (if PyList.len agents =? 0 then Raise ZeroDivisionError
     else Ok (Population.Qsum sfitness / inject_Z (PyList.len agents))%Q);
  if Qeq_bool goal 0 then Raise ZeroDivisionError
  else Ok (mkReport generation afitness
             ((afitness - goal) / goal * 100)%Q).

(** Every symbol of the genome is 0 or 1. *)
Definition binary (self : Organism.instance) : Prop :=
  Forall (fun c => Forall (fun x => x = 0 \/ x = 1) (sequence c))
    (Organism.genome self).

End Scoring.

(** ** Population.mating

    [mating] reads the organisms and never edits them, so an organism is
    held by value here: its genome, a list of Chromosome objects of the
    store. The chromosomes are objects, because [crossover] may hand back the
    very chromosome it was given. *)

Module Breeding.
Import Crossover.

Record organism : Type := mkOrganism { genome_refs : list loc }.

(** [Organism([g1])]. *)
Definition new_Organism (g1 : loc) : organism := mkOrganism [g1].

(** [self.add_organism(organism)]: the new [self.agents]. *)
Definition add_organism (agents organism_ : list organism) : list organism :=
  agents ++ organism_.

(** One turn of the loop of [mating]: the new [temp]. *)
Definition mating_turn (agents : list organism) (size : Z)
  (temp : list organism) (g : rng) (h : store)
  : result (list organism * rng * store) :=
  '(i1, g1) ← randint 0 (size - 1) g;
  organism1 ← PyList.getitem agents i1;
  '(i2, g2) ← randint 0 (size - 1) g1;
  organism2 ← PyList.getitem agents i2;
  c ← PyList.getitem (genome_refs organism1) 0;
  seq1 ← sequence_of c h;
  '(crossover_pt, g3) ← randint 0 (PyList.len seq1) g2;
  chromosome1 ← PyList.getitem (genome_refs organism1) 0;
  chromosome2 ← PyList.getitem (genome_refs organism2) 0;
  '(new1, _, h') ← crossover chromosome1 chromosome2 crossover_pt h;
  Ok (temp ++ [new_Organism new1], g3, h').

(** [for x in xrange(size): ...]. *)
Fixpoint mating_loop (n : nat) (agents : list organism) (size : Z)
  (temp : list organism) (g : rng) (h : store)
  : result (list organism * rng * store) :=
  match n with
  | O => Ok (temp, g, h)
  | S n' =>
      '(temp', g', h') ← mating_turn agents size temp g h;
      mating_loop n' agents size temp' g' h'
  end.

(** [self.mating()]: the new [self.agents]. *)
Definition mating (agents : list organism) (g : rng) (h : store)
  : result (list organism * rng * store) :=
  let size := PyList.len agents in
  '(temp, g', h') ← mating_loop (Z.to_nat size) agents size [] g h;
  Ok (add_organism agents temp, g', h').

(** The first chromosome of the organism is a Chromosome object of the
    store, with a list for its sequence: what [mating] needs of a parent. *)
Definition breedable (h : store) (o : organism) : Prop :=
  exists c cs q l,
    genome_refs o = c :: cs /\ chromosomes h !! c = Some q /\
    lists h !! sequence_ref q = Some l.

(** The chromosome of an offspring: a new object, or the first chromosome
    of one of the parents. *)
Definition born (h : store) (agents : list organism) (o : organism) : Prop :=
  exists c,
    genome_refs o = [c] /\
    (chromosomes h !! c = None \/
     exists p, p ∈ agents /\ head (genome_refs p) = Some c).

(** One organism whose genome is the first chromosome of [store2]. *)
Definition population1 : list organism := [mkOrganism [1%positive]].

(** A generator whose draws are all 3. *)
Definition all_threes : rng := Rng (fun _ => 3) O.

End Breeding.

(** * Facts *)

Lemma Qlt_bool_iff (x y : Q) : Qlt_bool x y = true <-> (x < y)%Q.
Proof.
  unfold Qlt_bool. rewrite negb_true_iff. split.
  - intros H. apply Qnot_le_lt. intros Hle.
    apply Qle_bool_iff in Hle. congruence.
  - intros H. destruct (Qle_bool y x) eqn:E; [|reflexivity].
    apply Qle_bool_iff in E. exfalso. exact (Qlt_not_le _ _ H E).
Qed.

Lemma Qlt_bool_false_iff (x y : Q) : Qlt_bool x y = false <-> (y <= x)%Q.
Proof.
  unfold Qlt_bool. rewrite negb_false_iff. apply Qle_bool_iff.
Qed.

Module PyListFacts.
Import PyList.
Section Facts.
Context {A : Type}.
Implicit Types (l : list A) (i : Z) (x : A).

Lemma len_nonneg l : 0 <= len l.
Proof. unfold len. lia. Qed.

Lemma norm_nonneg l i : 0 <= i -> norm l i = i.
Proof. intros Hi. unfold norm. destruct (Z.ltb_spec i 0); [lia|done]. Qed.

Lemma clamp_le l i : (clamp l i <= length l)%nat.
Proof. unfold clamp, len. lia. Qed.

Lemma clamp_inside l i : 0 <= i <= len l -> clamp l i = Z.to_nat i.
Proof. intros Hi. unfold clamp. rewrite norm_nonneg by lia. lia. Qed.

Lemma clamp_beyond l i : len l <= i -> clamp l i = length l.
Proof.
  intros Hi. pose proof (len_nonneg l).
  unfold clamp. rewrite norm_nonneg by lia. unfold len in *. lia.
Qed.

Lemma length_insert_py l i x : length (insert l i x) = S (length l).
Proof.
  unfold insert. pose proof (clamp_le l i).
  rewrite length_app, length_take. simpl. rewrite length_drop. lia.
Qed.

Lemma len_insert l i x : len (insert l i x) = len l + 1.
Proof. unfold len. rewrite length_insert_py. lia. Qed.

Lemma insert_inside l i x :
  0 <= i <= len l ->
  insert l i x = take (Z.to_nat i) l ++ x :: drop (Z.to_nat i) l.
Proof. intros Hi. unfold insert. by rewrite clamp_inside. Qed.

Lemma setitem_inside l i x :
  0 <= i < len l -> setitem l i x = Ok (<[Z.to_nat i := x]> l).
Proof.
  intros Hi. unfold setitem. rewrite norm_nonneg by lia.
  destruct (Z.ltb_spec i 0); [lia|]. destruct (Z.leb_spec (len l) i); [lia|].
  done.
Qed.

Lemma getitem_inside l i :
  0 <= i < len l -> exists x, l !! Z.to_nat i = Some x /\ getitem l i = Ok x.
Proof.
  intros Hi. unfold getitem. rewrite norm_nonneg by lia.
  destruct (Z.ltb_spec i 0); [lia|]. destruct (Z.leb_spec (len l) i); [lia|].
  simpl. destruct (lookup_lt_is_Some_2 l (Z.to_nat i)) as [x Hx].
  { unfold len in *. lia. }
  exists x. by rewrite Hx.
Qed.

Lemma pop_inside l i :
  0 <= i < len l ->
  exists x, l !! Z.to_nat i = Some x /\ pop l i = Ok (x, delete (Z.to_nat i) l).
Proof.
  intros Hi. unfold pop. rewrite norm_nonneg by lia.
  destruct (Z.ltb_spec i 0); [lia|]. destruct (Z.leb_spec (len l) i); [lia|].
  simpl. destruct (lookup_lt_is_Some_2 l (Z.to_nat i)) as [x Hx].
  { unfold len in *. lia. }
  exists x. by rewrite Hx.
Qed.

Lemma slice_inside l a b :
  0 <= a -> a <= b -> b <= len l ->
  slice l a b = take (Z.to_nat (b - a)) (drop (Z.to_nat a) l).
Proof.
  intros Ha Hab Hb. unfold slice.
  rewrite !clamp_inside by lia. f_equal. lia.
Qed.

Lemma slice_to_beyond l i : len l <= i -> slice_to l i = l.
Proof.
  intros Hi. unfold slice_to. rewrite clamp_beyond by done. by apply take_ge.
Qed.

Lemma slice_from_beyond l i : len l <= i -> slice_from l i = [].
Proof.
  intros Hi. unfold slice_from. rewrite clamp_beyond by done.
  by apply drop_all.
Qed.

Lemma slice_to_inside l i :
  0 <= i <= len l -> slice_to l i = take (Z.to_nat i) l.
Proof. intros Hi. unfold slice_to. by rewrite clamp_inside. Qed.

Lemma slice_from_inside l i :
  0 <= i <= len l -> slice_from l i = drop (Z.to_nat i) l.
Proof. intros Hi. unfold slice_from. by rewrite clamp_inside. Qed.

End Facts.
End PyListFacts.

Module OrganismFacts.
Import Organism.


Section Facts.
Context `{FloatParser}.

Lemma status_ref_write self r d w :
  status_ref self (write_dict r d w) = status_ref self w.
Proof. by destruct r. Qed.

Lemma read_write_same r d w :
  is_ok (read_dict r w) = true -> read_dict r (write_dict r d w) = Ok d.
Proof.
  destruct r as [|l]; simpl; [done|].
  intros _. by rewrite lookup_insert_eq.
Qed.

Lemma read_write_other r r' d w :
  r <> r' -> read_dict r' (write_dict r d w) = read_dict r' w.
Proof.
  destruct r as [|l], r' as [|l']; simpl; try done.
  intros Hne. rewrite lookup_insert_ne; [done|congruence].
Qed.

(** What [setStatus] and [getStatus] do in terms of the dict they reach. *)
Lemma setStatus_unfold self variable value w r d :
  status_ref self w = Ok r -> read_dict r w = Ok d ->
  setStatus self variable value w =
  (d' ← setStatus_body variable value d; Ok (write_dict r d' w)).
Proof. intros Hr Hd. unfold setStatus. rewrite Hr. simpl. rewrite Hd. done. Qed.

Lemma setStatus_inv self variable value w w' :
  setStatus self variable value w = Ok w' ->
  exists r d d', status_ref self w = Ok r /\ read_dict r w = Ok d /\
    setStatus_body variable value d = Ok d' /\ w' = write_dict r d' w.
Proof.
  unfold setStatus. destruct (status_ref self w) as [r|] eqn:Hr; [|done].
  simpl. destruct (read_dict r w) as [d|] eqn:Hd; [|done].
  simpl. destruct (setStatus_body variable value d) as [d'|] eqn:Hb; [|done].
  simpl. intros [= <-]. by exists r, d, d'.
Qed.

Lemma getStatus_unfold self k w r d :
  status_ref self w = Ok r -> read_dict r w = Ok d ->
  getStatus self k w = dict_getitem d k.
Proof. intros Hr Hd. unfold getStatus. rewrite Hr. simpl. by rewrite Hd. Qed.

Lemma getStatus_inv self k w v :
  getStatus self k w = Ok v ->
  exists r d, status_ref self w = Ok r /\ read_dict r w = Ok d /\ d !! k = Some v.
Proof.
  unfold getStatus. destruct (status_ref self w) as [r|] eqn:Hr; [|done].
  simpl. destruct (read_dict r w) as [d|] eqn:Hd; [|done].
  simpl. unfold dict_getitem. destruct (d !! k) eqn:Hk; [|done].
  intros [= <-]. by exists r, d.
Qed.

Lemma getStatus_after_write self k w r d' :
  status_ref self w = Ok r -> is_ok (read_dict r w) = true ->
  getStatus self k (write_dict r d' w) = dict_getitem d' k.
Proof.
  intros Hr Hok. apply getStatus_unfold with (r := r).
  - by rewrite status_ref_write.
  - by apply read_write_same.
Qed.

(** The three ranges of [setStatus('vitality', value)]. *)
Lemma body_vitality_high value f d :
  py_float value = Ok f -> (1001 # 10 < f)%Q ->
  setStatus_body "vitality" value d = Ok (<["vitality" := VNum 100]> d).
Proof.
  intros Hf Hhi. unfold setStatus_body. simpl. rewrite Hf. simpl.
  assert (H0 : (0 < f)%Q) by (eapply Qlt_trans; [|exact Hhi]; reflexivity).
  rewrite (proj2 (Qlt_bool_iff _ _) Hhi).
  rewrite (proj2 (Qlt_bool_false_iff f (1001 # 10)) (Qlt_le_weak _ _ Hhi)).
  rewrite andb_false_r.
  rewrite (proj2 (Qlt_bool_false_iff f 0) (Qlt_le_weak _ _ H0)).
  destruct (Qeq_bool f 0) eqn:E; [|done].
  apply Qeq_bool_iff in E. rewrite E in H0. by apply Qlt_irrefl in H0.
Qed.

Lemma body_vitality_mid value f d :
  py_float value = Ok f -> (0 < f)%Q -> (f < 1001 # 10)%Q ->
  setStatus_body "vitality" value d = Ok (<["vitality" := VNum f]> d).
Proof.
  intros Hf H0 Hhi. unfold setStatus_body. simpl. rewrite Hf. simpl.
  rewrite (proj2 (Qlt_bool_false_iff (1001 # 10) f) (Qlt_le_weak _ _ Hhi)).
  rewrite (proj2 (Qlt_bool_iff _ _) H0), (proj2 (Qlt_bool_iff _ _) Hhi).
  simpl.
  rewrite (proj2 (Qlt_bool_false_iff f 0) (Qlt_le_weak _ _ H0)).
  destruct (Qeq_bool f 0) eqn:E; [|done].
  apply Qeq_bool_iff in E. rewrite E in H0. by apply Qlt_irrefl in H0.
Qed.

Lemma body_vitality_low value f d :
  py_float value = Ok f -> (f <= 0)%Q ->
  setStatus_body "vitality" value d =
  Ok (<["death" := VStr "death01"]> (<["alive" := VBool false]>
      (<["vitality" := VNum 0]> d))).
Proof.
  intros Hf Hlo. unfold setStatus_body. simpl. rewrite Hf. simpl.
  assert (Hhi : (f <= 1001 # 10)%Q) by (eapply Qle_trans; [exact Hlo|done]).
  rewrite (proj2 (Qlt_bool_false_iff (1001 # 10) f) Hhi).
  rewrite (proj2 (Qlt_bool_false_iff 0 f) Hlo). simpl.
  destruct (Qeq_bool f 0) eqn:E; [done|]. simpl.
  destruct (Qlt_bool f 0) eqn:E'; [done|].
  apply Qlt_bool_false_iff in E'.
  assert (Heq : (f == 0)%Q) by (by apply Qle_antisym).
  apply Qeq_bool_iff in Heq. congruence.
Qed.

Lemma body_age_old value f d (L : Q) :
  py_float value = Ok f -> d !! "lifespan" = Some (VNum L) -> (L <= f)%Q ->
  setStatus_body "age" value d =
  Ok (<["death" := VStr "death02"]> (<["alive" := VBool false]>
      (<["age" := VNum L]> d))).
Proof.
  intros Hf HL Hle. unfold setStatus_body. simpl. rewrite Hf. simpl.
  unfold dict_getitem. rewrite HL. simpl.
  by rewrite (proj2 (Qlt_bool_false_iff f L) Hle).
Qed.

(** A call that names another entry than ['alive'] never stores a true
    [alive]. *)
Lemma body_keeps_dead variable value d d' :
  variable <> "alive" ->
  setStatus_body variable value d = Ok d' ->
  d !! "alive" = Some (VBool false) -> d' !! "alive" = Some (VBool false).
Proof.
  intros Hne Hb Hd. unfold setStatus_body in Hb.
  rewrite (bool_decide_eq_false_2 _ Hne) in Hb. simpl in Hb.
  destruct (bool_decide (variable = "vitality")) eqn:Ev.
  - destruct (py_float value) as [f|]; [|done]. simpl in Hb.
    injection Hb as <-.
    repeat match goal with
           | |- context [if ?c then _ else _] => destruct c
           end; by simplify_map_eq.
  - destruct (bool_decide (variable = "age")) eqn:Ea.
    + destruct (py_float value) as [f|]; [|done]. simpl in Hb.
      destruct (dict_getitem d "lifespan") as [l|]; [|done]. simpl in Hb.
      destruct (py_float_lt f l); injection Hb as <-; by simplify_map_eq.
    + injection Hb as <-. by rewrite lookup_insert_ne.
Qed.

(** A call that names neither ['vitality'] nor ['age'] ends by storing the
    value under the name. *)
Lemma body_plain variable value d :
  variable <> "vitality" -> variable <> "age" ->
  exists d', setStatus_body variable value d = Ok d' /\
             d' !! variable = Some value.
Proof.
  intros Hv Ha. unfold setStatus_body.
  rewrite (bool_decide_eq_false_2 _ Hv), (bool_decide_eq_false_2 _ Ha).
  eexists. split; [done|]. by rewrite lookup_insert_eq.
Qed.

(** *** Instances made by the class own no status *)

Lemma class_only_status_ref w self o :
  class_only w -> organisms w !! self = Some o ->
  status_ref self w = Ok ClassStatus.
Proof.
  intros Hw Ho. unfold status_ref. rewrite Ho. by rewrite (Hw _ _ Ho).
Qed.

Lemma run_op_class_only o w w' :
  class_only w -> run_op o w = Ok w' -> class_only w'.
Proof.
  intros Hw. destruct o as [g gen|self variable value|self]; simpl.
  - intros [= <-] l o. simpl.
    destruct (decide (l = fresh (dom (organisms w)))) as [->|Hne].
    + rewrite lookup_insert_eq. by intros [= <-].
    + rewrite lookup_insert_ne by done. apply Hw.
  - intros (r & d & d' & _ & _ & _ & ->)%setStatus_inv l o.
    destruct r; simpl; apply Hw.
  - unfold clone. destruct (organisms w !! self) as [o|] eqn:Ho; [|done].
    rewrite (Hw _ _ Ho). simpl. intros [= <-] l o'. simpl.
    destruct (decide (l = fresh (dom (organisms w)))) as [->|Hne].
    + rewrite lookup_insert_eq. by intros [= <-].
    + rewrite lookup_insert_ne by done. apply Hw.
Qed.

Lemma run_class_only os w w' :
  class_only w -> run os w = Ok w' -> class_only w'.
Proof.
  revert w. induction os as [|o os IH]; intros w Hw; simpl.
  - by intros [= <-].
  - destruct (run_op o w) as [w1|] eqn:Ho; [|done]. simpl.
    apply IH. by eapply run_op_class_only.
Qed.

Lemma initial_class_only : class_only initial_world.
Proof. intros l o. simpl. by rewrite lookup_empty. Qed.

(** *** A run never loses an instance, and keeps the dicts it had *)

Lemma run_op_organisms o w w' l i :
  run_op o w = Ok w' -> organisms w !! l = Some i -> organisms w' !! l = Some i.
Proof.
  destruct o as [g gen|self variable value|self]; simpl.
  - intros [= <-] Hl. simpl. rewrite lookup_insert_ne; [done|].
    intros <-. apply (is_fresh (dom (organisms w))).
    apply elem_of_dom. by eexists.
  - intros (r & d & d' & _ & _ & _ & ->)%setStatus_inv Hl. by destruct r.
  - unfold clone. destruct (organisms w !! self) as [o|] eqn:Ho; [|done].
    assert (Hfresh : forall j, organisms w !! l = Some j ->
                     fresh (dom (organisms w)) <> l).
    { intros j Hj <-. apply (is_fresh (dom (organisms w))).
      apply elem_of_dom. by eexists. }
    destruct (own_status o) as [k|].
    + destruct (dicts w !! k); [|done]. simpl. intros [= <-] Hl. simpl.
      rewrite lookup_insert_ne; [done|by eapply Hfresh].
    + simpl. intros [= <-] Hl. simpl.
      rewrite lookup_insert_ne; [done|by eapply Hfresh].
Qed.

Lemma run_op_keeps_dead o w w' self :
  match o with OpSetStatus _ variable _ => variable <> "alive" | _ => True end ->
  run_op o w = Ok w' ->
  getStatus self "alive" w = Ok (VBool false) ->
  getStatus self "alive" w' = Ok (VBool false).
Proof.
  intros Hno Hrun (r & d & Hr & Hd & Halive)%getStatus_inv.
  assert (Hself : exists i, organisms w !! self = Some i).
  { unfold status_ref in Hr. destruct (organisms w !! self); [by eexists|done]. }
  destruct Hself as [i Hi].
  assert (Hr' : status_ref self w' = Ok r).
  { pose proof (run_op_organisms _ _ _ _ _ Hrun Hi) as Hi'.
    unfold status_ref in *. by rewrite Hi' ; rewrite Hi in Hr. }
  destruct o as [g gen|other variable value|other]; simpl in Hrun.
  - injection Hrun as <-.
    rewrite (getStatus_unfold self "alive" _ r d); [|done|by destruct r].
    unfold dict_getitem. by rewrite Halive.
  - apply setStatus_inv in Hrun as (r0 & d0 & d0' & Hr0 & Hd0 & Hb & ->).
    destruct (decide (r0 = r)) as [->|Hne].
    + assert (d0 = d) as -> by congruence.
      rewrite (getStatus_unfold self "alive" _ r d0'); [|done|].
      * unfold dict_getitem.
        by rewrite (body_keeps_dead _ _ _ _ Hno Hb Halive).
      * apply read_write_same. by rewrite Hd.
    + rewrite (getStatus_unfold self "alive" _ r d); [|done|].
      * unfold dict_getitem. by rewrite Halive.
      * by rewrite read_write_other.
  - unfold clone in Hrun.
    destruct (organisms w !! other) as [o|]; [|done].
    destruct (own_status o) as [k|].
    + destruct (dicts w !! k) as [dk|]; [|done]. injection Hrun as <-.
      rewrite (getStatus_unfold self "alive" _ r d); [|done|].
      * unfold dict_getitem. by rewrite Halive.
      * destruct r as [|l]; simpl in *; [done|].
        rewrite lookup_insert_ne; [done|].
        intros <-. pose proof (is_fresh (dom (dicts w))) as Hf.
        apply Hf, elem_of_dom. destruct (dicts w !! _); [by eexists|done].
    + injection Hrun as <-.
      rewrite (getStatus_unfold self "alive" _ r d); [|done|by destruct r].
      unfold dict_getitem. by rewrite Halive.
Qed.



(** C4, amended. For every call [setStatus('vitality', v)] the call
    returns; a value above 100.1 stores 100, a value strictly between 0 and
    100.1 is stored as it is (so the stored vitality can exceed 100), and a
    value of 0 or less leaves alive False, vitality 0 and death 'death01'.
    For every call [setStatus('age', v)] with [v] at or above the numeric
    lifespan, the call leaves alive False, age equal to the lifespan and
    death 'death02'. *)
Theorem setStatus_vitality_age (self : loc) (w : world) (value : pyval)
  (f : Q) (lifespan : pyval) :
  getStatus self "lifespan" w = Ok lifespan ->
  py_float value = Ok f ->
  (exists w', setStatus self "vitality" value w = Ok w' /\
     ((1001 # 10 < f)%Q -> getStatus self "vitality" w' = Ok (VNum 100)) /\
     ((0 < f)%Q -> (f < 1001 # 10)%Q ->
      getStatus self "vitality" w' = Ok (VNum f)) /\
     ((f <= 0)%Q ->
      getStatus self "alive" w' = Ok (VBool false) /\
      getStatus self "vitality" w' = Ok (VNum 0) /\
      getStatus self "death" w' = Ok (VStr "death01"))) /\
  (forall L, lifespan = VNum L -> (L <= f)%Q ->
   exists w', setStatus self "age" value w = Ok w' /\
     getStatus self "alive" w' = Ok (VBool false) /\
     getStatus self "age" w' = Ok (VNum L) /\
     getStatus self "death" w' = Ok (VStr "death02")).
Proof.
  intros (r & d & Hr & Hd & Hl)%getStatus_inv Hf.
  assert (Hok : is_ok (read_dict r w) = true) by by rewrite Hd.
  split.
  - destruct (Qlt_le_dec 0 f) as [Hpos|Hneg].
    + destruct (Qlt_le_dec f (1001 # 10)) as [Hlt|Hge].
      * exists (write_dict r (<["vitality" := VNum f]> d) w). split.
        { rewrite (setStatus_unfold self _ _ w r d); [|done|done].
          by rewrite (body_vitality_mid _ _ _ Hf Hpos Hlt). }
        split; [|split].
        { intros Hhi. exfalso. apply (Qlt_irrefl f). by eapply Qlt_trans. }
        { intros _ _. rewrite getStatus_after_write by done.
          unfold dict_getitem. by rewrite lookup_insert_eq. }
        { intros Hle. exfalso. apply (Qlt_irrefl f). by eapply Qle_lt_trans. }
      * destruct (Qlt_le_dec (1001 # 10) f) as [Hhi|Hle].
        { exists (write_dict r (<["vitality" := VNum 100]> d) w). split.
          { rewrite (setStatus_unfold self _ _ w r d); [|done|done].
            by rewrite (body_vitality_high _ _ _ Hf Hhi). }
          split; [|split].
          { intros _. rewrite getStatus_after_write by done.
            unfold dict_getitem. by rewrite lookup_insert_eq. }
          { intros _ Hlt. exfalso. apply (Qlt_irrefl f).
            by eapply Qlt_trans. }
          { intros Hle. exfalso. apply (Qlt_irrefl f).
            by eapply Qle_lt_trans. } }
        { (* f is 100.1 itself: no test of the code holds *)
          assert (Hnohi : Qlt_bool (1001 # 10) f = false)
            by by apply Qlt_bool_false_iff.
          assert (Hnomid : Qlt_bool f (1001 # 10) = false)
            by by apply Qlt_bool_false_iff.
          assert (Hnolo : Qlt_bool f 0 = false)
            by (apply Qlt_bool_false_iff; by apply Qlt_le_weak).
          assert (Hnoz : Qeq_bool f 0 = false).
          { destruct (Qeq_bool f 0) eqn:E; [|done].
            apply Qeq_bool_iff in E. rewrite E in Hpos.
            by apply Qlt_irrefl in Hpos. }
          exists (write_dict r d w). split.
          { rewrite (setStatus_unfold self _ _ w r d); [|done|done].
            unfold setStatus_body. simpl. rewrite Hf. simpl.
            by rewrite Hnohi, Hnomid, Hnolo, Hnoz, andb_false_r. }
          split; [|split].
          { intros Hhi. exfalso. apply (Qlt_irrefl f).
            by eapply Qle_lt_trans. }
          { intros _ Hlt. exfalso. apply (Qlt_irrefl f).
            by eapply Qlt_le_trans. }
          { intros Hneg. exfalso. apply (Qlt_irrefl f).
            by eapply Qle_lt_trans. } }
    + eexists. split.
      { rewrite (setStatus_unfold self _ _ w r d); [|done|done].
        by rewrite (body_vitality_low _ _ _ Hf Hneg). }
      split; [|split].
      { intros Hhi. exfalso. apply (Qlt_irrefl f).
        eapply Qle_lt_trans; [exact Hneg|].
        eapply Qlt_trans; [|exact Hhi]. reflexivity. }
      { intros Hpos _. exfalso. apply (Qlt_irrefl f).
        by eapply Qle_lt_trans. }
      { intros _. rewrite !getStatus_after_write by done.
        unfold dict_getitem. by simplify_map_eq. }
  - intros L -> Hle. eexists. split.
    { rewrite (setStatus_unfold self _ _ w r d); [|done|done].
      by rewrite (body_age_old _ _ _ _ Hf Hl Hle). }
    rewrite !getStatus_after_write by done.
    unfold dict_getitem. by simplify_map_eq.
Qed.

(** C5, amended. Once [alive] is False for an organism, no run of the
    operations of the class (construction, [setStatus], [clone]) in which no
    call of [setStatus] names 'alive' makes it anything else: after the run
    [alive] is still False. A call [setStatus('alive', True)] is the one way
    back. *)
Theorem dead_stays_dead (os : list op) (w w' : world) (self : loc) :
  getStatus self "alive" w = Ok (VBool false) ->
  Forall (fun o => names_alive o = false) os ->
  run os w = Ok w' ->
  getStatus self "alive" w' = Ok (VBool false).
Proof.
  intros Hdead Hos. revert w Hdead.
  induction Hos as [|o os Ho _ IH]; intros w Hdead; simpl.
  - by intros [= <-].
  - destruct (run_op o w) as [w1|] eqn:Hstep; [|done]. simpl.
    apply IH. eapply run_op_keeps_dead; [|exact Hstep|exact Hdead].
    destruct o; [done| |done]. simpl in Ho.
    by apply bool_decide_eq_false in Ho.
Qed.

End Facts.




Lemma setStatus_vitality_age_witness :
  exists w', @setStatus no_numerals 1%positive "age" (VNum 120) world2 = Ok w' /\
     getStatus 1%positive "alive" w' = Ok (VBool false) /\
     getStatus 1%positive "age" w' = Ok (VNum 100) /\
     getStatus 1%positive "death" w' = Ok (VStr "death02").
Proof.
  destruct (@setStatus_vitality_age no_numerals 1%positive world2 (VNum 120)
              120 (VNum 100)) as [_ Hage].
  - vm_compute. reflexivity.
  - reflexivity.
  - apply (Hage 100%Q); [reflexivity|]. unfold Qle. simpl. lia.
Defined.


Lemma dead_stays_dead_witness :
  exists w',
    @run no_numerals
      [OpSetStatus 2%positive "vitality" (VNum 50); OpClone 1%positive;
       OpSetStatus 3%positive "age" (VNum 3)] dead_world = Ok w' /\
    getStatus 1%positive "alive" w' = Ok (VBool false).
Proof.
  eexists. split.
  - vm_compute. reflexivity.
  - eapply (@dead_stays_dead no_numerals
      [OpSetStatus 2%positive "vitality" (VNum 50); OpClone 1%positive;
       OpSetStatus 3%positive "age" (VNum 3)] dead_world).
    + vm_compute. reflexivity.
    + repeat constructor.
    + vm_compute. reflexivity.
Defined.

(** C4, refuted as stated: [setStatus('vitality', 100.05)] stores 100.05,
    which is above 100. *)
Lemma vitality_above_100 :
  (@setStatus no_numerals 1%positive "vitality" (VNum (2001 # 20)) world2
     ≫= getStatus 1%positive "vitality") = Ok (VNum (2001 # 20)) /\
  (100 < 2001 # 20)%Q.
Proof. split; [vm_compute; reflexivity|reflexivity]. Qed.

(** C5, refuted as stated: in a store where [alive] is False,
    [setStatus('alive', True)] makes it True again. *)
Lemma dead_made_alive :
  getStatus 1%positive "alive" dead_world = Ok (VBool false) /\
  (@setStatus no_numerals 1%positive "alive" (VBool true) dead_world
     ≫= getStatus 1%positive "alive") = Ok (VBool true).
Proof. split; vm_compute; reflexivity. Qed.

End OrganismFacts.

Module MutationFacts.
Import Mutation.
Local Open Scope st_scope.

Implicit Types (s : mstate) (l : list Z).


Lemma seq_insert_eq i x s :
  seq_insert i x s = (Ok tt, with_sequence (PyList.insert (st_sequence s) i x) s).
Proof. done. Qed.

(** [insert_each] at a position inside the list puts the bases there in
    reverse order and removes nothing. *)
Lemma insert_each_inside i bs s :
  0 <= i <= PyList.len (st_sequence s) ->
  insert_each i bs s =
  (Ok tt, with_sequence (take (Z.to_nat i) (st_sequence s) ++ rev bs ++
                         drop (Z.to_nat i) (st_sequence s)) s).
Proof.
  revert s. induction bs as [|b bs IH]; intros [l g n] Hi; simpl in *.
  - unfold st_ret, with_sequence. simpl. by rewrite take_drop.
  - unfold st_bind. rewrite seq_insert_eq. simpl.
    rewrite IH; simpl.
    + unfold with_sequence. simpl. do 2 f_equal.
      rewrite PyListFacts.insert_inside by done.
      assert (Hlen : length (take (Z.to_nat i) l) = Z.to_nat i).
      { rewrite length_take. unfold PyList.len in Hi. lia. }
      rewrite take_app_length' by done.
      rewrite drop_app_length' by done.
      by rewrite <- !app_assoc.
    + rewrite PyListFacts.len_insert. lia.
Qed.

Lemma kmutate_invert_eq start end_ a tpos s :
  kmutate "invert" start end_ a tpos s =
  (bs <- seq_slice start end_ ;; insert_each start bs) s.
Proof.
  unfold kmutate, when, st_bind, st_ret. simpl.
  by destruct (insert_each start _ s) as [[[]|e] s'].
Qed.

(** *** The ghost counter *)


Create HintDb edits.

Lemma keeps_ret {A} (a : A) : keeps_edits (st_ret a).
Proof. done. Qed.

Lemma keeps_lift {A} (r : result A) : keeps_edits (st_lift r).
Proof. done. Qed.

Lemma keeps_bind {A B} (m : M A) (f : A -> M B) :
  keeps_edits m -> (forall a, keeps_edits (f a)) -> keeps_edits (st_bind m f).
Proof.
  intros Hm Hf s. unfold st_bind. specialize (Hm s).
  destruct (m s) as [[a|e] s1]; simpl in *; [|done].
  by rewrite Hf.
Qed.

Lemma keeps_when (c : bool) (m : M unit) :
  keeps_edits m -> keeps_edits (when c m).
Proof. by destruct c. Qed.

Lemma keeps_setitem i x : keeps_edits (seq_setitem i x).
Proof. intros s. unfold seq_setitem. by destruct (PyList.setitem _ _ _). Qed.

Lemma keeps_pop i : keeps_edits (seq_pop i).
Proof. intros s. unfold seq_pop. by destruct (PyList.pop _ _) as [[? ?]|?]. Qed.

Lemma keeps_insert i x : keeps_edits (seq_insert i x).
Proof. done. Qed.

Lemma keeps_slice a b : keeps_edits (seq_slice a b).
Proof. done. Qed.

Lemma keeps_len : keeps_edits seq_len.
Proof. done. Qed.

Lemma keeps_rng f : keeps_edits (with_rng f).
Proof. intros s. unfold with_rng. by destruct (f _) as [[? ?]|?]. Qed.

#[local] Hint Resolve keeps_ret keeps_lift keeps_when keeps_setitem keeps_pop
  keeps_insert keeps_slice keeps_len keeps_rng : edits.

Lemma keeps_insert_each i bs : keeps_edits (insert_each i bs).
Proof.
  induction bs as [|b bs IH]; simpl; [done|].
  apply keeps_bind; auto with edits.
Qed.

Lemma keeps_insert_run p fragment : keeps_edits (insert_run p fragment).
Proof.
  revert p. induction fragment as [|b bs IH]; intros p; simpl; [done|].
  apply keeps_bind; auto with edits.
Qed.

Lemma keeps_pop_times n p : keeps_edits (pop_times n p).
Proof.
  induction n as [|n IH]; simpl; [done|].
  apply keeps_bind; [auto with edits|]. intros x.
  apply keeps_bind; [done|]. auto with edits.
Qed.

#[local] Hint Resolve keeps_insert_each keeps_insert_run keeps_pop_times
  : edits.

Lemma counts_bind {A} (m : M A) (f : A -> M unit) :
  keeps_edits m -> (forall a, counts_one (f a)) -> counts_one (st_bind m f).
Proof.
  intros Hm Hf s. unfold st_bind. specialize (Hm s).
  destruct (m s) as [[a|e] s1]; simpl in *; [|done].
  specialize (Hf a s1). destruct (f a s1) as [[[]|?] ?]; congruence.
Qed.

Lemma counts_count_edit : counts_one count_edit.
Proof. done. Qed.

Ltac keeps :=
  first [ solve [auto with edits]
        | apply keeps_when; keeps
        | apply keeps_bind; [keeps | intros ?; keeps] ].

Lemma counts_step self type start end_ length :
  counts_one (rmutate_step self type start end_ length).
Proof.
  unfold rmutate_step.
  repeat (apply counts_bind; [keeps|intros ?]).
  apply counts_count_edit.
Qed.

(** The loop: as many edits as turns when it returns, fewer when a turn
    raises. *)
Lemma loop_edits n step s :
  counts_one step ->
  match rmutate_loop n step s with
  | (Ok _, s') => st_edits s' = (st_edits s + n)%nat
  | (Raise _, s') => (st_edits s' < st_edits s + n)%nat
  end.
Proof.
  intros Hstep. revert s. induction n as [|n IH]; intros s; simpl.
  - unfold st_ret. lia.
  - unfold st_bind. specialize (Hstep s).
    destruct (step s) as [[[]|e] s1]; [|lia].
    specialize (IH s1). destruct (rmutate_loop n step s1) as [[[]|?] ?]; lia.
Qed.

(** *** Calls that return *)


Lemma returns_ret {A} (a : A) s (Q : A -> mstate -> Prop) :
  Q a s -> returns (st_ret a) s Q.
Proof. intros HQ. by exists a, s. Qed.

Lemma returns_bind {A B} (m : M A) (f : A -> M B) s Q :
  returns m s (fun a s' => returns (f a) s' Q) -> returns (st_bind m f) s Q.
Proof.
  intros (a & s1 & Hm & b & s2 & Hf & HQ). exists b, s2.
  unfold st_bind. by rewrite Hm.
Qed.

Lemma returns_lift {A} (a : A) s (Q : A -> mstate -> Prop) :
  Q a s -> returns (st_lift (Ok a)) s Q.
Proof. intros HQ. by exists a, s. Qed.

Lemma returns_randrange2 a b s (Q : Z -> mstate -> Prop) :
  a < b ->
  (forall x g, a <= x < b -> Q x (mkState (st_sequence s) g (st_edits s))) ->
  returns (with_rng (randrange2 a b)) s Q.
Proof.
  intros Hab HQ. unfold returns, with_rng, randrange2.
  destruct (Z.leb_spec b a); [lia|]. simpl.
  do 2 eexists. split; [done|]. apply HQ.
  pose proof (Z.mod_pos_bound (draws (st_rng s) (cursor (st_rng s))) (b - a)).
  lia.
Qed.

Lemma returns_setitem i x s (Q : unit -> mstate -> Prop) :
  0 <= i < PyList.len (st_sequence s) ->
  (forall l, length l = length (st_sequence s) -> Q tt (with_sequence l s)) ->
  returns (seq_setitem i x) s Q.
Proof.
  intros Hi HQ. unfold returns, seq_setitem.
  rewrite PyListFacts.setitem_inside by done.
  do 2 eexists. split; [done|]. apply HQ. by rewrite length_insert.
Qed.

Lemma returns_insert i x s (Q : unit -> mstate -> Prop) :
  (forall l, length l = S (length (st_sequence s)) -> Q tt (with_sequence l s)) ->
  returns (seq_insert i x) s Q.
Proof.
  intros HQ. exists tt. eexists. split; [done|].
  apply HQ. apply PyListFacts.length_insert_py.
Qed.

Lemma returns_slice a b s (Q : list Z -> mstate -> Prop) :
  (forall fragment, Q fragment s) -> returns (seq_slice a b) s Q.
Proof. intros HQ. do 2 eexists. split; [done|]. apply HQ. Qed.

Lemma returns_len s (Q : Z -> mstate -> Prop) :
  Q (PyList.len (st_sequence s)) s -> returns seq_len s Q.
Proof. intros HQ. do 2 eexists. by split. Qed.

Lemma returns_insert_each i bs s (Q : unit -> mstate -> Prop) :
  (forall l, length l = (length (st_sequence s) + length bs)%nat ->
             Q tt (with_sequence l s)) ->
  returns (insert_each i bs) s Q.
Proof.
  revert s. induction bs as [|b bs IH]; intros s HQ; simpl.
  - apply returns_ret. destruct s as [l g n].
    apply (HQ l). simpl. lia.
  - apply returns_bind, returns_insert. intros l Hl.
    apply IH. intros l' Hl'. apply (HQ l'). simpl in *. lia.
Qed.

Lemma returns_insert_run p fragment s (Q : unit -> mstate -> Prop) :
  (forall l, length l = (length (st_sequence s) + length fragment)%nat ->
             Q tt (with_sequence l s)) ->
  returns (insert_run p fragment) s Q.
Proof.
  revert p s. induction fragment as [|b bs IH]; intros p s HQ; simpl.
  - apply returns_ret. destruct s as [l g n].
    apply (HQ l). simpl. lia.
  - apply returns_bind, returns_insert. intros l Hl.
    apply IH. intros l' Hl'. apply (HQ l'). simpl in *. lia.
Qed.

Lemma returns_pop i s (Q : Z -> mstate -> Prop) :
  0 <= i < PyList.len (st_sequence s) ->
  (forall x l, S (length l) = length (st_sequence s) ->
               Q x (with_sequence l s)) ->
  returns (seq_pop i) s Q.
Proof.
  intros Hi HQ. unfold returns, seq_pop.
  destruct (PyListFacts.pop_inside (st_sequence s) i Hi) as (x & Hx & ->).
  do 2 eexists. split; [done|]. apply HQ.
  pose proof (length_delete _ _ (mk_is_Some _ _ Hx)) as Hd.
  simpl. unfold PyList.len in Hi. lia.
Qed.

Lemma returns_pop_times k p s (Q : list Z -> mstate -> Prop) :
  0 <= p -> p + Z.of_nat k <= PyList.len (st_sequence s) ->
  (forall fragment l,
     length fragment = k -> (length l + k)%nat = length (st_sequence s) ->
     Q fragment (with_sequence l s)) ->
  returns (pop_times k p) s Q.
Proof.
  revert s Q. induction k as [|k IH]; intros s Q Hp Hk HQ; simpl.
  - apply returns_ret. destruct s as [l g n]. apply (HQ [] l); simpl; lia.
  - apply returns_bind, returns_pop; [lia|]. intros x l Hl.
    apply returns_bind, IH; [done| |].
    + simpl. unfold PyList.len in *. lia.
    + intros fragment l' Hf Hl'. apply returns_ret.
      apply (HQ (x :: fragment) l'); simpl in *; lia.
Qed.

Lemma returns_count_edit s (Q : unit -> mstate -> Prop) :
  Q tt (mkState (st_sequence s) (st_rng s) (S (st_edits s))) ->
  returns count_edit s Q.
Proof. intros HQ. do 2 eexists. by split. Qed.

Lemma returns_skip type name (m : M unit) s (Q : unit -> mstate -> Prop) :
  is_type type name = false -> Q tt s -> returns (when (is_type type name) m) s Q.
Proof. intros -> HQ. by apply returns_ret. Qed.

Lemma returns_take type name (m : M unit) s (Q : unit -> mstate -> Prop) :
  is_type type name = true -> returns m s Q ->
  returns (when (is_type type name) m) s Q.
Proof. by intros ->. Qed.


Ltac skip_kind := apply returns_bind, returns_skip; [reflexivity|].
Ltac take_kind := apply returns_bind, returns_take; [reflexivity|].

(** One turn of the loop returns and does not shorten the sequence. *)
Lemma step_returns self type start end_ s :
  type ∈ steady_kinds -> base self <> [] ->
  0 <= start -> start + 2 <= end_ -> end_ < PyList.len (st_sequence s) ->
  returns (rmutate_step self type start end_ (end_ - start)) s
    (fun _ s' =>
       PyList.len (st_sequence s) <= PyList.len (st_sequence s') /\
       st_edits s' = S (st_edits s)).
Proof.
  intros Hkind Hbase Hstart Hlen Hend.
  assert (Hb : 0 < PyList.len (base self)).
  { unfold PyList.len. destruct (base self); [done|simpl; lia]. }
  unfold rmutate_step, randrange, randint.
  apply returns_bind, returns_randrange2; [lia|]. intros r g Hr.
  apply returns_bind, returns_randrange2; [lia|]. intros k g' Hk.
  destruct (PyListFacts.getitem_inside (base self) k Hk) as (b & _ & ->).
  apply returns_bind, returns_lift.
  destruct s as [l g0 n]. simpl in *. unfold PyList.len in *.
  unfold steady_kinds in Hkind.
  repeat (apply elem_of_cons in Hkind as [->|Hkind]);
    [| | | | |by apply elem_of_nil in Hkind].
  - take_kind. apply returns_setitem; [simpl; unfold PyList.len; lia|].
    intros l1 Hl1. do 5 skip_kind.
    apply returns_count_edit. simpl in *. lia.
  - do 2 skip_kind. take_kind. apply returns_insert.
    intros l1 Hl1. do 3 skip_kind.
    apply returns_count_edit. simpl in *. lia.
  - do 3 skip_kind. take_kind.
    apply returns_bind, returns_randrange2; [lia|]. intros e g2 He.
    apply returns_bind, returns_slice. intros fragment.
    apply returns_insert_run. intros l1 Hl1. do 2 skip_kind.
    apply returns_count_edit. simpl in *. lia.
  - do 4 skip_kind. take_kind.
    apply returns_bind, returns_randrange2; [lia|]. intros e g2 He.
    apply returns_bind, returns_pop_times;
      [lia|simpl; unfold PyList.len; lia|].
    intros fragment l1 Hf Hl1.
    apply returns_insert_each. intros l2 Hl2. skip_kind.
    apply returns_count_edit. simpl in *. rewrite length_rev in Hl2. lia.
  - do 5 skip_kind. take_kind.
    apply returns_bind, returns_randrange2; [lia|]. intros e g2 He.
    apply returns_bind, returns_pop_times;
      [lia|simpl; unfold PyList.len; lia|].
    intros fragment l1 Hf Hl1.
    apply returns_bind, returns_len.
    apply returns_bind, returns_randrange2.
    { simpl. unfold PyList.len. lia. }
    intros ip g3 Hip.
    apply returns_insert_run. intros l2 Hl2.
    apply returns_count_edit. simpl in *. lia.
Qed.

Lemma loop_returns self type start end_ n s :
  type ∈ steady_kinds -> base self <> [] ->
  0 <= start -> start + 2 <= end_ -> end_ < PyList.len (st_sequence s) ->
  returns (rmutate_loop n (rmutate_step self type start end_ (end_ - start)))
    s (fun _ s' => st_edits s' = (st_edits s + n)%nat).
Proof.
  intros Hkind Hbase Hstart Hlen. revert s.
  induction n as [|n IH]; intros s Hend; simpl.
  - apply returns_ret. lia.
  - apply returns_bind.
    destruct (step_returns self type start end_ s)
      as (u & s1 & Hstep & Hs1 & He1); try done.
    exists u, s1. split; [done|].
    destruct (IH s1) as (u' & s2 & Hloop & He2); [lia|].
    exists u', s2. split; [done|]. lia.
Qed.

(** *** The region *)


Lemma region_eq self rate start end_ n :
  region self rate start end_ n =
  let e := norm_end end_ n in
  let st := if start =? e then 0 else start in
  (st, e, e - st,
   py_int ((background_mutation self + rate) * inject_Z (e - st))).
Proof. done. Qed.

Lemma norm_end_le end_ n : norm_end end_ n <= n - 1.
Proof.
  unfold norm_end. destruct (Z.ltb_spec (n - 1) end_).
  - destruct (Z.eqb_spec (n - 1) (-1)); lia.
  - destruct (Z.eqb_spec end_ (-1)); lia.
Qed.

(** [int] and [floor] ask for the same number of turns. *)
Lemma to_nat_py_int (x : Q) : Z.to_nat (py_int x) = Z.to_nat (Qfloor x).
Proof.
  destruct x as [a b]. unfold py_int, Qfloor. simpl.
  destruct (Z.le_gt_cases 0 a) as [Ha|Ha].
  - by rewrite Z.quot_div_nonneg by lia.
  - assert (Hq : Z.quot a (Z.pos b) <= 0).
    { replace a with (- (- a)) by lia. rewrite Z.quot_opp_l by lia.
      pose proof (Z.quot_pos (- a) (Z.pos b)). lia. }
    assert (Hd : a / Z.pos b < 0) by (apply Z.div_lt_upper_bound; lia).
    lia.
Qed.

Lemma py_int_mult_0 (x : Q) : py_int (x * inject_Z 0) = 0.
Proof.
  unfold py_int, Qmult. simpl. rewrite Z.mul_0_r. by apply Z.quot_0_l.
Qed.

(** C6, amended. In a call of [rmutate] whose [start] and [end] are the same
    position [p], with [p] at most the last index and not -1, [start] is
    reset to 0 and [end] is kept: the region is [[0, p)], of length [p], not
    the whole sequence; and when [p] is 0 the region is empty and the call
    returns at once with the sequence, the generator and the count of edits
    untouched. *)
Theorem rmutate_start_eq_end (self : Chromosome) (type : string) (rate : Q)
  (p : Z) (s : mstate) :
  p <> -1 -> p <= PyList.len (st_sequence s) - 1 ->
  region self rate p p (PyList.len (st_sequence s)) =
    (0, p, p, py_int ((background_mutation self + rate) * inject_Z p)) /\
  (p = 0 -> rmutate self type rate p p s = (Ok tt, s)).
Proof.
  intros Hp Hle.
  assert (Hn : norm_end p (PyList.len (st_sequence s)) = p).
  { unfold norm_end. destruct (Z.ltb_spec (PyList.len (st_sequence s) - 1) p);
      [lia|]. by destruct (Z.eqb_spec p (-1)). }
  assert (Hr : region self rate p p (PyList.len (st_sequence s)) =
    (0, p, p, py_int ((background_mutation self + rate) * inject_Z p))).
  { rewrite region_eq. cbv zeta. by rewrite Hn, Z.eqb_refl, Z.sub_0_r. }
  split; [done|].
  intros ->. unfold rmutate. rewrite Hr, py_int_mult_0. done.
Qed.


(** C8. What [kmutate('invert', start, end)] does for valid positions
    [start <= end] within the sequence: it inserts the symbols of the
    sub-range, in reverse order, before the sub-range and removes nothing,
    so the sequence grows by [end - start] symbols instead of being reversed
    in place. *)
Theorem kmutate_invert_inserts (start end_ : Z) (a : seq_arg) (tpos : Z)
  (s : mstate) :
  0 <= start -> start <= end_ -> end_ <= PyList.len (st_sequence s) ->
  kmutate "invert" start end_ a tpos s =
  (Ok tt,
   with_sequence
     (take (Z.to_nat start) (st_sequence s) ++
      rev (take (Z.to_nat (end_ - start))
             (drop (Z.to_nat start) (st_sequence s))) ++
      drop (Z.to_nat start) (st_sequence s)) s) /\
  PyList.len (st_sequence (kmutate "invert" start end_ a tpos s).2) =
  PyList.len (st_sequence s) + (end_ - start).
Proof.
  intros Hs Hle He.
  assert (Heq : kmutate "invert" start end_ a tpos s =
    (Ok tt,
     with_sequence
       (take (Z.to_nat start) (st_sequence s) ++
        rev (take (Z.to_nat (end_ - start))
               (drop (Z.to_nat start) (st_sequence s))) ++
        drop (Z.to_nat start) (st_sequence s)) s)).
  { rewrite kmutate_invert_eq. unfold st_bind, seq_slice.
    rewrite insert_each_inside by lia.
    by rewrite PyListFacts.slice_inside by lia. }
  split; [done|]. rewrite Heq. simpl. unfold PyList.len in *.
  rewrite !length_app, length_rev, !length_take, length_drop. lia.
Qed.

Lemma rmutate_start_eq_end_witness :
  region chromosome4 1 2 2 4 = (0, 2, 2, 2) /\
  rmutate chromosome4 "point" 1 0 0 (mkState [1; 2; 3; 4] g0 O) =
    (Ok tt, mkState [1; 2; 3; 4] g0 O).
Proof.
  split.
  - apply (rmutate_start_eq_end chromosome4 "point" 1 2
             (mkState [1; 2; 3; 4] g0 O)); [done|vm_compute; discriminate].
  - apply (rmutate_start_eq_end chromosome4 "point" 1 0
             (mkState [1; 2; 3; 4] g0 O));
      [done|vm_compute; discriminate|reflexivity].
Defined.


Lemma kmutate_invert_inserts_witness :
  kmutate "invert" 1 3 ArgNone 0 (mkState [1; 2; 3; 4] g0 O) =
  (Ok tt, mkState [1; 3; 2; 2; 3; 4] g0 O).
Proof.
  apply (kmutate_invert_inserts 1 3 ArgNone 0 (mkState [1; 2; 3; 4] g0 O));
    vm_compute; discriminate.
Defined.

(** C6, refuted as stated: with [start == end == 0] the call edits nothing,
    while the call over the whole sequence makes three edits. *)
Lemma start_eq_end_is_not_whole :
  call (rmutate chromosome4 "point" 1 0 0) chromosome4 g0 =
    (Ok tt, mkState [1; 2; 3; 4] g0 0) /\
  call (rmutate chromosome4 "point" 1 0 (-1)) chromosome4 g0 =
    (Ok tt, mkState [1; 2; 3; 4] (Rng (fun _ => 0) 6) 3).
Proof. split; vm_compute; reflexivity. Qed.


End MutationFacts.

Module CrossoverFacts.
Import Crossover.

Implicit Types (h : store) (l : list Z).



Lemma extends_refl h : extends h h.
Proof. by split. Qed.

Lemma extends_trans h1 h2 h3 : extends h1 h2 -> extends h2 h3 -> extends h1 h3.
Proof. intros [H1 H2] [H3 H4]. split; eauto. Qed.

Lemma extends_sequence_of h h' c l :
  extends h h' -> sequence_of c h = Ok l -> sequence_of c h' = Ok l.
Proof.
  intros [Hl Hc]. unfold sequence_of, get_chromosome, get_list.
  destruct (chromosomes h !! c) as [o|] eqn:Ho; [|done]. simpl.
  destruct (lists h !! sequence_ref o) as [l'|] eqn:Hs; [|done].
  intros [= ->]. rewrite (Hc _ _ Ho). simpl. by rewrite (Hl _ _ Hs).
Qed.

(** What [Chromosome(l, base)] adds to the store. *)
Lemma build_spec l b h :
  exists r, 
    lists h !! r = None /\
    chromosomes h !! (build l b h).1 = None /\
    chromosomes (build l b h).2 !! (build l b h).1 =
      Some (mkObj r b default_background_mutation) /\
    lists (build l b h).2 !! r = Some l /\
    extends h (build l b h).2.
Proof.
  exists (fresh (dom (lists h))). unfold build, new_list, new_Chromosome.
  simpl.
  assert (Hr : lists h !! fresh (dom (lists h)) = None)
    by apply not_elem_of_dom, is_fresh.
  assert (Hc : chromosomes h !! fresh (dom (chromosomes h)) = None)
    by apply not_elem_of_dom, is_fresh.
  split; [done|]. split; [done|].
  split; [by rewrite lookup_insert_eq|].
  split; [by rewrite lookup_insert_eq|].
  split; intros k x Hk; simpl.
  - rewrite lookup_insert_ne; [done|]. intros <-. congruence.
  - rewrite lookup_insert_ne; [done|]. intros <-. congruence.
Qed.

Lemma build_sequence_of l b h :
  sequence_of (build l b h).1 (build l b h).2 = Ok l.
Proof.
  destruct (build_spec l b h) as (r & _ & _ & Hc & Hl & _).
  destruct (build l b h) as [c h']. simpl in *.
  unfold sequence_of, get_chromosome, get_list. rewrite Hc. simpl.
  by rewrite Hl.
Qed.

Ltac split_builds :=
  repeat match goal with
         | |- context [let '(_, _) := ?x in _] => destruct x; simpl
         end.

(** The four cases of [crossover], by the lists of the two chromosomes. *)
Lemma crossover_eq c1 c2 p h o1 o2 seq1 seq2 :
  chromosomes h !! c1 = Some o1 -> chromosomes h !! c2 = Some o2 ->
  lists h !! sequence_ref o1 = Some seq1 ->
  lists h !! sequence_ref o2 = Some seq2 ->
  crossover c1 c2 p h =
  if (p <? PyList.len seq1) || (p <? PyList.len seq2) then
    let b1 := build (PyList.slice_to seq1 p ++ PyList.slice_from seq2 p)
                (base_ref o1) h in
    let b2 := build (PyList.slice_to seq2 p ++ PyList.slice_from seq1 p)
                (base_ref o2) b1.2 in
    Ok (b1.1, b2.1, b2.2)
  else Ok (c1, c2, h).
Proof.
  intros H1 H2 Hs1 Hs2. unfold crossover, get_chromosome, get_list.
  rewrite H1, H2. simpl. rewrite Hs1, Hs2. simpl.
  pose proof (PyListFacts.len_nonneg seq1) as Hn1.
  pose proof (PyListFacts.len_nonneg seq2) as Hn2.
  destruct (Z.ltb_spec p (PyList.len seq1)) as [Hp1|Hp1];
    destruct (Z.ltb_spec p (PyList.len seq2)) as [Hp2|Hp2]; simpl.
  - by split_builds.
  - rewrite (PyListFacts.slice_from_beyond seq2 p) by done.
    rewrite (PyListFacts.slice_to_beyond seq2 p) by done.
    rewrite app_nil_r. by split_builds.
  - rewrite (PyListFacts.slice_from_beyond seq1 p) by done.
    rewrite (PyListFacts.slice_to_beyond seq1 p) by done.
    rewrite app_nil_r. by split_builds.
  - done.
Qed.

(** When the cut lies inside one of the lists: two new chromosomes, each
    with a new list. *)
Lemma crossover_new c1 c2 p h o1 o2 seq1 seq2 :
  chromosomes h !! c1 = Some o1 -> chromosomes h !! c2 = Some o2 ->
  lists h !! sequence_ref o1 = Some seq1 ->
  lists h !! sequence_ref o2 = Some seq2 ->
  p < PyList.len seq1 \/ p < PyList.len seq2 ->
  exists new1 new2 h1 r1 r2,
    crossover c1 c2 p h = Ok (new1, new2, h1) /\
    chromosomes h !! new1 = None /\ chromosomes h !! new2 = None /\
    new1 <> new2 /\
    chromosomes h1 !! new1 =
      Some (mkObj r1 (base_ref o1) default_background_mutation) /\
    chromosomes h1 !! new2 =
      Some (mkObj r2 (base_ref o2) default_background_mutation) /\
    lists h !! r1 = None /\ lists h !! r2 = None /\ r1 <> r2 /\
    lists h1 !! r1 =
      Some (PyList.slice_to seq1 p ++ PyList.slice_from seq2 p) /\
    lists h1 !! r2 =
      Some (PyList.slice_to seq2 p ++ PyList.slice_from seq1 p) /\
    extends h h1.
Proof.
  intros H1 H2 Hs1 Hs2 Hp.
  rewrite (crossover_eq _ _ _ _ _ _ _ _ H1 H2 Hs1 Hs2).
  replace ((p <? PyList.len seq1) || (p <? PyList.len seq2)) with true.
  2:{ symmetry. apply orb_true_iff. rewrite !Z.ltb_lt. done. }
  cbv zeta.
  set (L1 := PyList.slice_to seq1 p ++ PyList.slice_from seq2 p).
  set (L2 := PyList.slice_to seq2 p ++ PyList.slice_from seq1 p).
  destruct (build_spec L1 (base_ref o1) h) as (r1 & Hr1 & Hn1 & Hc1 & Hl1 & He1).
  destruct (build L1 (base_ref o1) h) as [new1 ha]. cbn [fst snd] in *.
  destruct (build_spec L2 (base_ref o2) ha) as (r2 & Hr2 & Hn2 & Hc2 & Hl2 & He2).
  destruct (build L2 (base_ref o2) ha) as [new2 hb]. cbn [fst snd] in *.
  destruct He1 as [He1l He1c], He2 as [He2l He2c].
  exists new1, new2, hb, r1, r2.
  split; [done|]. split; [done|].
  split. { destruct (chromosomes h !! new2) eqn:E; [|done].
           apply He1c in E. congruence. }
  split; [congruence|]. split; [by apply He2c|]. split; [done|].
  split; [done|].
  split. { destruct (lists h !! r2) eqn:E; [|done].
           apply He1l in E. congruence. }
  split; [congruence|]. split; [by apply He2l|]. split; [done|].
  split; eauto.
Qed.

(** C9. For two chromosomes and a cut position inside both sequences,
    [crossover] returns two chromosomes whose sequences are head1 ++ tail2
    and head2 ++ tail1, split at the cut; and [crossover] of these two at
    the same position returns two chromosomes whose sequences are the two
    original ones. *)
Theorem crossover_round_trip (c1 c2 : loc) (p : Z) (h : store)
  (o1 o2 : chromosome) (seq1 seq2 : list Z) :
  chromosomes h !! c1 = Some o1 -> chromosomes h !! c2 = Some o2 ->
  lists h !! sequence_ref o1 = Some seq1 ->
  lists h !! sequence_ref o2 = Some seq2 ->
  0 <= p -> p < PyList.len seq1 -> p < PyList.len seq2 ->
  exists new1 new2 h1,
    crossover c1 c2 p h = Ok (new1, new2, h1) /\
    sequence_of new1 h1 =
      Ok (take (Z.to_nat p) seq1 ++ drop (Z.to_nat p) seq2) /\
    sequence_of new2 h1 =
      Ok (take (Z.to_nat p) seq2 ++ drop (Z.to_nat p) seq1) /\
    exists back1 back2 h2,
      crossover new1 new2 p h1 = Ok (back1, back2, h2) /\
      sequence_of back1 h2 = Ok seq1 /\ sequence_of back2 h2 = Ok seq2.
Proof.
  intros H1 H2 Hs1 Hs2 Hp0 Hp1 Hp2.
  destruct (crossover_new c1 c2 p h o1 o2 seq1 seq2)
    as (new1 & new2 & h1 & r1 & r2 & Hx & _ & _ & _ & Hc1 & Hc2 & _ & _ & _ &
        Hl1 & Hl2 & _); try done; [by left|].
  rewrite !PyListFacts.slice_to_inside in Hl1, Hl2 by lia.
  rewrite !PyListFacts.slice_from_inside in Hl1, Hl2 by lia.
  set (L1 := take (Z.to_nat p) seq1 ++ drop (Z.to_nat p) seq2) in *.
  set (L2 := take (Z.to_nat p) seq2 ++ drop (Z.to_nat p) seq1) in *.
  assert (Hlen1 : PyList.len L1 = PyList.len seq2).
  { unfold L1, PyList.len in *.
    rewrite length_app, length_take, length_drop. lia. }
  assert (Hlen2 : PyList.len L2 = PyList.len seq1).
  { unfold L2, PyList.len in *.
    rewrite length_app, length_take, length_drop. lia. }
  assert (Hseq : forall c r b l, chromosomes h1 !! c = Some (mkObj r b
                   default_background_mutation) ->
                 lists h1 !! r = Some l -> sequence_of c h1 = Ok l).
  { intros c r b l Hc Hl. unfold sequence_of, get_chromosome, get_list.
    rewrite Hc. simpl. by rewrite Hl. }
  exists new1, new2, h1. split; [done|].
  split; [by eapply Hseq|]. split; [by eapply Hseq|].
  destruct (crossover_new new1 new2 p h1 _ _ L1 L2 Hc1 Hc2 Hl1 Hl2)
    as (back1 & back2 & h2 & q1 & q2 & Hy & _ & _ & _ & Hd1 & Hd2 & _ & _ &
        _ & Hm1 & Hm2 & _); [left; lia|].
  rewrite !PyListFacts.slice_to_inside in Hm1, Hm2 by lia.
  rewrite !PyListFacts.slice_from_inside in Hm1, Hm2 by lia.
  assert (Hp1' : (Z.to_nat p <= length seq1)%nat)
    by (unfold PyList.len in *; lia).
  assert (Hp2' : (Z.to_nat p <= length seq2)%nat)
    by (unfold PyList.len in *; lia).
  assert (Ht1 : length (take (Z.to_nat p) seq1) = Z.to_nat p)
    by (rewrite length_take; lia).
  assert (Ht2 : length (take (Z.to_nat p) seq2) = Z.to_nat p)
    by (rewrite length_take; lia).
  unfold L1, L2 in Hm1, Hm2.
  rewrite !take_app_length', !drop_app_length', !take_drop in Hm1, Hm2
    by done.
  exists back1, back2, h2. split; [done|].
  unfold sequence_of, get_chromosome, get_list.
  rewrite Hd1, Hd2. simpl. by rewrite Hm1, Hm2.
Qed.

(** C10, amended. When the cut position is at or beyond the length of both
    sequences, [crossover] returns the two chromosomes it was given, the
    same objects, and the store is unchanged. When it lies inside at least
    one sequence, the two outputs are new objects, distinct from each other,
    each with a new list as its sequence, and the sequences of the inputs
    are unchanged; if the cut is at or beyond the second sequence only, the
    outputs are head1 and seq2 ++ tail1, and if it is at or beyond the first
    only, seq1 ++ tail2 and head2. *)
Theorem crossover_beyond (c1 c2 : loc) (p : Z) (h : store)
  (o1 o2 : chromosome) (seq1 seq2 : list Z) :
  chromosomes h !! c1 = Some o1 -> chromosomes h !! c2 = Some o2 ->
  lists h !! sequence_ref o1 = Some seq1 ->
  lists h !! sequence_ref o2 = Some seq2 ->
  (PyList.len seq1 <= p -> PyList.len seq2 <= p ->
   crossover c1 c2 p h = Ok (c1, c2, h)) /\
  (p < PyList.len seq1 \/ p < PyList.len seq2 ->
   exists new1 new2 h1 q1 q2,
     crossover c1 c2 p h = Ok (new1, new2, h1) /\
     chromosomes h !! new1 = None /\ chromosomes h !! new2 = None /\
     new1 <> new2 /\
     chromosomes h1 !! new1 = Some q1 /\ chromosomes h1 !! new2 = Some q2 /\
     lists h !! sequence_ref q1 = None /\
     lists h !! sequence_ref q2 = None /\
     sequence_ref q1 <> sequence_ref q2 /\
     sequence_of c1 h1 = Ok seq1 /\ sequence_of c2 h1 = Ok seq2 /\
     (PyList.len seq2 <= p ->
      sequence_of new1 h1 = Ok (take (Z.to_nat p) seq1) /\
      sequence_of new2 h1 = Ok (seq2 ++ drop (Z.to_nat p) seq1)) /\
     (PyList.len seq1 <= p ->
      sequence_of new1 h1 = Ok (seq1 ++ drop (Z.to_nat p) seq2) /\
      sequence_of new2 h1 = Ok (take (Z.to_nat p) seq2))).
Proof.
  intros H1 H2 Hs1 Hs2.
  pose proof (PyListFacts.len_nonneg seq1) as Hn1.
  pose proof (PyListFacts.len_nonneg seq2) as Hn2.
  split.
  - intros Hp1 Hp2. rewrite (crossover_eq _ _ _ _ _ _ _ _ H1 H2 Hs1 Hs2).
    destruct (Z.ltb_spec p (PyList.len seq1)); [lia|].
    destruct (Z.ltb_spec p (PyList.len seq2)); [lia|]. done.
  - intros Hp.
    destruct (crossover_new c1 c2 p h o1 o2 seq1 seq2 H1 H2 Hs1 Hs2 Hp)
      as (new1 & new2 & h1 & r1 & r2 & Hx & Hf1 & Hf2 & Hne & Hc1 & Hc2 &
          Hr1 & Hr2 & Hrne & Hl1 & Hl2 & Hext).
    exists new1, new2, h1, (mkObj r1 (base_ref o1) default_background_mutation),
      (mkObj r2 (base_ref o2) default_background_mutation).
    assert (Hseq : forall c r b l, chromosomes h1 !! c = Some (mkObj r b
                     default_background_mutation) ->
                   lists h1 !! r = Some l -> sequence_of c h1 = Ok l).
    { intros c r b l Hc Hl. unfold sequence_of, get_chromosome, get_list.
      rewrite Hc. simpl. by rewrite Hl. }
    assert (Hold : forall c o l, chromosomes h !! c = Some o ->
                   lists h !! sequence_ref o = Some l ->
                   sequence_of c h1 = Ok l).
    { intros c o l Hc Hl. apply (extends_sequence_of h h1 c l Hext).
      unfold sequence_of, get_chromosome, get_list.
      rewrite Hc. simpl. by rewrite Hl. }
    repeat (split; [by eauto|]).
    split.
    + intros Hp2. assert (Hp1 : p < PyList.len seq1) by (destruct Hp; lia).
      rewrite (PyListFacts.slice_from_beyond seq2 p) in Hl1 by done.
      rewrite (PyListFacts.slice_to_beyond seq2 p) in Hl2 by done.
      rewrite PyListFacts.slice_to_inside in Hl1 by lia.
      rewrite PyListFacts.slice_from_inside in Hl2 by lia.
      rewrite app_nil_r in Hl1. split; by eapply Hseq.
    + intros Hp1. assert (Hp2 : p < PyList.len seq2) by (destruct Hp; lia).
      rewrite (PyListFacts.slice_from_beyond seq1 p) in Hl2 by done.
      rewrite (PyListFacts.slice_to_beyond seq1 p) in Hl1 by done.
      rewrite PyListFacts.slice_to_inside in Hl2 by lia.
      rewrite PyListFacts.slice_from_inside in Hl1 by lia.
      rewrite app_nil_r in Hl2. split; by eapply Hseq.
Qed.


Lemma crossover_round_trip_witness :
  exists new1 new2 h1,
    crossover 1%positive 2%positive 1 store2 = Ok (new1, new2, h1) /\
    sequence_of new1 h1 = Ok [1; 5; 6; 7] /\
    sequence_of new2 h1 = Ok [4; 2; 3] /\
    exists back1 back2 h2,
      crossover new1 new2 1 h1 = Ok (back1, back2, h2) /\
      sequence_of back1 h2 = Ok [1; 2; 3] /\
      sequence_of back2 h2 = Ok [4; 5; 6; 7].
Proof.
  apply (crossover_round_trip 1%positive 2%positive 1 store2
           (mkObj 2%positive 1%positive default_background_mutation)
           (mkObj 3%positive 1%positive default_background_mutation)
           [1; 2; 3] [4; 5; 6; 7]);
    try (vm_compute; reflexivity); vm_compute; discriminate.
Defined.

Lemma crossover_beyond_witness :
  crossover 1%positive 2%positive 9 store2 =
    Ok (1%positive, 2%positive, store2) /\
  exists new1 new2 h1 q1 q2,
    crossover 1%positive 2%positive 3 store2 = Ok (new1, new2, h1) /\
    chromosomes store2 !! new1 = None /\ chromosomes store2 !! new2 = None /\
    new1 <> new2 /\
    chromosomes h1 !! new1 = Some q1 /\ chromosomes h1 !! new2 = Some q2 /\
    lists store2 !! sequence_ref q1 = None /\
    lists store2 !! sequence_ref q2 = None /\
    sequence_ref q1 <> sequence_ref q2 /\
    sequence_of 1%positive h1 = Ok [1; 2; 3] /\
    sequence_of 2%positive h1 = Ok [4; 5; 6; 7] /\
    sequence_of new1 h1 = Ok [1; 2; 3; 7] /\
    sequence_of new2 h1 = Ok [4; 5; 6].
Proof.
  destruct (crossover_beyond 1%positive 2%positive 9 store2
              (mkObj 2%positive 1%positive default_background_mutation)
              (mkObj 3%positive 1%positive default_background_mutation)
              [1; 2; 3] [4; 5; 6; 7]) as [Hboth _];
    try (vm_compute; reflexivity).
  destruct (crossover_beyond 1%positive 2%positive 3 store2
              (mkObj 2%positive 1%positive default_background_mutation)
              (mkObj 3%positive 1%positive default_background_mutation)
              [1; 2; 3] [4; 5; 6; 7]) as [_ Hone];
    try (vm_compute; reflexivity).
  split.
  - apply Hboth; vm_compute; discriminate.
  - destruct Hone as (new1 & new2 & h1 & q1 & q2 & Hx & Hf1 & Hf2 & Hne &
                      Hc1 & Hc2 & Hr1 & Hr2 & Hrne & Hs1 & Hs2 & _ & Hcut).
    { right. vm_compute. reflexivity. }
    destruct Hcut as [Hn1 Hn2]; [vm_compute; discriminate|].
    exists new1, new2, h1, q1, q2. repeat (split; [assumption|]). exact Hn2.
Defined.

(** C10, refuted as stated: a cut beyond both lists hands back the two
    arguments themselves. *)
Lemma crossover_returns_its_arguments :
  sequence_of 1%positive store2 = Ok [1; 2; 3] /\
  sequence_of 2%positive store2 = Ok [4; 5; 6; 7] /\
  crossover 1%positive 2%positive 9 store2 =
    Ok (1%positive, 2%positive, store2).
Proof. repeat split; vm_compute; reflexivity. Qed.

End CrossoverFacts.

Module PopulationFacts.
Import Population.

Section Facts.
Context {Organism : Type} (fitness : Organism -> result Q).
Implicit Types (agents pool : list Organism) (g : rng).

(** Sampling from a collection that is not empty returns, with as many
    organisms as asked, all of the collection. *)
Lemma sample_returns n pool g :
  pool <> [] ->
  exists drawn g', sample n pool g = Ok (drawn, g') /\
    length drawn = n /\ Forall (fun a => a ∈ pool) drawn.
Proof.
  intros Hpool.
  assert (Hlen : 0 < PyList.len pool).
  { unfold PyList.len. destruct pool; [done|simpl; lia]. }
  revert g. induction n as [|n IH]; intros g; simpl.
  - by exists [], g.
  - unfold randint, randrange2.
    destruct (Z.leb_spec (PyList.len pool - 1 + 1) 0); [lia|]. simpl.
    set (i := 0 + draws g (cursor g) mod (PyList.len pool - 1 + 1 - 0)).
    assert (Hi : 0 <= i < PyList.len pool).
    { pose proof (Z.mod_pos_bound (draws g (cursor g))
                    (PyList.len pool - 1 + 1 - 0)). lia. }
    destruct (PyListFacts.getitem_inside pool i Hi) as (a & Ha & ->). simpl.
    destruct (IH (Rng (draws g) (S (cursor g)))) as (drawn & g' & -> & Hd & Hin).
    simpl. exists (a :: drawn), g'. split; [done|]. split; [simpl; lia|].
    constructor; [|done]. apply list_elem_of_lookup. eauto.
Qed.

(** The collection that [prepopulation_control] leaves, by the size of the
    retained set. *)
Lemma prepopulation_control_cases agents g sfitness threshold :
  map_result fitness agents = Ok sfitness ->
  mean sfitness = Ok threshold ->
  exists g', prepopulation_control fitness agents g =
    Ok (if 21 <? PyList.len (above threshold agents sfitness)
        then above threshold agents sfitness else agents, g').
Proof.
  intros Hf Hm. unfold prepopulation_control.
  rewrite Hf. cbn [mbind result_bind]. rewrite Hm. cbn [mbind result_bind].
  set (temp := above threshold agents sfitness).
  destruct (Z.ltb_spec 2001 (PyList.len temp)) as [Hbig|Hsmall].
  - destruct (sample_returns 2000 temp g) as (drawn & g' & -> & _ & _).
    { intros E. rewrite E in Hbig. unfold PyList.len in Hbig.
      simpl in Hbig. lia. }
    cbn [mbind result_bind]. exists g'.
    destruct (Z.ltb_spec 21 (PyList.len temp)); [done|lia].
  - cbn [mbind result_bind]. by exists g.
Qed.


End Facts.

(** C1. [prepopulation_control] at two collections. Of 22 organisms, 21 lie
    strictly above the mean fitness: the retained set has more than 20
    members, and the code keeps the prior collection of 22. Of 4004
    organisms, 2002 lie strictly above the mean: the retained set has more
    than 2000 members, the code makes its 2000 draws and then replaces the
    collection by the whole retained set of 2002. *)
Theorem prepopulation_control_thresholds :
  above (21 # 22) (population 22) (replicate 21 1%Q ++ [0%Q]) = population 21 /\
  prepopulation_control (fitness_below 21) (population 22) g0 =
    Ok (population 22, g0) /\
  above (1 # 2) (population 4004) (replicate 2002 1%Q ++ replicate 2002 0%Q) =
    population 2002 /\
  prepopulation_control (fitness_below 2002) (population 4004) g0 =
    Ok (population 2002, Rng (fun _ => 0) 2000).
Proof. repeat split; vm_compute; reflexivity. Qed.



End PopulationFacts.

Module OutcomeFacts.
Import Mutation Outcome.
Local Open Scope st_scope.

Implicit Types (s : mstate) (l : list Z).

Section Rules.
Context {A : Type}.
Implicit Types (Q : A -> mstate -> Prop) (E : exn -> mstate -> Prop).

Lemma wp_ret (a : A) s Q E : Q a s -> wp (st_ret a) s Q E.
Proof. done. Qed.

Lemma wp_bind {B} (m : M B) (f : B -> M A) s Q E :
  wp m s (fun b s' => wp (f b) s' Q E) E -> wp (st_bind m f) s Q E.
Proof.
  unfold wp, st_bind. by destruct (m s) as [[b|e] s'].
Qed.

Lemma wp_mono (m : M A) s Q Q' E E' :
  (forall a s', Q a s' -> Q' a s') -> (forall e s', E e s' -> E' e s') ->
  wp m s Q E -> wp m s Q' E'.
Proof.
  intros HQ HE. unfold wp. destruct (m s) as [[a|e] s']; auto.
Qed.

Lemma wp_lift (r : result A) s Q E :
  match r with Ok a => Q a s | Raise e => E e s end -> wp (st_lift r) s Q E.
Proof. by destruct r. Qed.

End Rules.

Section Primitives.
Implicit Types (E : exn -> mstate -> Prop).

Lemma wp_when (c : bool) (m : M unit) s (Q : unit -> mstate -> Prop) E :
  (c = true -> wp m s Q E) -> (c = false -> Q tt s) -> wp (when c m) s Q E.
Proof.
  destruct c; intros Ht Hf; [by apply Ht|by apply wp_ret, Hf].
Qed.

Lemma wp_randrange2 a b s (Q : Z -> mstate -> Prop) E :
  (b <= a -> E ValueError s) ->
  (forall x g, a <= x < b -> Q x (mkState (st_sequence s) g (st_edits s))) ->
  wp (with_rng (randrange2 a b)) s Q E.
Proof.
  intros HE HQ. unfold wp, with_rng, randrange2.
  destruct (Z.leb_spec b a); [by apply HE|]. simpl. apply HQ.
  pose proof (Z.mod_pos_bound (draws (st_rng s) (cursor (st_rng s))) (b - a)).
  lia.
Qed.

Lemma wp_setitem i x s (Q : unit -> mstate -> Prop) E :
  (in_range (st_sequence s) i ->
   Q tt (with_sequence (<[index_of (st_sequence s) i := x]> (st_sequence s)) s)) ->
  (~ in_range (st_sequence s) i -> E IndexError s) ->
  wp (seq_setitem i x) s Q E.
Proof.
  intros HQ HE. unfold wp, seq_setitem, PyList.setitem, in_range, index_of in *.
  unfold PyList.norm in *.
  destruct (Z.ltb_spec i 0);
    [destruct (Z.ltb_spec (i + PyList.len (st_sequence s)) 0)
    |destruct (Z.ltb_spec i 0)]; simpl;
    try destruct (Z.leb_spec (PyList.len (st_sequence s)) i); simpl;
    try destruct (Z.leb_spec (PyList.len (st_sequence s))
                    (i + PyList.len (st_sequence s))); simpl;
    first [apply HQ; lia | apply HE; lia].
Qed.

Lemma wp_pop i s (Q : Z -> mstate -> Prop) E :
  (in_range (st_sequence s) i ->
   forall x, st_sequence s !! index_of (st_sequence s) i = Some x ->
   Q x (with_sequence (delete (index_of (st_sequence s) i) (st_sequence s)) s)) ->
  (~ in_range (st_sequence s) i -> E IndexError s) ->
  wp (seq_pop i) s Q E.
Proof.
  intros HQ HE. unfold wp, seq_pop, PyList.pop.
  fold (index_of (st_sequence s) i).
  assert (Hr : in_range (st_sequence s) i <->
     (PyList.norm (st_sequence s) i <? 0) ||
     (PyList.len (st_sequence s) <=? PyList.norm (st_sequence s) i) = false).
  { unfold in_range, PyList.norm. rewrite orb_false_iff, Z.ltb_ge, Z.leb_gt.
    destruct (Z.ltb_spec i 0); lia. }
  destruct ((PyList.norm (st_sequence s) i <? 0) ||
            (PyList.len (st_sequence s) <=? PyList.norm (st_sequence s) i))
    eqn:Hc.
  - apply HE. intros Hin. apply Hr in Hin. congruence.
  - destruct (st_sequence s !! index_of (st_sequence s) i) as [x|] eqn:Hx.
    + apply HQ; [by apply Hr|done].
    + exfalso. apply lookup_ge_None in Hx.
      apply orb_false_iff in Hc as [Hc1 Hc2].
      apply Z.ltb_ge in Hc1. apply Z.leb_gt in Hc2.
      unfold index_of, PyList.len in *. lia.
Qed.

Lemma wp_insert i x s (Q : unit -> mstate -> Prop) E :
  Q tt (with_sequence (PyList.insert (st_sequence s) i x) s) ->
  wp (seq_insert i x) s Q E.
Proof. done. Qed.

Lemma wp_slice a b s (Q : list Z -> mstate -> Prop) E :
  Q (PyList.slice (st_sequence s) a b) s -> wp (seq_slice a b) s Q E.
Proof. done. Qed.

Lemma wp_len s (Q : Z -> mstate -> Prop) E :
  Q (PyList.len (st_sequence s)) s -> wp seq_len s Q E.
Proof. done. Qed.

Lemma wp_count_edit s (Q : unit -> mstate -> Prop) E :
  Q tt (mkState (st_sequence s) (st_rng s) (S (st_edits s))) ->
  wp count_edit s Q E.
Proof. done. Qed.

End Primitives.
End OutcomeFacts.

Module KmutateFacts.
Import Mutation Outcome.
Local Open Scope st_scope.

Implicit Types (s : mstate) (l : list Z).

(** *** The branch that each name takes *)

Ltac one_branch :=
  unfold kmutate, when, st_bind, st_ret; simpl;
  repeat match goal with
         | |- context [match ?m ?s with _ => _ end] =>
             destruct (m s) as [[[]|?] ?]
         end; reflexivity.

Lemma kmutate_point_eq start end_ a tpos s :
  kmutate "point" start end_ a tpos s =
  (b <- st_lift (arg_base a) ;; seq_setitem start b) s.
Proof.
  unfold kmutate, when, st_bind, st_ret, st_lift. simpl.
  destruct (arg_base a) as [b|e]; [|done].
  by destruct (seq_setitem start b s) as [[[]|?] ?].
Qed.

Lemma kmutate_delete_eq start end_ a tpos s :
  kmutate "delete" start end_ a tpos s =
  (_ <- seq_pop start ;; st_ret tt) s.
Proof.
  unfold kmutate, when, st_bind, st_ret. simpl.
  by destruct (seq_pop start s) as [[?|?] ?].
Qed.

Lemma kmutate_insert_eq start end_ a tpos s :
  kmutate "insert" start end_ a tpos s =
  (bs <- st_lift (arg_list a) ;; insert_each start bs) s.
Proof.
  unfold kmutate, when, st_bind, st_ret, st_lift. simpl.
  destruct (arg_list a) as [bs|e]; [|done].
  by destruct (insert_each start bs s) as [[[]|?] ?].
Qed.

Lemma kmutate_duplicate_eq start end_ a tpos s :
  kmutate "duplicate" start end_ a tpos s =
  insert_run end_ (PyList.slice (st_sequence s) start (end_ + 1)) s.
Proof.
  unfold kmutate, when, st_bind, st_ret, seq_slice. simpl.
  by destruct (insert_run end_ _ s) as [[[]|?] ?].
Qed.

Lemma kmutate_translocate_eq start end_ a tpos s :
  kmutate "translocate" start end_ a tpos s =
  (fragment <- pop_times (Z.to_nat (end_ - start)) start ;;
   insert_run tpos fragment) s.
Proof.
  unfold kmutate, when, st_bind, st_ret. simpl.
  destruct (pop_times (Z.to_nat (end_ - start)) start s) as [[f|?] s1];
    [|done].
  by destruct (insert_run tpos f s1) as [[[]|?] ?].
Qed.

(** *** The loops, exactly *)

(** Inserting a run at a position that is not negative puts it there, in
    order; beyond the end it is appended. *)
Lemma insert_run_nonneg p fragment s :
  0 <= p ->
  insert_run p fragment s =
  (Ok tt, with_sequence (take (Z.to_nat p) (st_sequence s) ++ fragment ++
                         drop (Z.to_nat p) (st_sequence s)) s).
Proof.
  revert p s. induction fragment as [|b bs IH]; intros p [l g n] Hp; simpl.
  - unfold st_ret, with_sequence. simpl. by rewrite take_drop.
  - unfold st_bind, seq_insert. simpl. rewrite IH by lia. simpl.
    unfold with_sequence. simpl. do 2 f_equal.
    replace (Z.to_nat (p + 1)) with (S (Z.to_nat p)) by lia.
    destruct (Z.le_gt_cases p (PyList.len l)) as [Hin|Hout].
    + rewrite PyListFacts.insert_inside by lia.
      assert (Hlen : length (take (Z.to_nat p) l ++ [b]) = S (Z.to_nat p)).
      { rewrite length_app, length_take. unfold PyList.len in Hin.
        simpl. lia. }
      replace (take (Z.to_nat p) l ++ b :: drop (Z.to_nat p) l)
        with ((take (Z.to_nat p) l ++ [b]) ++ drop (Z.to_nat p) l)
        by by rewrite <- app_assoc.
      rewrite take_app_length', drop_app_length' by done.
      by rewrite <- !app_assoc.
    + unfold PyList.insert. rewrite PyListFacts.clamp_beyond by lia.
      unfold PyList.len in Hout.
      rewrite (take_ge l (length l)), (drop_ge l (length l)) by lia.
      rewrite (take_ge l (Z.to_nat p)), (drop_ge l (Z.to_nat p)) by lia.
      rewrite take_ge, drop_ge by (rewrite length_app; simpl; lia).
      by rewrite <- !app_assoc.
Qed.

(** Popping [k] times at [p] takes the [k] symbols from [p] on, in order. *)
Lemma pop_times_inside k p s :
  0 <= p -> p + Z.of_nat k <= PyList.len (st_sequence s) ->
  pop_times k p s =
  (Ok (take k (drop (Z.to_nat p) (st_sequence s))),
   with_sequence (take (Z.to_nat p) (st_sequence s) ++
                  drop (Z.to_nat p + k) (st_sequence s)) s).
Proof.
  revert s. induction k as [|k IH]; intros [l g n] Hp Hk; simpl in *.
  - unfold st_ret, with_sequence. simpl.
    by rewrite Nat.add_0_r, take_drop.
  - unfold st_bind, seq_pop. simpl.
    destruct (PyListFacts.pop_inside l p) as (x & Hx & ->); [lia|]. simpl.
    assert (Hd : delete (Z.to_nat p) l =
                 take (Z.to_nat p) l ++ drop (S (Z.to_nat p)) l)
      by apply delete_take_drop.
    assert (Hlen : length (take (Z.to_nat p) l) = Z.to_nat p).
    { rewrite length_take. unfold PyList.len in Hk. lia. }
    assert (E1 : drop (Z.to_nat p) (delete (Z.to_nat p) l) =
                 drop (S (Z.to_nat p)) l)
      by (rewrite Hd; by apply drop_app_length').
    assert (E2 : take (Z.to_nat p) (delete (Z.to_nat p) l) =
                 take (Z.to_nat p) l)
      by (rewrite Hd; by apply take_app_length').
    assert (E3 : drop (Z.to_nat p + k) (delete (Z.to_nat p) l) =
                 drop (Z.to_nat p + S k) l).
    { rewrite Hd, drop_app_add' by done. rewrite drop_drop. f_equal. lia. }
    rewrite IH; simpl.
    + unfold st_ret, with_sequence. simpl.
      by rewrite E1, E2, E3, (drop_S l x (Z.to_nat p)).
    + done.
    + pose proof (length_delete l (Z.to_nat p) (mk_is_Some _ _ Hx)).
      unfold PyList.len in *. lia.
Qed.

(** Popping more than there is from [p] on removes all of it, then raises. *)
Lemma pop_times_overrun k p s :
  0 <= p <= PyList.len (st_sequence s) ->
  PyList.len (st_sequence s) < p + Z.of_nat k ->
  pop_times k p s =
  (Raise IndexError, with_sequence (take (Z.to_nat p) (st_sequence s)) s).
Proof.
  revert s. induction k as [|k IH]; intros [l g n] Hp Hk; simpl in *.
  - lia.
  - unfold st_bind, seq_pop. simpl.
    destruct (Z.eq_dec p (PyList.len l)) as [Heq|Hne].
    + unfold PyList.pop. rewrite PyListFacts.norm_nonneg by lia.
      destruct (Z.ltb_spec p 0); [lia|].
      destruct (Z.leb_spec (PyList.len l) p); [|lia]. simpl.
      unfold with_sequence. simpl. rewrite take_ge; [done|].
      unfold PyList.len in *. lia.
    + destruct (PyListFacts.pop_inside l p) as (x & Hx & ->); [lia|]. simpl.
      pose proof (length_delete l (Z.to_nat p) (mk_is_Some _ _ Hx)) as Hd.
      rewrite IH; simpl.
      * unfold with_sequence. simpl. do 2 f_equal.
        rewrite delete_take_drop. rewrite take_app_length'; [done|].
        rewrite length_take. unfold PyList.len in *. lia.
      * unfold PyList.len in *. lia.
      * unfold PyList.len in *. lia.
Qed.

(** *** The kinds of [kmutate] *)

(** X1. [kmutate('point', start, sequence=b)] at an index of the sequence
    (counted from the end when negative) returns, keeps the length, leaves
    [b] at that index and changes no other position. *)
Theorem kmutate_point_one_symbol (start end_ tpos b : Z) (s : mstate) :
  in_range (st_sequence s) start ->
  exists l',
    kmutate "point" start end_ (ArgBase b) tpos s =
      (Ok tt, with_sequence l' s) /\
    length l' = length (st_sequence s) /\
    l' !! index_of (st_sequence s) start = Some b /\
    forall j, j <> index_of (st_sequence s) start ->
              l' !! j = st_sequence s !! j.
Proof.
  intros Hin. exists (<[index_of (st_sequence s) start := b]> (st_sequence s)).
  assert (Hi : (index_of (st_sequence s) start < length (st_sequence s))%nat).
  { unfold in_range, index_of, PyList.norm, PyList.len in *.
    destruct (Z.ltb_spec start 0); lia. }
  split; [|split; [|split]].
  - rewrite kmutate_point_eq. unfold st_bind, st_lift. simpl.
    pose proof (OutcomeFacts.wp_setitem start b s
      (fun u s' => (u, s') = (tt, with_sequence
         (<[index_of (st_sequence s) start := b]> (st_sequence s)) s))
      (fun _ _ => False)) as Hwp.
    unfold wp in Hwp.
    destruct (seq_setitem start b s) as [[[]|e] s'].
    + f_equal. assert (H : (tt, s') = (tt, with_sequence
         (<[index_of (st_sequence s) start := b]> (st_sequence s)) s))
        by (apply Hwp; done). by injection H.
    + exfalso. by apply Hwp.
  - by rewrite length_insert.
  - by apply list_lookup_insert_eq.
  - intros j Hj. by apply list_lookup_insert_ne.
Qed.

(** X2. With [start] outside the sequence (in particular on an empty
    sequence), [kmutate('point', ...)] and [kmutate('delete', ...)] raise
    IndexError and leave the sequence as it was. *)
Theorem kmutate_out_of_range (start end_ tpos b : Z) (a : seq_arg)
  (s : mstate) :
  ~ in_range (st_sequence s) start ->
  kmutate "point" start end_ (ArgBase b) tpos s = (Raise IndexError, s) /\
  kmutate "delete" start end_ a tpos s = (Raise IndexError, s).
Proof.
  intros Hout. split.
  - rewrite kmutate_point_eq. unfold st_bind, st_lift. simpl.
    pose proof (OutcomeFacts.wp_setitem start b s (fun _ _ => False)
      (fun e s' => (e, s') = (IndexError, s))) as Hwp.
    unfold wp in Hwp.
    destruct (seq_setitem start b s) as [[[]|e] s'].
    + exfalso. by apply Hwp.
    + assert (H : (e, s') = (IndexError, s)) by (apply Hwp; done).
      by injection H as -> ->.
  - rewrite kmutate_delete_eq. unfold st_bind.
    pose proof (OutcomeFacts.wp_pop start s (fun _ _ => False)
      (fun e s' => (e, s') = (IndexError, s))) as Hwp.
    unfold wp in Hwp.
    destruct (seq_pop start s) as [[x|e] s'].
    + exfalso. by apply Hwp.
    + assert (H : (e, s') = (IndexError, s)) by (apply Hwp; done).
      by injection H as -> ->.
Qed.

(** X3. [kmutate('delete', start)] at an index of the sequence returns and
    removes exactly the symbol at that index: what comes before and what
    comes after are kept in order, and the sequence is one shorter. *)
Theorem kmutate_delete_one_symbol (start end_ tpos : Z) (a : seq_arg)
  (s : mstate) :
  in_range (st_sequence s) start ->
  kmutate "delete" start end_ a tpos s =
    (Ok tt,
     with_sequence
       (take (index_of (st_sequence s) start) (st_sequence s) ++
        drop (S (index_of (st_sequence s) start)) (st_sequence s)) s) /\
  S (length (st_sequence (kmutate "delete" start end_ a tpos s).2)) =
    length (st_sequence s).
Proof.
  intros Hin.
  assert (Hi : (index_of (st_sequence s) start < length (st_sequence s))%nat).
  { unfold in_range, index_of, PyList.norm, PyList.len in *.
    destruct (Z.ltb_spec start 0); lia. }
  assert (Heq : kmutate "delete" start end_ a tpos s =
    (Ok tt, with_sequence
       (delete (index_of (st_sequence s) start) (st_sequence s)) s)).
  { rewrite kmutate_delete_eq. unfold st_bind.
    pose proof (OutcomeFacts.wp_pop start s
      (fun _ s' => s' = with_sequence
         (delete (index_of (st_sequence s) start) (st_sequence s)) s)
      (fun _ _ => False)) as Hwp.
    unfold wp in Hwp.
    destruct (seq_pop start s) as [[x|e] s'].
    + unfold st_ret. f_equal. apply Hwp; done.
    + exfalso. by apply Hwp. }
  rewrite Heq. simpl. split.
  - by rewrite delete_take_drop.
  - rewrite length_delete by by apply lookup_lt_is_Some_2. lia.
Qed.

(** X4. [kmutate('insert', start, sequence=bases)] with [start] between 0 and
    the length returns and puts the bases at [start] in reverse order (each is
    inserted at [start], before the one inserted just before); nothing is
    removed. *)
Theorem kmutate_insert_reversed (start end_ tpos : Z) (bases : list Z)
  (s : mstate) :
  0 <= start <= PyList.len (st_sequence s) ->
  kmutate "insert" start end_ (ArgBases bases) tpos s =
  (Ok tt,
   with_sequence
     (take (Z.to_nat start) (st_sequence s) ++ rev bases ++
      drop (Z.to_nat start) (st_sequence s)) s).
Proof.
  intros Hs. rewrite kmutate_insert_eq. unfold st_bind, st_lift. simpl.
  by rewrite MutationFacts.insert_each_inside.
Qed.

(** X5. [kmutate('duplicate', start, end)] with [0 <= start <= end] and
    [end] an index of the sequence returns and inserts a copy of the symbols
    from [start] to [end] inclusive at index [end], that is before the last
    symbol of the range and not after it; the sequence grows by
    [end - start + 1]. *)
Theorem kmutate_duplicate_before_end (start end_ tpos : Z) (a : seq_arg)
  (s : mstate) :
  0 <= start -> start <= end_ -> end_ < PyList.len (st_sequence s) ->
  kmutate "duplicate" start end_ a tpos s =
    (Ok tt,
     with_sequence
       (take (Z.to_nat end_) (st_sequence s) ++
        take (Z.to_nat (end_ - start + 1))
          (drop (Z.to_nat start) (st_sequence s)) ++
        drop (Z.to_nat end_) (st_sequence s)) s) /\
  PyList.len (st_sequence (kmutate "duplicate" start end_ a tpos s).2) =
    PyList.len (st_sequence s) + (end_ - start + 1).
Proof.
  intros Hs Hle He.
  assert (Heq : kmutate "duplicate" start end_ a tpos s =
    (Ok tt,
     with_sequence
       (take (Z.to_nat end_) (st_sequence s) ++
        take (Z.to_nat (end_ - start + 1))
          (drop (Z.to_nat start) (st_sequence s)) ++
        drop (Z.to_nat end_) (st_sequence s)) s)).
  { rewrite kmutate_duplicate_eq, insert_run_nonneg by lia.
    rewrite PyListFacts.slice_inside by lia.
    by replace (end_ + 1 - start) with (end_ - start + 1) by lia. }
  split; [done|]. rewrite Heq. simpl. unfold PyList.len in *.
  rewrite !length_app, !length_take, !length_drop. lia.
Qed.

(** X6. [kmutate('translocate', start, end, tpos)] with
    [0 <= start <= end <= len] and [tpos >= 0] returns: the symbols of
    [[start, end)] are taken out and put back, in order, at index [tpos] of
    what remains. The result is a rearrangement of the sequence, of the same
    length, and with [tpos = start] it is the sequence itself. *)
Theorem kmutate_translocate_moves (start end_ tpos : Z) (a : seq_arg)
  (s : mstate) :
  0 <= start -> start <= end_ -> end_ <= PyList.len (st_sequence s) ->
  0 <= tpos ->
  let fragment :=
    take (Z.to_nat (end_ - start)) (drop (Z.to_nat start) (st_sequence s)) in
  let rest :=
    take (Z.to_nat start) (st_sequence s) ++
    drop (Z.to_nat end_) (st_sequence s) in
  let l' :=
    take (Z.to_nat tpos) rest ++ fragment ++ drop (Z.to_nat tpos) rest in
  kmutate "translocate" start end_ a tpos s = (Ok tt, with_sequence l' s) /\
  l' ≡ₚ st_sequence s /\
  (tpos = start -> l' = st_sequence s).
Proof.
  intros Hs Hle He Ht fragment rest l'.
  assert (Hsplit : st_sequence s =
    take (Z.to_nat start) (st_sequence s) ++ fragment ++
    drop (Z.to_nat end_) (st_sequence s)).
  { unfold fragment.
    rewrite <- (take_drop (Z.to_nat start) (st_sequence s)) at 1.
    f_equal.
    rewrite <- (take_drop (Z.to_nat (end_ - start))
                  (drop (Z.to_nat start) (st_sequence s))) at 1.
    f_equal. rewrite drop_drop. f_equal. lia. }
  split; [|split].
  - rewrite kmutate_translocate_eq. unfold st_bind.
    rewrite pop_times_inside by lia.
    rewrite insert_run_nonneg by done. simpl.
    by replace (Z.to_nat start + Z.to_nat (end_ - start))%nat
      with (Z.to_nat end_) by lia.
  - unfold l'. rewrite Permutation_app_swap_app, take_drop.
    unfold rest. rewrite Permutation_app_swap_app. by rewrite <- Hsplit.
  - intros ->. unfold l', rest.
    assert (Hlen : length (take (Z.to_nat start) (st_sequence s)) =
                   Z.to_nat start).
    { rewrite length_take. unfold PyList.len in *. lia. }
    rewrite take_app_length', drop_app_length' by done.
    by rewrite <- Hsplit.
Qed.

(** X7. [kmutate('translocate', start, end, tpos)] with [end] beyond the
    length pops everything from [start] on, then raises IndexError: the
    sequence is left cut at [start] and the popped symbols are lost. *)
Theorem kmutate_translocate_overrun (start end_ tpos : Z) (a : seq_arg)
  (s : mstate) :
  0 <= start -> start <= PyList.len (st_sequence s) ->
  PyList.len (st_sequence s) < end_ ->
  kmutate "translocate" start end_ a tpos s =
  (Raise IndexError,
   with_sequence (take (Z.to_nat start) (st_sequence s)) s).
Proof.
  intros Hs Hle He. rewrite kmutate_translocate_eq. unfold st_bind.
  by rewrite pop_times_overrun by lia.
Qed.

(** X8. A [type] that is none of the six names is not an error: [kmutate]
    returns and changes nothing. *)
Theorem kmutate_unknown_kind (type : string) (start end_ tpos : Z)
  (a : seq_arg) (s : mstate) :
  type ∉ kinds -> kmutate type start end_ a tpos s = (Ok tt, s).
Proof.
  intros Hk. unfold kinds in Hk.
  repeat (apply not_elem_of_cons in Hk as [? Hk]).
  unfold kmutate, is_type.
  by rewrite !bool_decide_eq_false_2 by done.
Qed.

(** X9. Inserting one base at [start] and then deleting at [start] gives the
    sequence back, for every [start] between 0 and the length. *)
Theorem kmutate_insert_then_delete (start end_ tpos b : Z) (a : seq_arg)
  (s : mstate) :
  0 <= start <= PyList.len (st_sequence s) ->
  (kmutate "insert" start end_ (ArgBases [b]) tpos ;;
   kmutate "delete" start end_ a tpos) s = (Ok tt, s).
Proof.
  intros Hs.
  assert (Hins : kmutate "insert" start end_ (ArgBases [b]) tpos s =
    (Ok tt, with_sequence (take (Z.to_nat start) (st_sequence s) ++ [b] ++
                           drop (Z.to_nat start) (st_sequence s)) s)).
  { rewrite kmutate_insert_eq. unfold st_bind, st_lift. cbn [arg_list].
    by rewrite MutationFacts.insert_each_inside. }
  unfold st_bind at 1. rewrite Hins.
  rewrite kmutate_delete_eq. unfold st_bind, seq_pop. simpl.
  set (l := st_sequence s) in *.
  assert (Hlen : length (take (Z.to_nat start) l) = Z.to_nat start).
  { rewrite length_take. unfold PyList.len in Hs. lia. }
  destruct (PyListFacts.pop_inside
              (take (Z.to_nat start) l ++ b :: drop (Z.to_nat start) l) start)
    as (x & Hx & ->).
  { unfold PyList.len in *. rewrite length_app, Hlen. simpl. lia. }
  simpl. unfold st_ret. f_equal. destruct s as [l0 g n]. simpl in *.
  unfold with_sequence. simpl. f_equal.
  rewrite delete_take_drop.
  replace (take (Z.to_nat start) l ++ b :: drop (Z.to_nat start) l)
    with ((take (Z.to_nat start) l ++ [b]) ++ drop (Z.to_nat start) l)
    by by rewrite <- app_assoc.
  assert (Hlen' : length (take (Z.to_nat start) l ++ [b]) =
                  S (Z.to_nat start)).
  { rewrite length_app, Hlen. simpl. lia. }
  rewrite drop_app_length' by done.
  rewrite take_app_le by lia. rewrite take_app_length' by done.
  apply take_drop.
Qed.

(** *** The kinds of [kmutate], on [[1, 2, 3, 4]] *)

Lemma kmutate_point_one_symbol_witness :
  exists l',
    kmutate "point" (-1) 0 (ArgBase 9) 0 (mkState [1; 2; 3; 4] g0 O) =
      (Ok tt, with_sequence l' (mkState [1; 2; 3; 4] g0 O)) /\
    length l' = 4%nat /\
    l' !! 3%nat = Some 9 /\
    forall j, j <> 3%nat -> l' !! j = [1; 2; 3; 4] !! j.
Proof.
  apply (kmutate_point_one_symbol (-1) 0 0 9 (mkState [1; 2; 3; 4] g0 O)).
  unfold in_range, PyList.len. simpl. lia.
Defined.

Lemma kmutate_out_of_range_witness :
  kmutate "point" 4 0 (ArgBase 9) 0 (mkState [1; 2; 3; 4] g0 O) =
    (Raise IndexError, mkState [1; 2; 3; 4] g0 O) /\
  kmutate "delete" 4 0 ArgNone 0 (mkState [1; 2; 3; 4] g0 O) =
    (Raise IndexError, mkState [1; 2; 3; 4] g0 O).
Proof.
  apply (kmutate_out_of_range 4 0 0 9 ArgNone (mkState [1; 2; 3; 4] g0 O)).
  unfold in_range, PyList.len. simpl. lia.
Defined.

Lemma kmutate_delete_one_symbol_witness :
  kmutate "delete" 1 0 ArgNone 0 (mkState [1; 2; 3; 4] g0 O) =
    (Ok tt, mkState [1; 3; 4] g0 O) /\
  S (length (st_sequence
       (kmutate "delete" 1 0 ArgNone 0 (mkState [1; 2; 3; 4] g0 O)).2)) =
    4%nat.
Proof.
  apply (kmutate_delete_one_symbol 1 0 0 ArgNone (mkState [1; 2; 3; 4] g0 O)).
  unfold in_range, PyList.len. simpl. lia.
Defined.

Lemma kmutate_insert_reversed_witness :
  kmutate "insert" 1 0 (ArgBases [7; 8]) 0 (mkState [1; 2; 3; 4] g0 O) =
  (Ok tt, mkState [1; 8; 7; 2; 3; 4] g0 O).
Proof.
  apply (kmutate_insert_reversed 1 0 0 [7; 8] (mkState [1; 2; 3; 4] g0 O)).
  unfold PyList.len. simpl. lia.
Defined.

Lemma kmutate_duplicate_before_end_witness :
  kmutate "duplicate" 1 2 ArgNone 0 (mkState [1; 2; 3; 4] g0 O) =
    (Ok tt, mkState [1; 2; 2; 3; 3; 4] g0 O) /\
  PyList.len (st_sequence
    (kmutate "duplicate" 1 2 ArgNone 0 (mkState [1; 2; 3; 4] g0 O)).2) =
    4 + (2 - 1 + 1).
Proof.
  apply (kmutate_duplicate_before_end 1 2 0 ArgNone
           (mkState [1; 2; 3; 4] g0 O));
    unfold PyList.len; simpl; lia.
Defined.

Lemma kmutate_translocate_moves_witness :
  kmutate "translocate" 0 2 ArgNone 1 (mkState [1; 2; 3; 4] g0 O) =
    (Ok tt, mkState [3; 1; 2; 4] g0 O) /\
  [3; 1; 2; 4] ≡ₚ [1; 2; 3; 4].
Proof.
  pose proof (kmutate_translocate_moves 0 2 1 ArgNone
                (mkState [1; 2; 3; 4] g0 O)) as H.
  cbv zeta in H.
  destruct H as (H1 & H2 & _); [lia|lia|unfold PyList.len; simpl; lia|lia|].
  split; [exact H1|exact H2].
Defined.

Lemma kmutate_translocate_overrun_witness :
  kmutate "translocate" 1 9 ArgNone 0 (mkState [1; 2; 3; 4] g0 O) =
  (Raise IndexError, mkState [1] g0 O).
Proof.
  apply (kmutate_translocate_overrun 1 9 0 ArgNone
           (mkState [1; 2; 3; 4] g0 O));
    unfold PyList.len; simpl; lia.
Defined.

Lemma kmutate_unknown_kind_witness :
  kmutate "swap" 1 3 ArgNone 0 (mkState [1; 2; 3; 4] g0 O) =
  (Ok tt, mkState [1; 2; 3; 4] g0 O).
Proof.
  apply (kmutate_unknown_kind "swap" 1 3 0 ArgNone
           (mkState [1; 2; 3; 4] g0 O)).
  unfold kinds.
  repeat (apply not_elem_of_cons; split; [discriminate|]).
  apply not_elem_of_nil.
Defined.

Lemma kmutate_insert_then_delete_witness :
  (kmutate "insert" 2 0 (ArgBases [9]) 0 ;;
   kmutate "delete" 2 0 ArgNone 0) (mkState [1; 2; 3; 4] g0 O) =
  (Ok tt, mkState [1; 2; 3; 4] g0 O).
Proof.
  apply (kmutate_insert_then_delete 2 0 0 9 ArgNone
           (mkState [1; 2; 3; 4] g0 O)).
  unfold PyList.len. simpl. lia.
Defined.

End KmutateFacts.

Module RmutateFacts.
Import Mutation Outcome OutcomeFacts.
Local Open Scope st_scope.

Implicit Types (s : mstate) (l : list Z).

Lemma wp_skip type name (m : M unit) s (Q : unit -> mstate -> Prop) E :
  is_type type name = false -> Q tt s -> wp (when (is_type type name) m) s Q E.
Proof. by intros -> HQ. Qed.

Lemma wp_take type name (m : M unit) s (Q : unit -> mstate -> Prop) E :
  is_type type name = true -> wp m s Q E ->
  wp (when (is_type type name) m) s Q E.
Proof. by intros ->. Qed.

Ltac wp_skip_kind := apply wp_bind, wp_skip; [reflexivity|].
Ltac wp_take_kind := apply wp_bind, wp_take; [reflexivity|].

(** [region] by its components, and the loop [rmutate] runs on them. *)
Lemma region_components self rate start end_ n :
  region self rate start end_ n =
  (adj_start start end_ n, norm_end end_ n,
   norm_end end_ n - adj_start start end_ n,
   py_int ((background_mutation self + rate) *
           inject_Z (norm_end end_ n - adj_start start end_ n))).
Proof. done. Qed.

Lemma rmutate_unfold self type rate start end_ s :
  let n := PyList.len (st_sequence s) in
  rmutate self type rate start end_ s =
  rmutate_loop (turns self rate start end_ n)
    (rmutate_step self type (adj_start start end_ n) (norm_end end_ n)
       (norm_end end_ n - adj_start start end_ n)) s.
Proof. done. Qed.

(** A property of the state that every turn keeps, whatever its outcome, is
    kept by the loop. *)
Lemma loop_invariant (I : mstate -> Prop) n (step : M unit) s :
  (forall s0, I s0 -> wp step s0 (fun _ => I) (fun _ => I)) ->
  I s -> wp (rmutate_loop n step) s (fun _ => I) (fun _ => I).
Proof.
  intros Hstep. revert s. induction n as [|n IH]; intros s Hs; simpl.
  - by apply wp_ret.
  - apply wp_bind. eapply wp_mono; [| |by apply Hstep]; simpl; auto.
Qed.

(** A turn: the two draws and the new base, then [branches]. *)
Lemma wp_turn self type start end_ length s
  (Q : unit -> mstate -> Prop) E :
  (length <= 1 -> E ValueError s) ->
  (base self = [] ->
   forall g, E ValueError (mkState (st_sequence s) g (st_edits s))) ->
  (forall r b g, 0 <= r < length - 1 -> b ∈ base self ->
     wp (branches type (start + r) b end_)
       (mkState (st_sequence s) g (st_edits s)) Q E) ->
  wp (rmutate_step self type start end_ length) s Q E.
Proof.
  intros HE1 HE2 Hbody. unfold rmutate_step, randrange.
  apply wp_bind, wp_randrange2; [intros Hl; apply HE1; lia|]. intros r g Hr.
  apply wp_bind, wp_randrange2; simpl.
  { intros Hl. apply HE2. destruct (base self); [done|].
    unfold PyList.len in Hl. simpl in Hl. lia. }
  intros k g' Hk.
  destruct (PyListFacts.getitem_inside (base self) k Hk) as (b & Hb & ->).
  apply wp_bind, wp_lift. apply Hbody; [lia|].
  apply list_elem_of_lookup. eauto.
Qed.

Lemma wp_bind_eq {A B} (m : M A) (f : A -> M B) s a s1
  (Q : B -> mstate -> Prop) E :
  m s = (Ok a, s1) -> wp (f a) s1 Q E -> wp (st_bind m f) s Q E.
Proof. intros Hm Hf. unfold wp, st_bind in *. by rewrite Hm. Qed.

Lemma take_mid_drop l (p k : nat) :
  take p l ++ take k (drop p l) ++ drop (p + k) l = l.
Proof. by rewrite <- drop_drop, !take_drop. Qed.

(** *** Invert *)

Lemma invert_turn self start end_ s :
  0 <= start -> end_ < PyList.len (st_sequence s) ->
  wp (rmutate_step self "invert" start end_ (end_ - start)) s
    (fun _ s' => st_sequence s' = st_sequence s)
    (fun _ s' => st_sequence s' = st_sequence s).
Proof.
  intros Hs He. apply wp_turn; [done|done|].
  intros r b g Hr Hb. set (l := st_sequence s) in *. unfold branches.
  do 4 wp_skip_kind. wp_take_kind.
  apply wp_bind, wp_randrange2; [done|]. intros ep g1 Hep.
  cbn [st_sequence st_edits].
  eapply wp_bind_eq.
  { apply KmutateFacts.pop_times_inside; simpl; lia. }
  simpl. unfold wp. rewrite MutationFacts.insert_each_inside; simpl.
  2:{ unfold PyList.len. rewrite length_app, length_take, length_drop.
      unfold PyList.len in He. lia. }
  unfold wp, st_bind, when, count_edit, st_ret. simpl.
  assert (Hlen : length (take (Z.to_nat (start + r)) l) =
                 Z.to_nat (start + r)).
  { rewrite length_take. unfold PyList.len in He. lia. }
  rewrite take_app_length', drop_app_length' by done.
  rewrite rev_involutive. apply take_mid_drop.
Qed.

(** X10. [rmutate('invert', ...)] never changes the sequence when the
    adjusted [start] is not negative: each turn pops a fragment, reverses
    it, and re-inserts its symbols one by one at the same position, which
    reverses it again. This holds for every rate and region and whether the
    call returns or raises. *)
Theorem rmutate_invert_changes_nothing (self : Chromosome) (rate : Q)
  (start end_ : Z) (s : mstate) :
  0 <= adj_start start end_ (PyList.len (st_sequence s)) ->
  st_sequence (rmutate self "invert" rate start end_ s).2 = st_sequence s.
Proof.
  intros Hst. rewrite rmutate_unfold. cbv zeta.
  pose proof (MutationFacts.norm_end_le end_ (PyList.len (st_sequence s)))
    as He.
  pose proof (loop_invariant (fun s' => st_sequence s' = st_sequence s)
    (turns self rate start end_ (PyList.len (st_sequence s)))
    (rmutate_step self "invert"
       (adj_start start end_ (PyList.len (st_sequence s)))
       (norm_end end_ (PyList.len (st_sequence s)))
       (norm_end end_ (PyList.len (st_sequence s)) -
        adj_start start end_ (PyList.len (st_sequence s)))) s) as Hloop.
  unfold wp in Hloop.
  destruct (rmutate_loop _ _ s) as [[u|e] s']; apply Hloop; try done.
  all: intros s0 Hs0; eapply wp_mono;
    [| |apply invert_turn; [done|rewrite Hs0; lia]];
    simpl; intros; congruence.
Qed.

(** X11. When at least one mutation is due and the adjusted region has
    fewer than two positions, [rmutate] raises ValueError (from
    [random.randrange]) before any edit, whatever the kind; the sequence and
    the generator are left as they were. *)
Theorem rmutate_short_region_raises (self : Chromosome) (type : string)
  (rate : Q) (start end_ : Z) (s : mstate) :
  let n := PyList.len (st_sequence s) in
  (0 < turns self rate start end_ n)%nat ->
  norm_end end_ n - adj_start start end_ n <= 1 ->
  rmutate self type rate start end_ s = (Raise ValueError, s).
Proof.
  intros n Ht Hshort. rewrite rmutate_unfold. cbv zeta. fold n.
  destruct (turns self rate start end_ n) as [|k]; [lia|]. simpl.
  unfold st_bind, rmutate_step, st_bind, with_rng, randrange, randrange2.
  destruct (Z.leb_spec (norm_end end_ n - adj_start start end_ n - 1) 0);
    [done|lia].
Qed.


(** *** Properties kept by every turn *)

Lemma keeps_then {A} (I : mstate -> Prop) (m : M unit) (k : M A) :
  maintains I m -> maintains I k -> maintains I (m ;; k).
Proof.
  intros Hm Hk s Hs. apply wp_bind.
  eapply wp_mono; [| |by apply Hm]; simpl; [|done].
  intros _ s' Hs'. by apply Hk.
Qed.

Lemma keeps_when_any (I : mstate -> Prop) (c : bool) (m : M unit) :
  maintains I m -> maintains I (when c m).
Proof. intros Hm s Hs. apply wp_when; [intros _; by apply Hm|done]. Qed.

Lemma keeps_loop (I : mstate -> Prop) n (step : M unit) :
  maintains I step -> maintains I (rmutate_loop n step).
Proof. intros Hstep s Hs. by apply loop_invariant. Qed.

(** *** The alphabet *)

Section Alphabet.
Variable B : list Z.
Let I (s : mstate) : Prop := within B (st_sequence s).

Lemma within_insert l i x :
  within B l -> x ∈ B -> within B (PyList.insert l i x).
Proof.
  intros Hl Hx. unfold within, PyList.insert.
  apply Forall_app. split; [by apply Forall_take|].
  constructor; [done|by apply Forall_drop].
Qed.

Lemma within_insert_each i bs : within B bs -> maintains I (insert_each i bs).
Proof.
  induction bs as [|b bs IH]; intros Hbs s Hs; simpl.
  - by apply wp_ret.
  - inversion Hbs as [|? ? Hb Hbs']; subst.
    apply wp_bind, wp_insert, IH; [done|].
    by apply within_insert.
Qed.

Lemma within_insert_run p fragment :
  within B fragment -> maintains I (insert_run p fragment).
Proof.
  revert p. induction fragment as [|b bs IH]; intros p Hbs s Hs; simpl.
  - by apply wp_ret.
  - inversion Hbs as [|? ? Hb Hbs']; subst.
    apply wp_bind, wp_insert, IH; [done|].
    by apply within_insert.
Qed.

Lemma within_pop_times k p s :
  I s ->
  wp (pop_times k p) s (fun fragment s' => I s' /\ within B fragment)
    (fun _ => I).
Proof.
  revert s. induction k as [|k IH]; intros s Hs; simpl.
  - apply wp_ret. split; [done|constructor].
  - apply wp_bind, wp_pop; [|done]. intros _ x Hx.
    assert (Hx' : x ∈ B).
    { unfold I, within in Hs. rewrite Forall_forall in Hs.
      apply Hs. apply list_elem_of_lookup. eauto. }
    apply wp_bind. eapply wp_mono; [| |apply IH].
    + intros fragment s' [Hs' Hf]. apply wp_ret. split; [done|].
      by constructor.
    + done.
    + unfold I, within. simpl. by apply Forall_delete.
Qed.

Lemma within_branches type position b end_ :
  b ∈ B -> maintains I (branches type position b end_).
Proof.
  intros Hb. unfold branches.
  repeat (apply keeps_then; [apply keeps_when_any|]).
  - intros s Hs. apply wp_setitem; [|done]. intros _.
    unfold I, within. simpl. by apply Forall_insert.
  - intros s Hs. apply wp_bind, wp_pop; [|done]. intros _ x Hx.
    apply wp_ret. unfold I, within. simpl. by apply Forall_delete.
  - intros s Hs. apply wp_insert. by apply within_insert.
  - intros s Hs. apply wp_bind, wp_randrange2; [done|]. intros ep g _.
    apply wp_bind, wp_slice. apply within_insert_run; [|done].
    unfold within, PyList.slice. simpl. by apply Forall_take, Forall_drop.
  - intros s Hs. apply wp_bind, wp_randrange2; [done|]. intros ep g _.
    apply wp_bind. eapply wp_mono; [| |by apply within_pop_times].
    + intros fragment s' [Hs' Hf]. apply within_insert_each; [|done].
      unfold within. by apply Forall_rev.
    + done.
  - intros s Hs. apply wp_bind, wp_randrange2; [done|]. intros ep g _.
    apply wp_bind. eapply wp_mono; [| |by apply within_pop_times].
    + intros fragment s' [Hs' Hf]. apply wp_bind, wp_len.
      apply wp_bind, wp_randrange2; [done|]. intros ip g' _.
      by apply within_insert_run.
    + done.
  - intros s Hs. by apply wp_count_edit.
Qed.

Lemma within_turn self type start end_ length :
  (forall x, x ∈ base self -> x ∈ B) ->
  maintains I (rmutate_step self type start end_ length).
Proof.
  intros Hbase s Hs. apply wp_turn; [done|done|].
  intros r b g Hr Hb. by apply within_branches; [apply Hbase|].
Qed.

End Alphabet.

(** X12. The symbols stay in the alphabet: if every symbol of the sequence
    is one of [self.base] before a call of [rmutate], so it is after the
    call, for every kind, rate and region, and also when the call raises
    part-way. *)
Theorem rmutate_keeps_alphabet (self : Chromosome) (type : string) (rate : Q)
  (start end_ : Z) (s : mstate) :
  within (base self) (st_sequence s) ->
  within (base self) (st_sequence (rmutate self type rate start end_ s).2).
Proof.
  intros Hs. rewrite rmutate_unfold. cbv zeta.
  pose proof (keeps_loop (fun s' => within (base self) (st_sequence s'))
    (turns self rate start end_ (PyList.len (st_sequence s)))
    (rmutate_step self type
       (adj_start start end_ (PyList.len (st_sequence s)))
       (norm_end end_ (PyList.len (st_sequence s)))
       (norm_end end_ (PyList.len (st_sequence s)) -
        adj_start start end_ (PyList.len (st_sequence s))))
    (within_turn (base self) self type _ _ _ (fun x Hx => Hx)) s Hs) as Hloop.
  unfold wp in Hloop. by destruct (rmutate_loop _ _ s) as [[u|e] s'].
Qed.


(** *** Counting turns *)

Lemma loop_wp (J : nat -> mstate -> Prop) (E : exn -> mstate -> Prop) n
  (step : M unit) :
  (forall k s, J k s -> wp step s (fun _ => J (S k)) E) ->
  forall k s, J k s -> wp (rmutate_loop n step) s (fun _ => J (k + n)%nat) E.
Proof.
  intros Hstep. induction n as [|n IH]; intros k s Hs; simpl.
  - apply wp_ret. by rewrite Nat.add_0_r.
  - apply wp_bind. eapply wp_mono; [| |by apply Hstep]; simpl; [|done].
    intros _ s' Hs'. replace (k + S n)%nat with (S k + n)%nat by lia.
    by apply IH.
Qed.

(** *** Point *)

Lemma branches_point_eq position b end_ s :
  branches "point" position b end_ s = (seq_setitem position b ;; count_edit) s.
Proof.
  unfold branches, when, st_bind, st_ret. simpl.
  by destruct (seq_setitem position b s) as [[[]|?] ?].
Qed.

Lemma point_turn (I : mstate -> Prop) self start end_ length :
  (forall s g n, I s -> I (mkState (st_sequence s) g n)) ->
  (forall s r b, I s -> 0 <= r < length - 1 ->
     in_range (st_sequence s) (start + r) ->
     I (with_sequence
          (<[index_of (st_sequence s) (start + r) := b]> (st_sequence s)) s)) ->
  maintains I (rmutate_step self "point" start end_ length).
Proof.
  intros Hfree Hset s Hs. apply wp_turn; [done|intros _ g; by apply Hfree|].
  intros r b g Hr Hb. unfold wp. rewrite branches_point_eq. fold (wp
    (seq_setitem (start + r) b ;; count_edit)
    (mkState (st_sequence s) g (st_edits s)) (fun _ => I) (fun _ => I)).
  apply wp_bind, wp_setitem.
  - intros Hin. apply wp_count_edit. simpl.
    apply (Hfree (with_sequence _ (mkState (st_sequence s) g (st_edits s)))).
    apply (Hset (mkState (st_sequence s) g (st_edits s))); try done.
    by apply Hfree.
  - intros _. by apply Hfree.
Qed.

(** X13. A point mutation by [rmutate] never changes the length of the
    sequence, whatever the call's outcome. When the adjusted [start] is not
    negative it changes no symbol outside the positions from [start] to
    [end - 2] of the adjusted bounds; as the adjusted [end] is at most the
    last index, the last two symbols of the sequence are never mutated. *)
Theorem rmutate_point_local (self : Chromosome) (rate : Q) (start end_ : Z)
  (s : mstate) :
  let n := PyList.len (st_sequence s) in
  let out := (rmutate self "point" rate start end_ s).2 in
  length (st_sequence out) = length (st_sequence s) /\
  (0 <= adj_start start end_ n ->
   forall j : nat,
     (j < Z.to_nat (adj_start start end_ n) \/
      Z.to_nat (norm_end end_ n - 1) <= j \/
      length (st_sequence s) - 2 <= j)%nat ->
     st_sequence out !! j = st_sequence s !! j).
Proof.
  intros n out. unfold out. rewrite rmutate_unfold. cbv zeta. fold n.
  set (st := adj_start start end_ n). set (e := norm_end end_ n).
  split.
  - assert (Hturn : maintains
      (fun s' => length (st_sequence s') = length (st_sequence s))
      (rmutate_step self "point" st e (e - st))).
    { apply point_turn; [done|]. intros s0 r b Hs0 _ _. simpl.
      by rewrite length_insert. }
    pose proof (keeps_loop _ (turns self rate start end_ n) _ Hturn s
                  eq_refl) as Hloop.
    unfold wp in Hloop. by destruct (rmutate_loop _ _ s) as [[u|x] s'].
  - intros Hst j Hj.
    pose proof (MutationFacts.norm_end_le end_ n) as He. fold e in He.
    assert (Hj' : (j < Z.to_nat st \/ Z.to_nat (e - 1) <= j)%nat).
    { unfold n, PyList.len in He. lia. }
    clear Hj.
    assert (Hturn : maintains
      (fun s' => length (st_sequence s') = length (st_sequence s) /\
                 st_sequence s' !! j = st_sequence s !! j)
      (rmutate_step self "point" st e (e - st))).
    { apply point_turn; [done|]. intros s0 r b [Hl0 Hs0] Hr Hin. simpl.
      split; [by rewrite length_insert|].
      rewrite list_lookup_insert_ne; [done|].
      unfold index_of. rewrite PyListFacts.norm_nonneg by lia. lia. }
    pose proof (keeps_loop _ (turns self rate start end_ n) _ Hturn s
                  (conj eq_refl eq_refl)) as Hloop.
    unfold wp in Hloop.
    by destruct (rmutate_loop _ _ s) as [[u|x] s']; destruct Hloop.
Qed.

(** *** Insert *)

Lemma branches_insert_eq position b end_ s :
  branches "insert" position b end_ s =
  (Ok tt, mkState (PyList.insert (st_sequence s) position b) (st_rng s)
            (S (st_edits s))).
Proof. done. Qed.

Lemma sublist_insert_py l i (x : Z) : sublist l (PyList.insert l i x).
Proof.
  unfold PyList.insert.
  rewrite <- (take_drop (PyList.clamp l i) l) at 1.
  apply sublist_app; [done|]. by apply sublist_cons.
Qed.

Lemma insert_turn self start end_ length l0 (E : exn -> mstate -> Prop) k s :
  (length <= 1 -> forall s', E ValueError s') ->
  (base self = [] -> forall s', E ValueError s') ->
  sublist l0 (st_sequence s) /\
  List.length (st_sequence s) = (List.length l0 + k)%nat ->
  wp (rmutate_step self "insert" start end_ length) s
    (fun _ s' => sublist l0 (st_sequence s') /\
                 List.length (st_sequence s') = (List.length l0 + S k)%nat) E.
Proof.
  intros HE1 HE2 [Hsub Hlen]. apply wp_turn; [auto|auto|].
  intros r b g Hr Hb. unfold wp. rewrite branches_insert_eq. simpl. split.
  - etransitivity; [exact Hsub|]. apply sublist_insert_py.
  - rewrite PyListFacts.length_insert_py. lia.
Qed.


(** *** Delete *)

Lemma branches_delete_eq position b end_ s :
  branches "delete" position b end_ s =
  (_ <- seq_pop position ;; count_edit) s.
Proof.
  unfold branches, when, st_bind, st_ret. simpl.
  by destruct (seq_pop position s) as [[?|?] ?].
Qed.

Lemma delete_turn (I : mstate -> Prop) (J : mstate -> Prop) self start end_
  length :
  (forall s g, I s -> I (mkState (st_sequence s) g (st_edits s))) ->
  (forall s i x g, I s -> st_sequence s !! i = Some x ->
     J (mkState (delete i (st_sequence s)) g (S (st_edits s)))) ->
  forall s, I s ->
    wp (rmutate_step self "delete" start end_ length) s (fun _ => J)
      (fun _ => I).
Proof.
  intros Hfree Hdel s Hs. apply wp_turn; [done|intros _ g; by apply Hfree|].
  intros r b g Hr Hb. unfold wp. rewrite branches_delete_eq.
  fold (wp (_ <- seq_pop (start + r) ;; count_edit)
          (mkState (st_sequence s) g (st_edits s)) (fun _ => J) (fun _ => I)).
  apply wp_bind, wp_pop.
  - intros _ x Hx. apply wp_count_edit. simpl in *. by eapply Hdel.
  - intros _. by apply Hfree.
Qed.


(** *** Translocate *)

Lemma translocate_turn self start end_ l0 s :
  0 <= start -> end_ < PyList.len l0 ->
  st_sequence s ≡ₚ l0 ->
  wp (rmutate_step self "translocate" start end_ (end_ - start)) s
    (fun _ s' => st_sequence s' ≡ₚ l0) (fun _ s' => st_sequence s' ≡ₚ l0).
Proof.
  intros Hs He Hp. apply wp_turn; [done|done|].
  intros r b g Hr Hb. set (l := st_sequence s) in *.
  assert (Hlen : PyList.len l = PyList.len l0).
  { unfold PyList.len. by rewrite Hp. }
  unfold branches. do 5 wp_skip_kind. wp_take_kind.
  apply wp_bind, wp_randrange2; [done|]. intros ep g1 Hep.
  cbn [st_sequence st_edits].
  eapply wp_bind_eq.
  { apply KmutateFacts.pop_times_inside; simpl; lia. }
  cbn [st_sequence st_edits with_sequence st_rng].
  apply wp_bind, wp_len. unfold randint.
  apply wp_bind, wp_randrange2; [unfold PyList.len; lia|]. intros ip g2 Hip.
  cbn [st_sequence st_edits].
  unfold wp. rewrite KmutateFacts.insert_run_nonneg by lia.
  unfold count_edit. simpl.
  rewrite Permutation_app_swap_app, take_drop.
  rewrite Permutation_app_swap_app, take_mid_drop. done.
Qed.

(** X16. A translocation by [rmutate] with an adjusted [start] that is not
    negative only rearranges the sequence: whatever the outcome of the call,
    the sequence it leaves holds the same symbols the same number of times
    (in particular it has the same length). *)
Theorem rmutate_translocate_rearranges (self : Chromosome) (rate : Q)
  (start end_ : Z) (s : mstate) :
  0 <= adj_start start end_ (PyList.len (st_sequence s)) ->
  st_sequence (rmutate self "translocate" rate start end_ s).2 ≡ₚ
    st_sequence s.
Proof.
  intros Hst. rewrite rmutate_unfold. cbv zeta.
  pose proof (MutationFacts.norm_end_le end_ (PyList.len (st_sequence s)))
    as He.
  assert (Hturn : maintains (fun s' => st_sequence s' ≡ₚ st_sequence s)
    (rmutate_step self "translocate"
       (adj_start start end_ (PyList.len (st_sequence s)))
       (norm_end end_ (PyList.len (st_sequence s)))
       (norm_end end_ (PyList.len (st_sequence s)) -
        adj_start start end_ (PyList.len (st_sequence s))))).
  { intros s0 Hs0. apply translocate_turn; [done|lia|done]. }
  pose proof (keeps_loop _
    (turns self rate start end_ (PyList.len (st_sequence s))) _ Hturn s
    (reflexivity _)) as Hloop.
  unfold wp in Hloop. by destruct (rmutate_loop _ _ s) as [[u|x] s'].
Qed.

(** *** The kinds of [rmutate], at rate 1.0 over a whole sequence *)

Lemma rmutate_invert_changes_nothing_witness :
  st_sequence
    (rmutate chromosome4 "invert" 1 0 (-1) (mkState [1; 2; 3; 4] g0 O)).2 =
  [1; 2; 3; 4].
Proof.
  apply (rmutate_invert_changes_nothing chromosome4 1 0 (-1)
           (mkState [1; 2; 3; 4] g0 O)).
  vm_compute. discriminate.
Defined.

Lemma rmutate_short_region_raises_witness :
  rmutate chromosome4 "point" 1 2 3 (mkState [1; 2; 3; 4] g0 O) =
  (Raise ValueError, mkState [1; 2; 3; 4] g0 O).
Proof.
  apply (rmutate_short_region_raises chromosome4 "point" 1 2 3
           (mkState [1; 2; 3; 4] g0 O)).
  - vm_compute. lia.
  - vm_compute. discriminate.
Defined.

Lemma rmutate_keeps_alphabet_witness :
  within [1; 0]
    (st_sequence
       (rmutate chromosome4 "duplicate" 1 0 (-1)
          (mkState [1; 0; 0; 1] g0 O)).2).
Proof.
  apply (rmutate_keeps_alphabet chromosome4 "duplicate" 1 0 (-1)
           (mkState [1; 0; 0; 1] g0 O)).
  unfold within. simpl.
  repeat (constructor;
          [first [apply list_elem_of_here
                 |apply list_elem_of_further, list_elem_of_here]|]).
  constructor.
Defined.

Lemma rmutate_point_local_witness :
  length (st_sequence
    (rmutate chromosome4 "point" 1 0 (-1) (mkState [1; 2; 3; 4] g0 O)).2) =
    4%nat /\
  st_sequence
    (rmutate chromosome4 "point" 1 0 (-1) (mkState [1; 2; 3; 4] g0 O)).2
    !! 3%nat = Some 4.
Proof.
  pose proof (rmutate_point_local chromosome4 1 0 (-1)
                (mkState [1; 2; 3; 4] g0 O)) as H.
  cbv zeta in H. destruct H as [Hlen Hout]. split; [exact Hlen|].
  apply (Hout ltac:(vm_compute; discriminate) 3%nat).
  right. right. simpl. lia.
Defined.



Lemma rmutate_translocate_rearranges_witness :
  st_sequence
    (rmutate chromosome4 "translocate" 1 0 (-1)
       (mkState [1; 2; 3; 4] g0 O)).2 ≡ₚ [1; 2; 3; 4].
Proof.
  apply (rmutate_translocate_rearranges chromosome4 1 0 (-1)
           (mkState [1; 2; 3; 4] g0 O)).
  vm_compute. discriminate.
Defined.

End RmutateFacts.

Module CrossoverMore.
Import Crossover.

Implicit Types (h : store) (l : list Z).

Lemma slice_to_from l (p : Z) : PyList.slice_to l p ++ PyList.slice_from l p = l.
Proof. unfold PyList.slice_to, PyList.slice_from. apply take_drop. Qed.

Lemma swap_tails (a1 b1 a2 b2 : list Z) :
  (a1 ++ b2) ++ (a2 ++ b1) ≡ₚ (a1 ++ b1) ++ (a2 ++ b2).
Proof.
  rewrite <- !app_assoc. apply Permutation_app_head.
  rewrite (Permutation_app_comm b2 (a2 ++ b1)), <- app_assoc.
  apply Permutation_app_swap_app.
Qed.

Lemma sequence_of_lookup h c o l :
  chromosomes h !! c = Some o -> lists h !! sequence_ref o = Some l ->
  sequence_of c h = Ok l.
Proof.
  intros Hc Hl. unfold sequence_of, get_chromosome, get_list.
  rewrite Hc. simpl. by rewrite Hl.
Qed.

(** X17. [crossover] only moves symbols between the two sequences and only
    adds to the store. For every position, negative ones included, the call
    returns two chromosomes whose sequences together hold exactly the
    symbols of the two input sequences (so the total length is conserved),
    and every list and chromosome that was in the store is still there
    unchanged. *)
Theorem crossover_conserves (c1 c2 : loc) (p : Z) (h : store)
  (o1 o2 : chromosome) (seq1 seq2 : list Z) :
  chromosomes h !! c1 = Some o1 -> chromosomes h !! c2 = Some o2 ->
  lists h !! sequence_ref o1 = Some seq1 ->
  lists h !! sequence_ref o2 = Some seq2 ->
  exists new1 new2 h1 l1 l2,
    crossover c1 c2 p h = Ok (new1, new2, h1) /\
    sequence_of new1 h1 = Ok l1 /\ sequence_of new2 h1 = Ok l2 /\
    l1 ++ l2 ≡ₚ seq1 ++ seq2 /\
    extends h h1.
Proof.
  intros H1 H2 Hs1 Hs2.
  destruct (Z.lt_ge_cases p (PyList.len seq1)) as [Hp1|Hp1];
    [|destruct (Z.lt_ge_cases p (PyList.len seq2)) as [Hp2|Hp2]].
  3:{ exists c1, c2, h, seq1, seq2.
      rewrite (CrossoverFacts.crossover_eq _ _ _ _ _ _ _ _ H1 H2 Hs1 Hs2).
      destruct (Z.ltb_spec p (PyList.len seq1)); [lia|].
      destruct (Z.ltb_spec p (PyList.len seq2)); [lia|]. simpl.
      split; [done|]. split; [by eapply sequence_of_lookup|].
      split; [by eapply sequence_of_lookup|]. split; [done|].
      apply CrossoverFacts.extends_refl. }
  all: destruct (CrossoverFacts.crossover_new c1 c2 p h o1 o2 seq1 seq2
                   H1 H2 Hs1 Hs2)
         as (new1 & new2 & h1 & r1 & r2 & Hx & _ & _ & _ & Hc1 & Hc2 & _ &
             _ & _ & Hl1 & Hl2 & Hext); [tauto|];
       exists new1, new2, h1,
         (PyList.slice_to seq1 p ++ PyList.slice_from seq2 p),
         (PyList.slice_to seq2 p ++ PyList.slice_from seq1 p);
       (split; [done|]);
       (split; [by eapply sequence_of_lookup|]);
       (split; [by eapply sequence_of_lookup|]);
       (split; [|done]);
       by rewrite swap_tails, !slice_to_from.
Qed.

(** X18. The chromosomes that [crossover] builds do not inherit the
    background mutation rate: whenever the cut lies inside at least one
    sequence, each output has [background_mutation] 0.0001, the default,
    whatever the rates of the inputs; and each output's [base] is the very
    list object of the corresponding input. *)
Theorem crossover_resets_background (c1 c2 : loc) (p : Z) (h : store)
  (o1 o2 : chromosome) (seq1 seq2 : list Z) :
  chromosomes h !! c1 = Some o1 -> chromosomes h !! c2 = Some o2 ->
  lists h !! sequence_ref o1 = Some seq1 ->
  lists h !! sequence_ref o2 = Some seq2 ->
  p < PyList.len seq1 \/ p < PyList.len seq2 ->
  exists new1 new2 h1 q1 q2,
    crossover c1 c2 p h = Ok (new1, new2, h1) /\
    chromosomes h1 !! new1 = Some q1 /\ chromosomes h1 !! new2 = Some q2 /\
    bg_mutation q1 = (1 # 10000)%Q /\ bg_mutation q2 = (1 # 10000)%Q /\
    base_ref q1 = base_ref o1 /\ base_ref q2 = base_ref o2.
Proof.
  intros H1 H2 Hs1 Hs2 Hp.
  destruct (CrossoverFacts.crossover_new c1 c2 p h o1 o2 seq1 seq2
              H1 H2 Hs1 Hs2 Hp)
    as (new1 & new2 & h1 & r1 & r2 & Hx & _ & _ & _ & Hc1 & Hc2 & _).
  by exists new1, new2, h1,
    (mkObj r1 (base_ref o1) default_background_mutation),
    (mkObj r2 (base_ref o2) default_background_mutation).
Qed.

(** *** On the two chromosomes of [store2] *)

Lemma crossover_conserves_witness :
  exists new1 new2 h1 l1 l2,
    crossover 1%positive 2%positive (-1) store2 = Ok (new1, new2, h1) /\
    sequence_of new1 h1 = Ok l1 /\ sequence_of new2 h1 = Ok l2 /\
    l1 ++ l2 ≡ₚ [1; 2; 3] ++ [4; 5; 6; 7] /\
    extends store2 h1.
Proof.
  apply (crossover_conserves 1%positive 2%positive (-1) store2
           (mkObj 2%positive 1%positive default_background_mutation)
           (mkObj 3%positive 1%positive default_background_mutation)
           [1; 2; 3] [4; 5; 6; 7]);
    vm_compute; reflexivity.
Defined.

Lemma crossover_resets_background_witness :
  exists new1 new2 h1 q1 q2,
    crossover 1%positive 2%positive 3 store2 = Ok (new1, new2, h1) /\
    chromosomes h1 !! new1 = Some q1 /\ chromosomes h1 !! new2 = Some q2 /\
    bg_mutation q1 = (1 # 10000)%Q /\ bg_mutation q2 = (1 # 10000)%Q /\
    base_ref q1 = 1%positive /\ base_ref q2 = 1%positive.
Proof.
  apply (crossover_resets_background 1%positive 2%positive 3 store2
           (mkObj 2%positive 1%positive default_background_mutation)
           (mkObj 3%positive 1%positive default_background_mutation)
           [1; 2; 3] [4; 5; 6; 7]);
    try (vm_compute; reflexivity).
  right. unfold PyList.len. simpl. lia.
Defined.

End CrossoverMore.

Module StatusMore.
Import Organism OrganismFacts.

Section Facts.
Context `{FloatParser}.

Lemma body_plain_eq variable value (d : dict) :
  variable <> "alive" -> variable <> "vitality" -> variable <> "age" ->
  setStatus_body variable value d = Ok (<[variable := value]> d).
Proof.
  intros Ha Hv Hg. unfold setStatus_body.
  by rewrite !bool_decide_eq_false_2 by done.
Qed.

Lemma body_alive_false (d : dict) :
  setStatus_body "alive" (VBool false) d =
  Ok (<["alive" := VBool false]> (<["death" := VStr "death03"]>
      (<["alive" := VBool false]> d))).
Proof. done. Qed.

(** A positive vitality writes the entry 'vitality' at most. *)
Lemma body_vitality_pos value f (d : dict) :
  py_float value = Ok f -> (0 < f)%Q ->
  exists d', setStatus_body "vitality" value d = Ok d' /\
             forall k, k <> "vitality" -> d' !! k = d !! k.
Proof.
  intros Hf Hpos. unfold setStatus_body. simpl. rewrite Hf. simpl.
  assert (Hz : Qeq_bool f 0 = false).
  { destruct (Qeq_bool f 0) eqn:E; [|done].
    apply Qeq_bool_iff in E. rewrite E in Hpos.
    by apply Qlt_irrefl in Hpos. }
  assert (Hn : Qlt_bool f 0 = false)
    by (apply Qlt_bool_false_iff; by apply Qlt_le_weak).
  rewrite Hz, Hn. simpl. eexists. split; [done|].
  intros k Hk.
  destruct (Qlt_bool (1001 # 10) f), (Qlt_bool 0 f && Qlt_bool f (1001 # 10));
    by rewrite ?lookup_insert_ne.
Qed.

Lemma body_age_young value f (L : Q) (d : dict) :
  py_float value = Ok f -> d !! "lifespan" = Some (VNum L) -> (f < L)%Q ->
  setStatus_body "age" value d = Ok (<["age" := VNum f]> d).
Proof.
  intros Hf HL Hlt. unfold setStatus_body. simpl. rewrite Hf. simpl.
  unfold dict_getitem. rewrite HL. simpl.
  by rewrite (proj2 (Qlt_bool_iff f L) Hlt).
Qed.

(** What a call that returns does to the reads of any organism. *)
Lemma getStatus_after_setStatus self other variable value k w r d d' :
  status_ref self w = Ok r -> read_dict r w = Ok d ->
  setStatus_body variable value d = Ok d' ->
  d' !! k = d !! k ->
  getStatus other k (write_dict r d' w) = getStatus other k w.
Proof.
  intros Hr Hd Hb Hk. unfold getStatus. rewrite status_ref_write.
  destruct (status_ref other w) as [r'|]; [|done]. simpl.
  destruct (decide (r = r')) as [<-|Hne].
  - rewrite read_write_same by by rewrite Hd. rewrite Hd. simpl.
    unfold dict_getitem. by rewrite Hk.
  - by rewrite read_write_other.
Qed.

(** X19. [setStatus] on a name other than 'alive', 'vitality' and 'age' is
    a plain assignment: a call that returns changes no other entry, as read
    through any organism. *)
Theorem setStatus_plain_frame (self other : loc) (variable k : string)
  (value : pyval) (w w' : world) :
  variable <> "alive" -> variable <> "vitality" -> variable <> "age" ->
  k <> variable ->
  setStatus self variable value w = Ok w' ->
  getStatus other k w' = getStatus other k w.
Proof.
  intros Ha Hv Hg Hk (r & d & d' & Hr & Hd & Hb & ->)%setStatus_inv.
  eapply getStatus_after_setStatus; try done.
  rewrite body_plain_eq in Hb by done. injection Hb as <-.
  by rewrite lookup_insert_ne.
Qed.

(** X20. [setStatus('alive', False)] on an organism with a status returns
    and leaves alive False and death 'death03', whatever the death code was
    before; every other entry is unchanged. *)
Theorem setStatus_alive_false (self : loc) (w : world) (a : pyval) :
  getStatus self "alive" w = Ok a ->
  exists w',
    setStatus self "alive" (VBool false) w = Ok w' /\
    getStatus self "alive" w' = Ok (VBool false) /\
    getStatus self "death" w' = Ok (VStr "death03") /\
    forall k, k <> "alive" -> k <> "death" ->
              getStatus self k w' = getStatus self k w.
Proof.
  intros (r & d & Hr & Hd & Hl)%getStatus_inv.
  assert (Hok : is_ok (read_dict r w) = true) by by rewrite Hd.
  eexists. split.
  { rewrite (setStatus_unfold self _ _ w r d) by done.
    by rewrite body_alive_false. }
  split; [|split].
  - rewrite getStatus_after_write by done. unfold dict_getitem.
    by rewrite lookup_insert_eq.
  - rewrite getStatus_after_write by done. unfold dict_getitem.
    by simplify_map_eq.
  - intros k Hk1 Hk2.
    eapply getStatus_after_setStatus; [done|done|apply body_alive_false|].
    by rewrite !lookup_insert_ne.
Qed.

(** X21. A positive vitality and an age below the lifespan neither kill nor
    revive: [setStatus('vitality', v)] with [v > 0] returns and leaves every
    entry but 'vitality' unchanged, and [setStatus('age', v)] with [v] below
    the numeric lifespan returns, stores [v] as the age and leaves every
    other entry unchanged. *)
Theorem setStatus_no_death (self : loc) (w : world) (value : pyval) (f L : Q) :
  getStatus self "lifespan" w = Ok (VNum L) ->
  py_float value = Ok f ->
  ((0 < f)%Q ->
   exists w', setStatus self "vitality" value w = Ok w' /\
     forall k, k <> "vitality" -> getStatus self k w' = getStatus self k w) /\
  ((f < L)%Q ->
   exists w', setStatus self "age" value w = Ok w' /\
     getStatus self "age" w' = Ok (VNum f) /\
     forall k, k <> "age" -> getStatus self k w' = getStatus self k w).
Proof.
  intros (r & d & Hr & Hd & Hl)%getStatus_inv Hf.
  assert (Hok : is_ok (read_dict r w) = true) by by rewrite Hd.
  split.
  - intros Hpos.
    destruct (body_vitality_pos value f d Hf Hpos) as (d' & Hb & Hsame).
    exists (write_dict r d' w). split.
    { rewrite (setStatus_unfold self _ _ w r d) by done. by rewrite Hb. }
    intros k Hk. eapply getStatus_after_setStatus; [done|done|exact Hb|].
    by apply Hsame.
  - intros Hlt. exists (write_dict r (<["age" := VNum f]> d) w). split.
    { rewrite (setStatus_unfold self _ _ w r d) by done.
      by rewrite (body_age_young value f L d). }
    split.
    + rewrite getStatus_after_write by done. unfold dict_getitem.
      by rewrite lookup_insert_eq.
    + intros k Hk. eapply getStatus_after_setStatus;
        [done|done|by apply (body_age_young value f L d)|].
      by rewrite lookup_insert_ne.
Qed.

End Facts.

(** *** On the two organisms of [world2] *)

Lemma setStatus_plain_frame_witness :
  exists w',
    @setStatus no_numerals 1%positive "fitness" (VNum 7) world2 = Ok w' /\
    getStatus 2%positive "age" w' = getStatus 2%positive "age" world2.
Proof.
  eexists. split; [vm_compute; reflexivity|].
  apply (@setStatus_plain_frame no_numerals 1%positive 2%positive "fitness"
           "age" (VNum 7) world2);
    [discriminate|discriminate|discriminate|discriminate|].
  vm_compute. reflexivity.
Defined.

Lemma setStatus_alive_false_witness :
  exists w',
    @setStatus no_numerals 1%positive "alive" (VBool false) world2 = Ok w' /\
    getStatus 1%positive "alive" w' = Ok (VBool false) /\
    getStatus 1%positive "death" w' = Ok (VStr "death03") /\
    forall k, k <> "alive" -> k <> "death" ->
              getStatus 1%positive k w' = getStatus 1%positive k world2.
Proof.
  apply (@setStatus_alive_false no_numerals 1%positive world2 (VBool true)).
  vm_compute. reflexivity.
Defined.

Lemma setStatus_no_death_witness :
  (exists w',
     @setStatus no_numerals 1%positive "vitality" (VNum 50) world2 = Ok w' /\
     forall k, k <> "vitality" ->
               getStatus 1%positive k w' = getStatus 1%positive k world2) /\
  (exists w',
     @setStatus no_numerals 1%positive "age" (VNum 50) world2 = Ok w' /\
     getStatus 1%positive "age" w' = Ok (VNum 50) /\
     forall k, k <> "age" ->
               getStatus 1%positive k w' = getStatus 1%positive k world2).
Proof.
  destruct (@setStatus_no_death no_numerals 1%positive world2 (VNum 50)
              50 100) as [Hv Ha].
  - vm_compute. reflexivity.
  - reflexivity.
  - split; [apply Hv|apply Ha]; unfold Qlt; simpl; lia.
Defined.

End StatusMore.

Module ScoringFacts.
Import Scoring.

Lemma Zsum_cons x (l : list Z) : Zsum (x :: l) = x + Zsum l.
Proof. done. Qed.

Lemma Zsum_nonneg (l : list Z) : Forall (fun x => 0 <= x) l -> 0 <= Zsum l.
Proof. induction 1; rewrite ?Zsum_cons; [done|lia]. Qed.

Lemma Zsum_zero (l : list Z) :
  Forall (fun x => 0 <= x) l -> Zsum l = 0 -> Forall (fun x => x = 0) l.
Proof.
  induction 1 as [|x l Hx Hl IH]; [done|]. rewrite Zsum_cons.
  intros Hs. pose proof (Zsum_nonneg l Hl).
  constructor; [lia|]. apply IH. lia.
Qed.

Lemma Zsum_binary (l : list Z) :
  Forall (fun x => x = 0 \/ x = 1) l -> 0 <= Zsum l <= PyList.len l.
Proof.
  unfold PyList.len. induction 1 as [|x l Hx Hl IH]; [done|].
  rewrite Zsum_cons, length_cons, Nat2Z.inj_succ. lia.
Qed.

Lemma genome_binary (cs : list Chromosome) :
  Forall (fun c => Forall (fun x => x = 0 \/ x = 1) (sequence c)) cs ->
  0 <= Zsum ((fun c => Zsum (sequence c)) <$> cs)
    <= Zsum ((fun c => PyList.len (sequence c)) <$> cs).
Proof.
  induction 1 as [|c cs Hc Hcs IH]; [done|].
  rewrite !fmap_cons, !Zsum_cons.
  pose proof (Zsum_binary _ Hc). lia.
Qed.

Lemma genome_length_nonneg (cs : list Chromosome) :
  Forall (fun x => 0 <= x) ((fun c => PyList.len (sequence c)) <$> cs).
Proof.
  induction cs as [|c cs IH]; [constructor|].
  rewrite fmap_cons. constructor; [apply PyListFacts.len_nonneg|done].
Qed.

(** The genome holds no symbol exactly when its lengths sum to 0. *)
Lemma genome_empty_iff (cs : list Chromosome) :
  Zsum ((fun c => PyList.len (sequence c)) <$> cs) = 0 <->
  Forall (fun c => sequence c = []) cs.
Proof.
  split.
  - intros Hz. apply Zsum_zero in Hz; [|apply genome_length_nonneg].
    rewrite Forall_fmap in Hz. eapply Forall_impl; [exact Hz|].
    intros c Hc. simpl in Hc. unfold PyList.len in Hc.
    destruct (sequence c); [done|]. rewrite length_cons in Hc. lia.
  - induction 1 as [|c cs Hc _ IH]; [done|].
    rewrite fmap_cons, Zsum_cons, Hc, IH. done.
Qed.

Lemma Q_share (a b : Z) :
  0 <= a <= b -> 0 < b ->
  (0 <= inject_Z a / inject_Z b)%Q /\ (inject_Z a / inject_Z b <= 1)%Q.
Proof.
  intros Hab Hb.
  assert (Hb' : (0 < inject_Z b)%Q) by (change 0%Q with (inject_Z 0); rewrite <- Zlt_Qlt; lia).
  split.
  - apply Qle_shift_div_l; [done|]. rewrite Qmult_0_l.
    change 0%Q with (inject_Z 0). rewrite <- Zle_Qle. lia.
  - apply Qle_shift_div_r; [done|]. rewrite Qmult_1_l.
    rewrite <- Zle_Qle. lia.
Qed.

(** X22. The sample [fitness] raises ZeroDivisionError exactly when the
    genome holds no symbol at all: no chromosome, or only chromosomes with
    an empty sequence. *)
Theorem fitness_zero_division (self : Organism.instance) :
  fitness self = Raise ZeroDivisionError <->
  Forall (fun c => sequence c = []) (Organism.genome self).
Proof.
  rewrite <- genome_empty_iff. unfold fitness.
  destruct (Z.eqb_spec (Zsum ((fun c => PyList.len (sequence c)) <$>
                              Organism.genome self)) 0) as [Hz|Hz].
  - by split.
  - split; [discriminate|done].
Qed.

(** X23. On a genome of zeros and ones that holds at least one symbol, the
    sample [fitness] returns a value between 0 and 1. *)
Theorem fitness_between_0_and_1 (self : Organism.instance) :
  binary self ->
  ~ Forall (fun c => sequence c = []) (Organism.genome self) ->
  exists f, fitness self = Ok f /\ (0 <= f)%Q /\ (f <= 1)%Q.
Proof.
  intros Hbin Hne.
  pose proof (genome_binary _ Hbin) as Hb.
  rewrite <- genome_empty_iff in Hne. unfold fitness.
  destruct (Z.eqb_spec (Zsum ((fun c => PyList.len (sequence c)) <$>
                              Organism.genome self)) 0) as [Hz|Hz]; [done|].
  eexists. split; [done|]. apply Q_share; lia.
Qed.

(** *** On small genomes *)

Lemma fitness_zero_division_witness :
  fitness (Organism.mkInstance [mkChromosome [] [1; 0] 0] Organism.VNone None)
  = Raise ZeroDivisionError.
Proof.
  apply (proj2 (fitness_zero_division
                  (Organism.mkInstance [mkChromosome [] [1; 0] 0]
                     Organism.VNone None))).
  repeat constructor.
Defined.

Lemma fitness_between_0_and_1_witness :
  exists f,
    fitness (Organism.mkInstance [mkChromosome [1; 0; 1; 1] [1; 0] 0]
               Organism.VNone None) = Ok f /\
    (0 <= f)%Q /\ (f <= 1)%Q.
Proof.
  apply (fitness_between_0_and_1
           (Organism.mkInstance [mkChromosome [1; 0; 1; 1] [1; 0] 0]
              Organism.VNone None)).
  - unfold binary. simpl. constructor; [|constructor].
    repeat (constructor; [lia|]). constructor.
  - simpl. intros H. inversion H. discriminate.
Defined.

End ScoringFacts.

Module PopulationMore.
Import Population Scoring.

(** *** Sums and means of fitness scores *)

Lemma Qsum_cons (f : Q) (fs : list Q) : Qsum (f :: fs) = (f + Qsum fs)%Q.
Proof. done. Qed.

Lemma len_cons_Q {A} (x : A) (l : list A) :
  (inject_Z (PyList.len (x :: l)) == inject_Z (PyList.len l) + 1)%Q.
Proof.
  unfold PyList.len. rewrite length_cons, Nat2Z.inj_succ.
  unfold Z.succ. by rewrite inject_Z_plus.
Qed.

Lemma len_pos_Q {A} (l : list A) : l <> [] -> (0 < inject_Z (PyList.len l))%Q.
Proof.
  intros Hl. change 0%Q with (inject_Z 0). rewrite <- Zlt_Qlt.
  unfold PyList.len. destruct l; [done|]. rewrite length_cons. lia.
Qed.

Lemma Qsum_lower (lo : Q) (fs : list Q) :
  Forall (fun f => (lo <= f)%Q) fs ->
  (inject_Z (PyList.len fs) * lo <= Qsum fs)%Q.
Proof.
  induction 1 as [|f fs Hf _ IH].
  - change (0 * lo <= 0)%Q. lra.
  - rewrite Qsum_cons, len_cons_Q. lra.
Qed.

Lemma Qsum_upper (hi : Q) (fs : list Q) :
  Forall (fun f => (f <= hi)%Q) fs ->
  (Qsum fs <= inject_Z (PyList.len fs) * hi)%Q.
Proof.
  induction 1 as [|f fs Hf _ IH].
  - change (0 <= 0 * hi)%Q. lra.
  - rewrite Qsum_cons, len_cons_Q. lra.
Qed.

Lemma Qsum_above (t : Q) (fs : list Q) :
  fs <> [] -> Forall (fun f => (t < f)%Q) fs ->
  (inject_Z (PyList.len fs) * t < Qsum fs)%Q.
Proof.
  intros Hne Hall.
  assert (Hle : (inject_Z (PyList.len fs) * t <= Qsum fs)%Q).
  { apply Qsum_lower. eapply Forall_impl; [exact Hall|].
    intros f Hf. simpl in Hf. lra. }
  destruct Hall as [|f fs Hf Hfs]; [done|].
  assert (Hle' : (inject_Z (PyList.len fs) * t <= Qsum fs)%Q).
  { apply Qsum_lower. eapply Forall_impl; [exact Hfs|].
    intros f' Hf'. simpl in Hf'. lra. }
  rewrite Qsum_cons, len_cons_Q. lra.
Qed.

(** The mean of scores lies between any bounds of the scores. *)
Lemma mean_bounds (lo hi : Q) (fs : list Q) :
  fs <> [] -> Forall (fun f => (lo <= f)%Q /\ (f <= hi)%Q) fs ->
  (lo <= Qsum fs / inject_Z (PyList.len fs))%Q /\
  (Qsum fs / inject_Z (PyList.len fs) <= hi)%Q.
Proof.
  intros Hne Hall. pose proof (len_pos_Q fs Hne) as Hn. split.
  - apply Qle_shift_div_l; [done|]. rewrite Qmult_comm.
    apply Qsum_lower. eapply Forall_impl; [exact Hall|]. by intros f [? ?].
  - apply Qle_shift_div_r; [done|]. rewrite Qmult_comm.
    apply Qsum_upper. eapply Forall_impl; [exact Hall|]. by intros f [? ?].
Qed.

Section Facts.
Context {Organism : Type} (fitness : Organism -> result Q).
Implicit Types (agents : list Organism) (g : rng) (sfitness : list Q).

(** *** The list of scores *)

Lemma map_result_length agents sfitness :
  map_result fitness agents = Ok sfitness -> length sfitness = length agents.
Proof.
  revert sfitness. induction agents as [|a agents IH]; intros sf; simpl.
  - by intros [= <-].
  - destruct (fitness a) as [f|e]; [|done]. simpl.
    destruct (map_result fitness agents) as [fs|e]; [|done]. simpl.
    intros [= <-]. simpl. f_equal. by apply IH.
Qed.

Lemma map_result_all (P : Q -> Prop) agents :
  Forall (fun a => exists f, fitness a = Ok f /\ P f) agents ->
  exists sfitness,
    map_result fitness agents = Ok sfitness /\ Forall P sfitness.
Proof.
  induction 1 as [|a agents (f & Hf & HP) _ (fs & Hfs & HPs)].
  - by exists [].
  - exists (f :: fs). simpl. rewrite Hf. simpl. rewrite Hfs. simpl.
    split; [done|by constructor].
Qed.

(** *** The retained set *)

Lemma above_sublist (t : Q) agents sfitness :
  sublist (above t agents sfitness) agents.
Proof.
  revert sfitness. induction agents as [|a agents IH]; intros [|f fs]; simpl;
    try apply sublist_nil_l.
  destruct (Qlt_bool t f); [apply sublist_skip|apply sublist_cons]; apply IH.
Qed.

Lemma above_scores (t : Q) agents sfitness :
  map_result fitness agents = Ok sfitness ->
  Forall (fun a => exists f, fitness a = Ok f /\ (t < f)%Q)
    (above t agents sfitness).
Proof.
  revert sfitness. induction agents as [|a agents IH]; intros sf; simpl.
  - intros [= <-]. constructor.
  - destruct (fitness a) as [f|e] eqn:Hf; [|done]. simpl.
    destruct (map_result fitness agents) as [fs|e]; [|done]. simpl.
    intros [= <-]. destruct (Qlt_bool t f) eqn:Ht.
    + constructor; [|by apply IH]. exists f. split; [done|].
      by apply Qlt_bool_iff.
    + by apply IH.
Qed.

(** No organism is retained when no score passes the threshold. *)
Lemma above_none (t : Q) agents sfitness :
  Forall (fun f => (f <= t)%Q) sfitness -> above t agents sfitness = [].
Proof.
  revert sfitness. induction agents as [|a agents IH]; intros [|f fs] Hle;
    try done.
  simpl. apply Forall_cons in Hle as [Hf Hfs].
  replace (Qlt_bool t f) with false
    by (symmetry; by apply Qlt_bool_false_iff).
  by apply IH.
Qed.

(** When the whole population is retained, every score is above the
    threshold. *)
Lemma above_all (t : Q) agents sfitness :
  length sfitness = length agents ->
  length (above t agents sfitness) = length agents ->
  Forall (fun f => (t < f)%Q) sfitness.
Proof.
  revert sfitness. induction agents as [|a agents IH]; intros [|f fs]; simpl;
    try done.
  intros [= Hlen]. destruct (Qlt_bool t f) eqn:Ht; simpl.
  - intros [= Hall]. constructor; [by apply Qlt_bool_iff|by apply IH].
  - intros Hall. exfalso.
    pose proof (sublist_length _ _ (above_sublist t agents fs)). lia.
Qed.

(** Not every organism is above the mean. *)
Lemma above_mean_drops agents sfitness :
  agents <> [] -> length sfitness = length agents ->
  (length (above (Qsum sfitness / inject_Z (PyList.len sfitness)) agents
             sfitness) < length agents)%nat.
Proof.
  intros Hne Hlen.
  set (t := (Qsum sfitness / inject_Z (PyList.len sfitness))%Q).
  pose proof (sublist_length _ _ (above_sublist t agents sfitness)) as Hle.
  destruct (decide (length (above t agents sfitness) = length agents))
    as [Heq|]; [exfalso|lia].
  assert (Hsf : sfitness <> []).
  { intros ->. destruct agents; [done|]. simpl in Hlen. lia. }
  pose proof (above_all t agents sfitness Hlen Heq) as Hall.
  pose proof (Qsum_above t sfitness Hsf Hall) as Hlt.
  pose proof (len_pos_Q sfitness Hsf) as Hn.
  assert (Ht : (inject_Z (PyList.len sfitness) * t == Qsum sfitness)%Q).
  { unfold t. rewrite Qmult_div_r; [done|]. lra. }
  lra.
Qed.

Lemma mean_returns sfitness :
  sfitness <> [] ->
  mean sfitness = Ok (Qsum sfitness / inject_Z (PyList.len sfitness))%Q.
Proof. by destruct sfitness. Qed.



(** X26. [report] raises ZeroDivisionError on an empty population, whatever
    the goal, and on a goal equal to 0, whatever the population. When the
    scores are all computed these are its only failures: with at least one
    organism and a goal other than 0 it returns the generation count and the
    mean score. *)
Theorem report_zero_division agents (goal : Q) (generation : Z) sfitness :
  map_result fitness agents = Ok sfitness ->
  (agents = [] \/ (goal == 0)%Q ->
   report fitness agents goal generation = Raise ZeroDivisionError) /\
  (agents <> [] -> ~ (goal == 0)%Q ->
   exists r,
     report fitness agents goal generation = Ok r /\
     Scoring.generation r = generation /\
     average_fitness r =
       (Qsum sfitness / inject_Z (PyList.len agents))%Q).
Proof.
  intros Hsf. unfold report. rewrite Hsf. cbn [mbind result_bind]. split.
  - intros [->|Hg]; [done|].
    destruct (PyList.len agents =? 0); [done|]. cbn [mbind result_bind].
    by replace (Qeq_bool goal 0) with true
      by (symmetry; by apply Qeq_bool_iff).
  - intros Hne Hg.
    destruct (Z.eqb_spec (PyList.len agents) 0) as [Hz|_].
    { unfold PyList.len in Hz. destruct agents; [done|].
      rewrite length_cons in Hz. lia. }
    cbn [mbind result_bind].
    destruct (Qeq_bool goal 0) eqn:E; [by apply Qeq_bool_iff in E|].
    by eexists.
Qed.

(** X27. With scores between 0 and 1 (as the sample [fitness] gives), at
    least one organism and a positive goal, [report] returns: the average
    fitness lies between 0 and 1, '% to goal' is never below -100, and it is
    at most 0 exactly when the average has not passed the goal. *)
Theorem report_percent_to_goal agents (goal : Q) (generation : Z) :
  agents <> [] -> (0 < goal)%Q ->
  Forall (fun a => exists f,
            fitness a = Ok f /\ (0 <= f)%Q /\ (f <= 1)%Q) agents ->
  exists r,
    report fitness agents goal generation = Ok r /\
    (0 <= average_fitness r)%Q /\ (average_fitness r <= 1)%Q /\
    (-100 <= percent_to_goal r)%Q /\
    ((percent_to_goal r <= 0)%Q <-> (average_fitness r <= goal)%Q).
Proof.
  intros Hne Hgoal Hall.
  destruct (map_result_all (fun f => (0 <= f)%Q /\ (f <= 1)%Q) agents Hall)
    as (sf & Hsf & Hb).
  pose proof (map_result_length _ _ Hsf) as Hlen.
  assert (Hsfne : sf <> []).
  { intros ->. destruct agents; [done|]. simpl in Hlen. lia. }
  assert (Hn : PyList.len agents = PyList.len sf)
    by (unfold PyList.len; lia).
  unfold report. rewrite Hsf. cbn [mbind result_bind].
  destruct (Z.eqb_spec (PyList.len agents) 0) as [Hz|_].
  { unfold PyList.len in Hz. destruct agents; [done|].
    rewrite length_cons in Hz. lia. }
  cbn [mbind result_bind].
  destruct (Qeq_bool goal 0) eqn:E; [apply Qeq_bool_iff in E; lra|].
  eexists. split; [done|]. cbn [average_fitness percent_to_goal].
  rewrite Hn. set (af := (Qsum sf / inject_Z (PyList.len sf))%Q).
  destruct (mean_bounds 0 1 sf Hsfne Hb) as [Hlo Hhi]. fold af in Hlo, Hhi.
  split; [done|]. split; [done|].
  assert (Hk : (0 < / goal)%Q) by by apply Qinv_lt_0_compat.
  assert (Hgk : (goal * / goal == 1)%Q) by (apply Qmult_inv_r; lra).
  assert (Hak : (0 <= af * / goal)%Q) by (apply Qmult_le_0_compat; lra).
  unfold Qdiv. split; [lra|]. split.
  - intros Hp. apply (Qmult_le_r _ _ (/ goal)); [done|]. lra.
  - intros Ha. apply (Qmult_le_r _ _ (/ goal)) in Ha; [|done]. lra.
Qed.

End Facts.

(** *** On numbered organisms *)



Lemma report_zero_division_witness :
  report (fitness_below 1) (population 2) 0 5 = Raise ZeroDivisionError /\
  exists r,
    report (fitness_below 1) (population 2) 1 5 = Ok r /\
    generation r = 5 /\
    average_fitness r =
      (Qsum [1%Q; 0%Q] / inject_Z (PyList.len (population 2)))%Q.
Proof.
  split.
  - apply (report_zero_division (fitness_below 1) (population 2) 0 5
             [1%Q; 0%Q]); [vm_compute; reflexivity|].
    right. reflexivity.
  - apply (report_zero_division (fitness_below 1) (population 2) 1 5
             [1%Q; 0%Q]);
      [vm_compute; reflexivity|vm_compute; discriminate|].
    vm_compute. discriminate.
Defined.

Lemma report_percent_to_goal_witness :
  exists r,
    report fitness
      [Organism.mkInstance [mkChromosome [1; 0; 1; 1] [1; 0] 0]
         Organism.VNone None;
       Organism.mkInstance [mkChromosome [0; 0] [1; 0] 0]
         Organism.VNone None] 1 0 = Ok r /\
    (0 <= average_fitness r)%Q /\ (average_fitness r <= 1)%Q /\
    (-100 <= percent_to_goal r)%Q /\
    ((percent_to_goal r <= 0)%Q <-> (average_fitness r <= 1)%Q).
Proof.
  apply (report_percent_to_goal fitness
           [Organism.mkInstance [mkChromosome [1; 0; 1; 1] [1; 0] 0]
              Organism.VNone None;
            Organism.mkInstance [mkChromosome [0; 0] [1; 0] 0]
              Organism.VNone None] 1 0).
  - discriminate.
  - reflexivity.
  - repeat (constructor;
            [eexists; split;
             [vm_compute; reflexivity|split; unfold Qle; simpl; lia]|]).
    constructor.
Defined.

End PopulationMore.

Module BreedingFacts.
Import Crossover Breeding.

Implicit Types (h : store) (o : organism) (agents temp : list organism)
  (g : rng).

(** *** The draws and reads of a turn *)

Lemma randint_returns (a b : Z) g :
  a <= b ->
  randint a b g =
    Ok (a + draws g (cursor g) mod (b + 1 - a),
        Rng (draws g) (S (cursor g))) /\
  a <= a + draws g (cursor g) mod (b + 1 - a) <= b.
Proof.
  intros Hab. unfold randint, randrange2.
  destruct (Z.leb_spec (b + 1) a); [lia|]. split; [done|].
  pose proof (Z.mod_pos_bound (draws g (cursor g)) (b + 1 - a)). lia.
Qed.

Lemma getitem_head {A} (x : A) (l : list A) : PyList.getitem (x :: l) 0 = Ok x.
Proof.
  destruct (PyListFacts.getitem_inside (x :: l) 0) as (y & Hy & ->).
  - unfold PyList.len. rewrite length_cons. lia.
  - simpl in Hy. congruence.
Qed.

Lemma breedable_extends h h' o :
  extends h h' -> breedable h o -> breedable h' o.
Proof.
  intros [Hl Hc] (c & cs & q & l & Hg & Hq & Hs).
  exists c, cs, q, l. split; [done|]. split; [by apply Hc|by apply Hl].
Qed.

(** The first chromosome that [crossover] returns is a chromosome of the
    new store, and either a new object or the first argument itself. *)
Lemma crossover_first (c1 c2 : loc) (p : Z) h (o1 o2 : chromosome)
  (seq1 seq2 : list Z) :
  chromosomes h !! c1 = Some o1 -> chromosomes h !! c2 = Some o2 ->
  lists h !! sequence_ref o1 = Some seq1 ->
  lists h !! sequence_ref o2 = Some seq2 ->
  exists new1 new2 h1 q l,
    crossover c1 c2 p h = Ok (new1, new2, h1) /\ extends h h1 /\
    chromosomes h1 !! new1 = Some q /\ lists h1 !! sequence_ref q = Some l /\
    (chromosomes h !! new1 = None \/ new1 = c1).
Proof.
  intros H1 H2 Hs1 Hs2.
  destruct (decide (p < PyList.len seq1 \/ p < PyList.len seq2)) as [Hp|Hp].
  - destruct (CrossoverFacts.crossover_new c1 c2 p h o1 o2 seq1 seq2
                H1 H2 Hs1 Hs2 Hp)
      as (new1 & new2 & h1 & r1 & r2 & Hx & Hn1 & _ & _ & Hc1 & _ & _ &
          _ & _ & Hl1 & _ & Hext).
    exists new1, new2, h1,
      (mkObj r1 (base_ref o1) default_background_mutation),
      (PyList.slice_to seq1 p ++ PyList.slice_from seq2 p).
    split; [done|]. split; [done|]. split; [done|]. split; [done|by left].
  - exists c1, c2, h, o1, seq1.
    rewrite (CrossoverFacts.crossover_eq _ _ _ _ _ _ _ _ H1 H2 Hs1 Hs2).
    destruct (Z.ltb_spec p (PyList.len seq1)); [lia|].
    destruct (Z.ltb_spec p (PyList.len seq2)); [lia|]. simpl.
    split; [done|]. split; [apply CrossoverFacts.extends_refl|].
    split; [done|]. split; [done|by right].
Qed.

(** *** A turn, and the loop *)

Lemma mating_turn_returns agents temp g h :
  agents <> [] -> Forall (breedable h) agents ->
  exists new1 g' h',
    mating_turn agents (PyList.len agents) temp g h =
      Ok (temp ++ [new_Organism new1], g', h') /\
    extends h h' /\ breedable h' (new_Organism new1) /\
    born h agents (new_Organism new1).
Proof.
  intros Hne Hall.
  assert (Hsize : 0 < PyList.len agents).
  { unfold PyList.len. destruct agents; [done|]. rewrite length_cons. lia. }
  unfold mating_turn.
  destruct (randint_returns 0 (PyList.len agents - 1) g) as [-> Hi1]; [lia|].
  cbn [mbind result_bind].
  set (i1 := 0 + draws g (cursor g) mod (PyList.len agents - 1 + 1 - 0)) in *.
  destruct (PyListFacts.getitem_inside agents i1) as (o1 & Ho1 & ->); [lia|].
  cbn [mbind result_bind].
  set (ga := Rng (draws g) (S (cursor g))).
  destruct (randint_returns 0 (PyList.len agents - 1) ga) as [-> Hi2]; [lia|].
  cbn [mbind result_bind].
  set (i2 := 0 + draws ga (cursor ga) mod (PyList.len agents - 1 + 1 - 0))
    in *.
  destruct (PyListFacts.getitem_inside agents i2) as (o2 & Ho2 & ->); [lia|].
  cbn [mbind result_bind].
  set (gb := Rng (draws ga) (S (cursor ga))).
  pose proof (Forall_lookup_1 _ _ _ _ Hall Ho1)
    as (c1 & cs1 & q1 & l1 & Hg1 & Hq1 & Hs1).
  pose proof (Forall_lookup_1 _ _ _ _ Hall Ho2)
    as (c2 & cs2 & q2 & l2 & Hg2 & Hq2 & Hs2).
  rewrite Hg1, Hg2, !getitem_head. cbn [mbind result_bind].
  rewrite (CrossoverMore.sequence_of_lookup h c1 q1 l1 Hq1 Hs1).
  cbn [mbind result_bind].
  destruct (randint_returns 0 (PyList.len l1) gb) as [-> _];
    [apply PyListFacts.len_nonneg|].
  cbn [mbind result_bind].
  destruct (crossover_first c1 c2
              (0 + draws gb (cursor gb) mod (PyList.len l1 + 1 - 0)) h
              q1 q2 l1 l2 Hq1 Hq2 Hs1 Hs2)
    as (new1 & new2 & h1 & q & l & -> & Hext & Hq & Hl & Hnew).
  cbn [mbind result_bind].
  exists new1, (Rng (draws gb) (S (cursor gb))), h1.
  split; [done|]. split; [done|]. split.
  - by exists new1, [], q, l.
  - exists new1. split; [done|]. destruct Hnew as [Hnew| ->]; [by left|].
    right. exists o1. split; [by eapply list_elem_of_lookup_2|].
    by rewrite Hg1.
Qed.

Lemma born_extends h h1 agents o :
  extends h h1 -> born h1 agents o -> born h agents o.
Proof.
  intros [_ Hc] (c & Hg & Hb). exists c. split; [done|].
  destruct Hb as [Hb|Hb]; [left|by right].
  destruct (chromosomes h !! c) as [q|] eqn:E; [|done].
  apply Hc in E. congruence.
Qed.

Lemma mating_loop_returns (n : nat) agents temp g h :
  agents <> [] -> Forall (breedable h) agents ->
  exists kids g' h',
    mating_loop n agents (PyList.len agents) temp g h =
      Ok (temp ++ kids, g', h') /\
    length kids = n /\ extends h h' /\
    Forall (breedable h') kids /\ Forall (born h agents) kids.
Proof.
  intros Hne. revert temp g h.
  induction n as [|n IH]; intros temp g h Hall.
  - exists [], g, h. simpl. rewrite app_nil_r.
    split; [done|]. split; [done|].
    split; [apply CrossoverFacts.extends_refl|]. by split.
  - destruct (mating_turn_returns agents temp g h Hne Hall)
      as (new1 & g1 & h1 & Hturn & Hext & Hb & Hborn).
    assert (Hall1 : Forall (breedable h1) agents).
    { eapply Forall_impl; [exact Hall|].
      intros o. by apply breedable_extends. }
    destruct (IH (temp ++ [new_Organism new1]) g1 h1 Hall1)
      as (kids & g' & h' & Hloop & Hlen & Hext' & Hbs & Hborns).
    exists (new_Organism new1 :: kids), g', h'.
    cbn [mating_loop]. rewrite Hturn. cbn [mbind result_bind].
    rewrite Hloop, <- app_assoc. split; [done|].
    split; [simpl; lia|].
    split; [by eapply CrossoverFacts.extends_trans|]. split.
    + constructor; [by eapply breedable_extends|done].
    + constructor; [done|]. eapply Forall_impl; [exact Hborns|].
      intros o. by apply born_extends.
Qed.

(** X28. [mating] doubles the population. When the first chromosome of
    every organism is a Chromosome object with a list for its sequence, the
    call returns; the prior organisms are kept, in order, in front of as
    many offspring; every offspring has a genome of exactly one chromosome,
    which is either a new object or the first chromosome of one of the
    parents; nothing that was in the store is changed, and every organism of
    the new population can be a parent in turn. *)
Theorem mating_doubles agents g h :
  Forall (breedable h) agents ->
  exists offspring g' h',
    mating agents g h = Ok (agents ++ offspring, g', h') /\
    length offspring = length agents /\
    Forall (born h agents) offspring /\
    Forall (breedable h') (agents ++ offspring) /\
    extends h h'.
Proof.
  intros Hall. destruct (decide (agents = [])) as [->|Hne].
  - exists [], g, h. split; [done|]. split; [done|]. split; [done|].
    split; [done|apply CrossoverFacts.extends_refl].
  - destruct (mating_loop_returns (length agents) agents [] g h Hne Hall)
      as (kids & g' & h' & Hloop & Hlen & Hext & Hbs & Hborns).
    exists kids, g', h'. unfold mating, add_organism.
    replace (Z.to_nat (PyList.len agents)) with (length agents)
      by (unfold PyList.len; lia).
    rewrite Hloop. cbn [mbind result_bind]. split; [done|].
    split; [done|]. split; [done|]. split; [|done].
    apply Forall_app. split; [|done].
    eapply Forall_impl; [exact Hall|]. intros o. by apply breedable_extends.
Qed.

(** X29. An offspring can share its chromosome with its parent. In a
    population of one organism, whenever the draw for the crossover point
    gives the length of the sequence, [crossover] hands back its arguments
    and the offspring's genome holds the parent's own Chromosome object: no
    chromosome is made and the store is left as it was, so the two organisms
    have one chromosome between them. *)
Theorem mating_shares_chromosome (c : loc) (cs : list loc) (q : chromosome)
  (l : list Z) g h :
  chromosomes h !! c = Some q -> lists h !! sequence_ref q = Some l ->
  draws g (S (S (cursor g))) mod (PyList.len l + 1) = PyList.len l ->
  mating [mkOrganism (c :: cs)] g h =
  Ok ([mkOrganism (c :: cs); mkOrganism [c]],
      Rng (draws g) (S (S (S (cursor g)))), h).
Proof.
  intros Hq Hl Hdraw. unfold mating, add_organism.
  change (Z.to_nat (PyList.len [mkOrganism (c :: cs)])) with 1%nat.
  cbn [mating_loop]. unfold mating_turn.
  change (PyList.len [mkOrganism (c :: cs)] - 1) with 0.
  destruct (randint_returns 0 0 g) as [-> _]; [lia|].
  cbn [mbind result_bind].
  replace (0 + draws g (cursor g) mod (0 + 1 - 0)) with 0
    by (rewrite Z.mod_1_r; lia).
  rewrite getitem_head. cbn [mbind result_bind].
  set (ga := Rng (draws g) (S (cursor g))).
  destruct (randint_returns 0 0 ga) as [-> _]; [lia|].
  cbn [mbind result_bind].
  replace (0 + draws ga (cursor ga) mod (0 + 1 - 0)) with 0
    by (rewrite Z.mod_1_r; lia).
  rewrite getitem_head. cbn [mbind result_bind genome_refs].
  rewrite !getitem_head. cbn [mbind result_bind].
  rewrite (CrossoverMore.sequence_of_lookup h c q l Hq Hl).
  cbn [mbind result_bind].
  set (gb := Rng (draws ga) (S (cursor ga))).
  destruct (randint_returns 0 (PyList.len l) gb) as [-> _];
    [apply PyListFacts.len_nonneg|].
  cbn [mbind result_bind].
  replace (0 + draws gb (cursor gb) mod (PyList.len l + 1 - 0))
    with (PyList.len l)
    by (unfold gb, ga; cbn [draws cursor];
        replace (PyList.len l + 1 - 0) with (PyList.len l + 1) by lia;
        lia).
  rewrite (CrossoverFacts.crossover_eq _ _ _ _ _ _ _ _ Hq Hq Hl Hl).
  destruct (Z.ltb_spec (PyList.len l) (PyList.len l)); [lia|].
  cbn [orb mbind result_bind]. done.
Qed.

Lemma mating_doubles_witness :
  exists offspring g' h',
    mating population1 all_threes store2 =
      Ok (population1 ++ offspring, g', h') /\
    length offspring = length population1 /\
    Forall (born store2 population1) offspring /\
    Forall (breedable h') (population1 ++ offspring) /\
    extends store2 h'.
Proof.
  apply (mating_doubles population1 all_threes store2).
  repeat constructor.
  exists 1%positive, [],
    (mkObj 2%positive 1%positive default_background_mutation), [1; 2; 3].
  repeat split; vm_compute; reflexivity.
Defined.

Lemma mating_shares_chromosome_witness :
  mating population1 all_threes store2 =
  Ok ([mkOrganism [1%positive]; mkOrganism [1%positive]],
      Rng (fun _ => 3) 3, store2).
Proof.
  apply (mating_shares_chromosome 1%positive []
           (mkObj 2%positive 1%positive default_background_mutation)
           [1; 2; 3] all_threes store2);
    vm_compute; reflexivity.
Defined.

End BreedingFacts.
